(** * SDSValidator: a shallow embedding of [sds_validator.py]

    The validator reads a directory of roster CSV files, checks every
    file's header and every data row, writes a cleaned copy of each file
    and a JSON report.  This development embeds the code of
    [sds_validator.py] and proves properties of it.

    Conventions of the embedding:
    - a Python [str] is a [string]: the texts of the model are the texts
      of code points below 256.  Among these code points the decimal
      digits are the ASCII digits; the regular-expression class [\d]
      and [int] also take the decimal digits of other scripts (the
      full-width digits, for one), which no [string] holds.  What is
      proved of every text is proved of every text of code points below
      256;
    - a Python [int] is a [Z];
    - a [dict] with [str] keys is a [gmap string _], a [set] of [str] a
      [gset string];
    - a method of [SDSValidator] is a computation in the monad [M]: it
      threads the validator object and the file system, and it may raise;
    - library functions that are not part of the program (the e-mail
      address parser, the phone-number library, [repr], [str.lower]) are
      the fields of a record [PyLib] on which the development is
      parametric;
    - [datetime.strptime], [csv.DictReader], [csv.DictWriter],
      [os.path.join], [os.path.split], [shutil.rmtree], [os.makedirs] are
      modelled after CPython. *)

From Stdlib Require Import ZArith String Ascii List Bool Lia.
From stdpp Require Import base option list gmap strings sets.

Local Open Scope string_scope.
Local Open Scope Z_scope.

(** ** Characters and text *)

Module Text.

Definition code (c : ascii) : Z := Z.of_N (N_of_ascii c).

(** [lo <= c <= hi], the character class [[lo-hi]]. *)
Definition in_class (lo hi : ascii) (c : ascii) : bool :=
  (code lo <=? code c) && (code c <=? code hi).

Definition is_char (x : ascii) (c : ascii) : bool := Ascii.eqb x c.

(** [\d] on code points below 256: of these, the ASCII digits are the
    decimal digits. *)
Definition is_digit (c : ascii) : bool := in_class "0" "9" c.

Definition digit_value (c : ascii) : Z := code c - 48.

Definition is_empty (s : string) : bool :=
  match s with EmptyString => true | String _ _ => false end.

Fixpoint last_char (s : string) : option ascii :=
  match s with
  | EmptyString => None
  | String c EmptyString => Some c
  | String _ s' => last_char s'
  end.

Definition startswith_char (c : ascii) (s : string) : bool :=
  match s with String x _ => Ascii.eqb x c | EmptyString => false end.

Definition endswith_char (c : ascii) (s : string) : bool :=
  match last_char s with Some x => Ascii.eqb x c | None => false end.

(** [c in s] for a one-character [c]. *)
Fixpoint contains_char (c : ascii) (s : string) : bool :=
  match s with
  | EmptyString => false
  | String x s' => Ascii.eqb x c || contains_char c s'
  end.

(** [sep.join(l)] *)
Fixpoint join (sep : string) (l : list string) : string :=
  match l with
  | [] => ""
  | [x] => x
  | x :: l' => x +:+ sep +:+ join sep l'
  end.

End Text.

(** ** [datetime.strptime(date_str, '%Y-%m-%d')]

    CPython turns the format into the regular expression
    [(?P<Y>\d\d\d\d)-(?P<m>1[0-2]|0[1-9]|[1-9])-(?P<d>3[0-1]|[1-2]\d|0[1-9]|[1-9]| [1-9])],
    matches it at the start of the text, refuses text left over after the
    match, and builds the date from the three groups. *)

Module Strptime.
Import Text.

(** What a group of the expression matched: its value and the rest of
    the text. *)
Definition matcher := string -> option (Z * string).

Definition group_Y : matcher := fun s =>
  match s with
  | String a (String b (String c (String d rest))) =>
      if is_digit a && is_digit b && is_digit c && is_digit d
      then Some (1000 * digit_value a + 100 * digit_value b
                 + 10 * digit_value c + digit_value d, rest)
      else None
  | _ => None
  end.

Definition literal (x : ascii) (s : string) : option string :=
  match s with
  | String c rest => if is_char x c then Some rest else None
  | EmptyString => None
  end.

(** A branch of two character classes; [tens] says whether the first
    character is a digit of the number ([1[0-2]]) or not ([ [1-9]]). *)
Definition two (p1 p2 : ascii -> bool) (tens : bool) : matcher := fun s =>
  match s with
  | String a (String b rest) =>
      if p1 a && p2 b
      then Some ((if tens then 10 * digit_value a else 0) + digit_value b, rest)
      else None
  | _ => None
  end.

Definition one (p : ascii -> bool) : matcher := fun s =>
  match s with
  | String a rest => if p a then Some (digit_value a, rest) else None
  | EmptyString => None
  end.

(** [1[0-2]|0[1-9]|[1-9]] *)
Definition group_m : list matcher :=
  [ two (is_char "1") (in_class "0" "2") true;
    two (is_char "0") (in_class "1" "9") true;
    one (in_class "1" "9") ].

(** [3[0-1]|[1-2]\d|0[1-9]|[1-9]| [1-9]] *)
Definition group_d : list matcher :=
  [ two (is_char "3") (in_class "0" "1") true;
    two (in_class "1" "2") is_digit true;
    two (is_char "0") (in_class "1" "9") true;
    one (in_class "1" "9");
    two (is_char " ") (in_class "1" "9") false ].

(** Alternation with backtracking: the branches are tried in order, and
    a branch is kept only if the rest of the expression [k] matches
    after it. *)
Fixpoint alternation {A} (branches : list matcher)
    (k : Z -> string -> option A) (s : string) : option A :=
  match branches with
  | [] => None
  | br :: branches' =>
      match br s ≫= (fun vr => k vr.1 vr.2) with
      | Some r => Some r
      | None => alternation branches' k s
      end
  end.

(** [format_regex.match(data_string)]: year, month, day and the text
    after the match. *)
Definition regex_match (s : string) : option (Z * Z * Z * string) :=
  match group_Y s with
  | None => None
  | Some (y, s1) =>
      match literal "-" s1 with
      | None => None
      | Some s2 =>
          alternation group_m (fun m s3 =>
            match literal "-" s3 with
            | None => None
            | Some s4 =>
                alternation group_d (fun d rest => Some (y, m, d, rest)) s4
            end) s2
      end
  end.

(** [datetime._is_leap] and [datetime._days_in_month] *)
Definition _is_leap (year : Z) : bool :=
  (year mod 4 =? 0) && (negb (year mod 100 =? 0) || (year mod 400 =? 0)).

Definition _DAYS_IN_MONTH : list Z :=
  [-1; 31; 28; 31; 30; 31; 30; 31; 31; 30; 31; 30; 31].

Definition _days_in_month (year month : Z) : Z :=
  if (month =? 2) && _is_leap year then 29
  else nth (Z.to_nat month) _DAYS_IN_MONTH (-1).

(** The checks of the [date] constructor. *)
Definition _check_date_fields (year month day : Z) : bool :=
  (1 <=? year) && (year <=? 9999) && (1 <=? month) && (month <=? 12)
  && (1 <=? day) && (day <=? _days_in_month year month).

(** [Some (year, month, day)], or [None] for [ValueError]. *)
Definition strptime (date_string : string) : option (Z * Z * Z) :=
  match regex_match date_string with
  | None => None                       (* does not match format *)
  | Some (y, m, d, rest) =>
      if negb (is_empty rest) then None (* unconverted data remains *)
      else if _check_date_fields y m d then Some (y, m, d)
      else None                        (* out of range *)
  end.

End Strptime.

(** [SDSValidator._is_valid_date] *)
Definition _is_valid_date (date_str : string) : bool :=
  match Strptime.strptime date_str with
  | Some _ => true
  | None => false
  end.

(** ** Library functions the program calls *)

(** The functions of [email.utils], [phonenumbers] and the built-ins whose
    text output the program only copies into messages. *)
Record PyLib := {
  (** [email.utils.parseaddr]: real name and address *)
  parseaddr : string -> string * string;
  (** [str.lower] *)
  lower : string -> string;
  (** [phonenumbers.is_valid_number(phonenumbers.parse(phone, None))],
      [None] when either of them raises *)
  phonenumbers_valid : string -> option bool;
  (** [repr] of a [str] *)
  repr : string -> string;
}.

(** ** Data model *)

(** [@dataclass ValidationError] *)
Record ValidationError := {
  file : string;
  line : Z;
  field : string;
  message : string;
}.

(** A row as [csv.DictReader] yields it: a [dict] whose [str] keys map to
    a cell or to [None] (the [restval] of a short row), and whose key
    [None] (the [restkey]), when the row is longer than the header, maps
    to the list of surplus cells. *)
Record Record_ := {
  fields : gmap string (option string);
  rest : option (list string);
}.

(** The report as [validate_all] builds it, before [json.dump]. *)
Record Report := {
  hasErrors : bool;
  report_errors : list ValidationError;
  removedRecords : gmap string (list Record_);
}.

(** Exceptions, and [str(e)]. *)
Inductive exn :=
| KeyError (key : string)
| ValueError (msg : string)
| OSError (msg : string).

(** ** The file system

    A map from paths to what they hold.  Paths are compared as text: a
    path has one spelling, without [.] and [..] parts and without
    doubled separators.  A file is what [csv.reader] makes of it: the
    rows it yields, and the error (of decoding or of parsing) that ends
    the reading if there is one. *)
Inductive content :=
| Csv (rows : list (list string)) (failure : option string)
| Json (r : Report).

Inductive node :=
| Dir
| File (c : content).

Module Os.
Import Text.

(** [posixpath.join(a, b)] *)
Definition path_join (a b : string) : string :=
  if startswith_char "/" b then b
  else if is_empty a || endswith_char "/" a then a +:+ b
  else a +:+ "/" +:+ b.

(** Is [k] a path beneath the directory [p]? *)
Definition beneath (p k : string) : bool :=
  String.prefix (path_join p "") k && negb (String.eqb (path_join p "") k).

(** [os.path.exists] *)
Definition path_exists (fs : gmap string node) (p : string) : bool :=
  bool_decide (is_Some (fs !! p)).

(** [shutil.rmtree]: the directory and all beneath it are removed; on a
    path that is not a directory it raises. *)
Definition rmtree (fs : gmap string node) (p : string)
    : exn + gmap string node :=
  match fs !! p with
  | Some Dir => inr (filter (fun kv => negb (beneath p kv.1)) (delete p fs))
  | Some (File _) => inl (OSError "Not a directory")
  | None => inl (OSError "No such file or directory")
  end.

(** [str.rstrip('/')] *)
Fixpoint rstrip_sep (s : string) : string :=
  match s with
  | EmptyString => ""
  | String c s' =>
      let r := rstrip_sep s' in
      if is_empty r && is_char "/" c then "" else String c r
  end.

(** [p[:i], p[i:]] for [i = p.rfind('/') + 1] *)
Fixpoint rsplit_sep (p : string) : string * string :=
  match p with
  | EmptyString => ("", "")
  | String c p' =>
      let '(head, tail) := rsplit_sep p' in
      if is_empty head then
        if is_char "/" c then (String c "", tail) else ("", String c tail)
      else (String c head, tail)
  end.

(** [posixpath.split]: the separators that end the head are stripped,
    unless it is made of separators only. *)
Definition split (p : string) : string * string :=
  let '(head, tail) := rsplit_sep p in
  (if negb (is_empty head) && negb (is_empty (rstrip_sep head))
   then rstrip_sep head else head,
   tail).

(** [posixpath.dirname] *)
Definition dirname (p : string) : string := (split p).1.

(** The root and the directory that a relative path starts from are
    directories without being keys of the map: the empty head and the
    head made of separators. *)
Definition always_there (p : string) : bool := is_empty (rstrip_sep p).

(** [os.path.exists] of the head of a path. *)
Definition head_exists (fs : gmap string node) (p : string) : bool :=
  always_there p || path_exists fs p.

(** [os.mkdir], of a path that does not end with a separator: the
    directory above must be there and be a directory, and the path must
    not exist. *)
Definition mkdir (fs : gmap string node) (p : string)
    : exn + gmap string node :=
  match (if always_there (dirname p) then Some Dir else fs !! dirname p) with
  | None => inl (OSError "No such file or directory")
  | Some (File _) => inl (OSError "Not a directory")
  | Some Dir =>
      match fs !! p with
      | Some _ => inl (OSError "File exists")
      | None => inr (<[p := Dir]> fs)
      end
  end.

Definition is_FileExistsError (e : exn) : bool :=
  match e with
  | OSError msg => String.eqb msg "File exists"
  | _ => false
  end.

(** [os.makedirs(name)], which calls itself on the head of [name] when
    that does not exist.  [depth] bounds the calls within calls; the
    bound that [makedirs] gives is never reached. *)
Fixpoint makedirs_within (depth : nat) (fs : gmap string node) (name : string)
    : exn + gmap string node :=
  match depth with
  | O => inl (OSError "maximum recursion depth exceeded")
  | S depth' =>
      let '(head, tail) := split name in
      let '(head, tail) := if is_empty tail then split head else (head, tail) in
      if negb (is_empty head) && negb (is_empty tail) && negb (head_exists fs head)
      then
        match
          (match makedirs_within depth' fs head with
           | inl e => if is_FileExistsError e then inr fs else inl e
           | inr fs' => inr fs'
           end)
        with
        | inl e => inl e
        | inr fs' =>
            (* xxx/newdir/. exists if xxx/newdir exists *)
            if String.eqb tail "." then inr fs' else mkdir fs' name
        end
      else mkdir fs name
  end.

(** Every call within a call is on a shorter path, so the length of the
    path bounds them. *)
Definition makedirs (fs : gmap string node) (name : string)
    : exn + gmap string node :=
  makedirs_within (S (String.length name)) fs name.

End Os.

(** ** The validator object and the monad of its methods *)

(** The attributes of [SDSValidator]. *)
Record SDSValidator := {
  directory_path : string;
  errors : list ValidationError;
  data_cache : gmap string (list Record_);
  sourcedid_cache : gmap string (gset string);
  removed_records : gmap string (list Record_);
  output_directory : string;
  report_file : string;
}.

(** What a method acts on: [self] and the file system. *)
Record World := {
  self : SDSValidator;
  fs : gmap string node;
}.

Definition set_errors (v : list ValidationError) (w : World) : World :=
  {| self := {| directory_path := directory_path (self w);
                errors := v;
                data_cache := data_cache (self w);
                sourcedid_cache := sourcedid_cache (self w);
                removed_records := removed_records (self w);
                output_directory := output_directory (self w);
                report_file := report_file (self w) |};
     fs := fs w |}.

Definition set_data_cache (v : gmap string (list Record_)) (w : World) : World :=
  {| self := {| directory_path := directory_path (self w);
                errors := errors (self w);
                data_cache := v;
                sourcedid_cache := sourcedid_cache (self w);
                removed_records := removed_records (self w);
                output_directory := output_directory (self w);
                report_file := report_file (self w) |};
     fs := fs w |}.

Definition set_sourcedid_cache (v : gmap string (gset string)) (w : World) : World :=
  {| self := {| directory_path := directory_path (self w);
                errors := errors (self w);
                data_cache := data_cache (self w);
                sourcedid_cache := v;
                removed_records := removed_records (self w);
                output_directory := output_directory (self w);
                report_file := report_file (self w) |};
     fs := fs w |}.

Definition set_removed_records (v : gmap string (list Record_)) (w : World) : World :=
  {| self := {| directory_path := directory_path (self w);
                errors := errors (self w);
                data_cache := data_cache (self w);
                sourcedid_cache := sourcedid_cache (self w);
                removed_records := v;
                output_directory := output_directory (self w);
                report_file := report_file (self w) |};
     fs := fs w |}.

Definition set_fs (v : gmap string node) (w : World) : World :=
  {| self := self w; fs := v |}.

Inductive outcome (A : Type) :=
| Ok (a : A)
| Raise (e : exn).
Arguments Ok {A} a.
Arguments Raise {A} e.

(** A method returns or raises, and leaves a world behind in both cases:
    what it appended or wrote before raising stays. *)
Definition M (A : Type) : Type := World -> outcome A * World.

Definition ret {A} (a : A) : M A := fun w => (Ok a, w).

Definition bind {A B} (m : M A) (k : A -> M B) : M B := fun w =>
  match m w with
  | (Ok a, w') => k a w'
  | (Raise e, w') => (Raise e, w')
  end.

Definition raise {A} (e : exn) : M A := fun w => (Raise e, w).

(** [try: body except Exception as e: handler(e)] *)
Definition try_except {A} (body : M A) (handler : exn -> M A) : M A := fun w =>
  match body w with
  | (Ok a, w') => (Ok a, w')
  | (Raise e, w') => handler e w'
  end.

Definition get : M World := fun w => (Ok w, w).

Definition modify (f : World -> World) : M unit := fun w => (Ok tt, f w).

Notation "'let*' x ':=' m 'in' k" := (bind m (fun x => k))
  (at level 10, x pattern, m at level 100, k at level 200).
Notation "m ';;;' k" := (bind m (fun _ => k))
  (at level 100, k at level 200, right associativity).

(** [self.errors.append(e)] *)
Definition append_error (e : ValidationError) : M unit :=
  modify (fun w => set_errors (errors (self w) ++ [e]) w).

(** ** Python values and the static tables *)

(** [str(v)] inside an f-string, for a cell that may be [None]. *)
Definition py_str (v : option string) : string :=
  match v with Some s => s | None => "None" end.

(** Truth value of a cell: [None] and [''] are false. *)
Definition truthy (v : option string) : bool :=
  match v with Some s => negb (Text.is_empty s) | None => false end.

(** [a or b] *)
Definition py_or (a : option string) (b : string) : string :=
  if truthy a then py_str a else b.

(** [record.get(k)] *)
Definition dict_get (r : Record_) (k : string) : option string :=
  match fields r !! k with Some v => v | None => None end.

(** [k in record] *)
Definition dict_has (r : Record_) (k : string) : bool :=
  match fields r !! k with Some _ => true | None => false end.

(** [record[k]] *)
Definition dict_item (r : Record_) (k : string) : M (option string) :=
  match fields r !! k with Some v => ret v | None => raise (KeyError k) end.

(** [v in s] for a cell [v] and a set of [str]. *)
Definition in_set (v : option string) (s : gset string) : bool :=
  match v with Some x => bool_decide (x ∈ s) | None => false end.

(** [v in l] for a cell [v] and a list of [str]. *)
Definition in_list (v : option string) (l : list string) : bool :=
  match v with Some x => bool_decide (x ∈ l) | None => false end.

(** A literal [dict] of the source, and [d.get(k)]. *)
Fixpoint table_get {A} (d : list (string * A)) (k : string) : option A :=
  match d with
  | [] => None
  | (k', v) :: d' => if String.eqb k' k then Some v else table_get d' k
  end.

Definition headers : list (string * list string) :=
  [ ("orgs.csv", ["sourcedId"; "name"; "type"; "parentSourcedId"]);
    ("users.csv", ["sourcedId"; "username"; "givenName"; "familyName"; "password";
                   "activeDirectoryMatchId"; "email"; "phone"; "sms"]);
    ("roles.csv", ["userSourcedId"; "orgSourcedId"; "role"; "sessionSourcedId";
                   "grade"; "isPrimary"; "roleStartDate"; "roleEndDate"]);
    ("classes.csv", ["sourcedId"; "orgSourcedId"; "title"; "sessionSourcedIds";
                     "courseSourcedId"]);
    ("enrollments.csv", ["classSourcedId"; "userSourcedId"; "role"]);
    ("academicSessions.csv", ["sourcedId"; "title"; "type"; "startDate"; "endDate";
                              "parentSourcedId"]);
    ("courses.csv", ["sourcedId"; "orgSourcedId"; "title"; "courseCode"; "grades"]) ].

Definition sds_v21_headers : list (string * list string) :=
  [ ("roles.csv", ["sourcedId"; "userSourcedId"; "orgSourcedId"; "role";
                   "sessionSourcedId"]);
    ("enrollments.csv", ["sourcedId"; "classSourcedId"; "userSourcedId"; "role"]) ].

Definition required : list (string * list string) :=
  [ ("orgs.csv", ["sourcedId"; "name"; "type"]);
    ("users.csv", ["sourcedId"; "username"]);
    ("roles.csv", ["userSourcedId"; "orgSourcedId"; "role"]);
    ("classes.csv", ["sourcedId"; "orgSourcedId"; "title"]);
    ("enrollments.csv", ["classSourcedId"; "userSourcedId"; "role"]);
    ("academicSessions.csv", ["sourcedId"; "title"; "type"; "startDate"; "endDate"]);
    ("courses.csv", ["sourcedId"; "orgSourcedId"; "title"]) ].

Definition sds_v21_required : list (string * list string) :=
  [ ("roles.csv", ["sourcedId"; "userSourcedId"; "orgSourcedId"; "role"]);
    ("enrollments.csv", ["sourcedId"; "classSourcedId"; "userSourcedId"; "role"]) ].

Definition required_files : list string := ["orgs.csv"; "users.csv"; "roles.csv"].

Definition optional_files : list string :=
  ["classes.csv"; "enrollments.csv"; "academicSessions.csv"; "courses.csv"].

Definition date_fields : list string :=
  ["startDate"; "endDate"; "roleStartDate"; "roleEndDate"].

(** [set(a) == set(b)] *)
Definition set_eq (a b : list string) : bool :=
  bool_decide (list_to_set a =@{gset string} list_to_set b).

(** [header_valid] as [_validate_and_fix_file] computes it. *)
Definition header_valid (filename : string) (actual : list string) : bool :=
  let header_valid := set_eq actual (default [] (table_get headers filename)) in
  match table_get sds_v21_headers filename with
  | Some alt => if negb header_valid then set_eq actual alt else header_valid
  | None => header_valid
  end.

(** [output_headers] as [_validate_and_fix_file] chooses them. *)
Definition output_headers (filename : string) (actual : list string) : list string :=
  match table_get sds_v21_headers filename with
  | Some alt =>
      if set_eq actual alt then alt else default [] (table_get headers filename)
  | None => default [] (table_get headers filename)
  end.

(** ** [csv.DictReader] and [csv.DictWriter] *)

(** [dict(items)]: a later item replaces an earlier one with its key. *)
Definition dict_of_items (items : list (string * option string))
    : gmap string (option string) :=
  foldl (fun d kv => <[kv.1 := kv.2]> d) ∅ items.

(** [DictReader.__next__] on a row that is not blank. *)
Definition DictReader_row (fieldnames row : list string) : Record_ :=
  let d := dict_of_items (zip fieldnames (Some <$> row)) in
  let lf := length fieldnames in
  let lr := length row in
  if (lf <? lr)%nat then {| fields := d; rest := Some (drop lf row) |}
  else {| fields := foldl (fun d key => <[key := None]> d) d (drop lr fieldnames);
          rest := None |}.

(** The rows [csv.reader] yields for a file.  Of a report only the first
    line matters: [json.dump] with an indent starts with a line holding
    an opening brace, which is the header of no file, so that reading
    stops there. *)
Definition csv_rows (c : content) : list (list string) * option string :=
  match c with
  | Csv rows failure => (rows, failure)
  | Json _ => ([["{"]], None)
  end.

(** [reader.fieldnames]: the first row, [None] for an empty file. *)
Definition reader_fieldnames (c : content) : M (option (list string)) :=
  match csv_rows c with
  | (h :: _, _) => ret (Some h)
  | ([], Some msg) => raise (ValueError msg)
  | ([], None) => ret None
  end.

(** [list(reader)]: blank rows are skipped. *)
Definition reader_list (c : content) : M (list Record_) :=
  match csv_rows c with
  | (_, Some msg) => raise (ValueError msg)
  | (rows, None) =>
      ret (DictReader_row (default [] (head rows))
             <$> filter (fun r => r ≠ []) (tail rows))
  end.

(** [DictWriter._dict_to_list]: the keys of the row that are not field
    names, then the cells in the order of the field names. *)
Definition wrong_fields (fieldnames : list string) (row : Record_)
    : list (option string) :=
  (Some <$> filter (fun k => k ∉ fieldnames) (map_to_list (fields row)).*1)
  ++ (match rest row with Some _ => [None] | None => [] end).

(** ** The methods of [SDSValidator] *)

Section Validator.
Context (lib : PyLib).

Definition repr_list (l : list string) : string :=
  "[" +:+ Text.join ", " (repr lib <$> l) +:+ "]".

Definition repr_key (k : option string) : string :=
  match k with Some s => repr lib s | None => "None" end.

Definition exn_str (e : exn) : string :=
  match e with
  | KeyError k => repr lib k
  | ValueError msg => msg
  | OSError msg => msg
  end.

Definition _dict_to_list (fieldnames : list string) (row : Record_)
    : exn + list string :=
  match wrong_fields fieldnames row with
  | [] => inr ((fun k => default "" (dict_get row k)) <$> fieldnames)
  | wrong => inl (ValueError ("dict contains fields not in fieldnames: "
                              +:+ Text.join ", " (repr_key <$> wrong)))
  end.

(** [writer.writerows(rows)]: the rows written before one is refused
    stay in the file. *)
Fixpoint writerows (fieldnames : list string) (rows : list Record_)
    (written : list (list string)) : list (list string) * option exn :=
  match rows with
  | [] => (written, None)
  | row :: rows' =>
      match _dict_to_list fieldnames row with
      | inr cells => writerows fieldnames rows' (written ++ [cells])
      | inl e => (written, Some e)
      end
  end.

Definition IsADirectoryError (path : string) : exn :=
  OSError ("[Errno 21] Is a directory: " +:+ repr lib path).

Definition FileNotFoundError (path : string) : exn :=
  OSError ("[Errno 2] No such file or directory: " +:+ repr lib path).

(** [open(infile, 'r')] *)
Definition open_read (path : string) : M content := fun w =>
  match fs w !! path with
  | Some (File c) => (Ok c, w)
  | Some Dir => (Raise (IsADirectoryError path), w)
  | None => (Raise (FileNotFoundError path), w)
  end.

(** [with open(path, 'w') as f: DictWriter(f, fieldnames).writeheader();
    writerows(rows)].  The directory of [path] exists whenever
    [validate_all] gets here. *)
Definition write_csv (path : string) (fieldnames : list string)
    (rows : list Record_) : M unit := fun w =>
  match fs w !! path with
  | Some Dir => (Raise (IsADirectoryError path), w)
  | _ =>
      let '(written, e) := writerows fieldnames rows [fieldnames] in
      let w' := set_fs (<[path := File (Csv written None)]> (fs w)) w in
      (match e with None => Ok tt | Some e => Raise e end, w')
  end.

(** [with open(path, 'w') as rf: json.dump(report, rf)] *)
Definition write_json (path : string) (r : Report) : M unit := fun w =>
  match fs w !! path with
  | Some Dir => (Raise (IsADirectoryError path), w)
  | _ => (Ok tt, set_fs (<[path := File (Json r)]> (fs w)) w)
  end.

Definition _is_valid_email (email : string) : bool :=
  let a := (parseaddr lib email).2 in
  negb (Text.is_empty a) && Text.contains_char "@" a && String.eqb a (lower lib a).

Definition _is_valid_phone (phone : string) : bool :=
  match phonenumbers_valid lib phone with
  | Some b => b
  | None => false
  end.

Definition mkerr (filename : string) (ln : Z) (fld msg : string) : ValidationError :=
  {| file := filename; line := ln; field := fld; message := msg |}.

(** The loop of [_validate_required_fields]. *)
Fixpoint required_loop (filename : string) (record : Record_) (ln : Z)
    (req_fields : list string) (ok : bool) : M bool :=
  match req_fields with
  | [] => ret ok
  | fld :: req_fields' =>
      if negb (truthy (dict_get record fld)) then
        append_error (mkerr filename ln fld ("Required field " +:+ fld +:+ " missing"));;;
        required_loop filename record ln req_fields' false
      else required_loop filename record ln req_fields' ok
  end.

Definition _validate_required_fields (filename : string) (record : Record_)
    (ln : Z) : M bool :=
  let req_fields := default [] (table_get required filename) in
  let req_fields :=
    match table_get sds_v21_required filename with
    | Some alt => if dict_has record "sourcedId" then alt else req_fields
    | None => req_fields
    end in
  required_loop filename record ln req_fields true.

(** One [if k in record and record[k] and not valid(record[k])] of
    [_validate_data_types]. *)
Definition check_format (filename : string) (record : Record_) (ln : Z)
    (k : string) (valid : string -> bool) (what : string) (ok : bool) : M bool :=
  if dict_has record k then
    let* v := dict_item record k in
    if truthy v && negb (valid (py_str v)) then
      append_error (mkerr filename ln k ("Invalid " +:+ what +:+ " " +:+ py_str v));;;
      ret false
    else ret ok
  else ret ok.

Fixpoint dates_loop (filename : string) (record : Record_) (ln : Z)
    (dts : list string) (ok : bool) : M bool :=
  match dts with
  | [] => ret ok
  | dt :: dts' =>
      let* ok := check_format filename record ln dt _is_valid_date "date" ok in
      dates_loop filename record ln dts' ok
  end.

Definition _validate_data_types (filename : string) (record : Record_)
    (ln : Z) : M bool :=
  let ok := true in
  let* ok := check_format filename record ln "email" _is_valid_email "email" ok in
  let* ok := check_format filename record ln "phone" _is_valid_phone "phone" ok in
  let* ok := dates_loop filename record ln date_fields ok in
  if dict_has record "enabledUser" then
    let* v := dict_item record "enabledUser" in
    if negb (in_list v ["true"; "false"]) then
      append_error (mkerr filename ln "enabledUser" ("Invalid boolean " +:+ py_str v));;;
      ret false
    else ret ok
  else ret ok.

(** One [if ref in self.sourcedid_cache and record[k] not in
    self.sourcedid_cache[ref]] of [_validate_cross_reference]. *)
Definition check_ref (filename : string) (record : Record_) (ln : Z)
    (ref k : string) (ok : bool) : M bool :=
  let* w := get in
  match sourcedid_cache (self w) !! ref with
  | Some ids =>
      let* v := dict_item record k in
      if negb (in_set v ids) then
        append_error (mkerr filename ln k ("Missing ref " +:+ py_str v));;;
        ret false
      else ret ok
  | None => ret ok
  end.

Definition _validate_cross_reference (filename : string) (record : Record_)
    (ln : Z) : M bool :=
  let ok := true in
  let* ok :=
    if String.eqb filename "roles.csv" then
      let* ok := check_ref filename record ln "users.csv" "userSourcedId" ok in
      check_ref filename record ln "orgs.csv" "orgSourcedId" ok
    else ret ok in
  if String.eqb filename "enrollments.csv" then
    let* ok := check_ref filename record ln "users.csv" "userSourcedId" ok in
    check_ref filename record ln "classes.csv" "classSourcedId" ok
  else ret ok.

Definition _validate_record (filename : string) (record : Record_) (ln : Z)
    : M bool :=
  let ok := true in
  let* r := _validate_required_fields filename record ln in
  let ok := if negb r then false else ok in
  let* r := _validate_data_types filename record ln in
  let ok := if negb r then false else ok in
  let* r := _validate_cross_reference filename record ln in
  let ok := if negb r then false else ok in
  ret ok.

(** [row.get('sourcedId') or row.get('classSourcedId') or ''] *)
Definition row_sid (row : Record_) : string :=
  py_or (dict_get row "sourcedId") (py_or (dict_get row "classSourcedId") "").

(** [filename not in ['roles.csv', 'enrollments.csv']] *)
Definition checks_duplicates (filename : string) : bool :=
  negb (bool_decide (filename ∈ ["roles.csv"; "enrollments.csv"])).

(** The loop [for idx, row in enumerate(rows, start=2)] with its three
    local variables. *)
Fixpoint rows_loop (filename : string) (rows : list Record_) (idx : Z)
    (cleaned : list Record_) (seen : gset string) (removed : list Record_)
    : M (list Record_ * gset string * list Record_) :=
  match rows with
  | [] => ret (cleaned, seen, removed)
  | row :: rows' =>
      let sid := row_sid row in
      if checks_duplicates filename && bool_decide (sid ∈ seen) then
        append_error (mkerr filename idx "sourcedId" ("Duplicate sourcedId: " +:+ sid));;;
        rows_loop filename rows' (idx + 1) cleaned seen (removed ++ [row])
      else
        let* ok := _validate_record filename row idx in
        if ok then rows_loop filename rows' (idx + 1) (cleaned ++ [row]) (seen ∪ {[sid]}) removed
        else rows_loop filename rows' (idx + 1) cleaned seen (removed ++ [row])
  end.

(** The text of [expected] in the message of a header error. *)
Definition expected_text (filename : string) : string :=
  let expected := repr_list (default [] (table_get headers filename)) in
  match table_get sds_v21_headers filename with
  | Some alt => expected +:+ " または " +:+ repr_list alt
  | None => expected
  end.

Definition header_error (filename : string) (actual : list string)
    : ValidationError :=
  mkerr filename 1 "header"
    ("Invalid header. Expected " +:+ expected_text filename
     +:+ ", got " +:+ repr_list actual).

(** The error of the [except Exception as e] clause. *)
Definition file_error (filename : string) (e : exn) : ValidationError :=
  mkerr filename 0 "" (exn_str e).

Definition missing_file_error (fname : string) : ValidationError :=
  mkerr fname 0 "" ("Required file " +:+ fname +:+ " not found").

Definition _validate_and_fix_file (filename : string) : M unit :=
  let* w := get in
  let infile := Os.path_join (directory_path (self w)) filename in
  let outfile := Os.path_join (output_directory (self w)) filename in
  try_except
    (let* f := open_read infile in
     let* fieldnames := reader_fieldnames f in
     let actual := default [] fieldnames in
     if negb (header_valid filename actual) then
       append_error (header_error filename actual)
     else
       let* rows := reader_list f in
       let* (cleaned, seen, removed) := rows_loop filename rows 2 [] ∅ [] in
       (if negb (bool_decide (removed = [])) then
          modify (fun w => set_removed_records
                             (<[filename := removed]> (removed_records (self w))) w)
        else ret tt);;;
       write_csv outfile (output_headers filename actual) cleaned;;;
       modify (fun w => set_data_cache (<[filename := cleaned]> (data_cache (self w))) w);;;
       modify (fun w => set_sourcedid_cache
                          (<[filename := seen]> (sourcedid_cache (self w))) w))
    (fun e => append_error (file_error filename e)).

(** The loop of [_validate_file_existence]. *)
Fixpoint existence_loop (fnames : list string) : M unit :=
  match fnames with
  | [] => ret tt
  | fname :: fnames' =>
      let* w := get in
      (if negb (Os.path_exists (fs w) (Os.path_join (directory_path (self w)) fname)) then
         append_error (missing_file_error fname)
       else ret tt);;;
      existence_loop fnames'
  end.

Definition _validate_file_existence : M unit :=
  existence_loop ["orgs.csv"; "users.csv"; "roles.csv"].

(** The loop [for fname in required + optional] of [validate_all]. *)
Fixpoint files_loop (fnames : list string) : M unit :=
  match fnames with
  | [] => ret tt
  | fname :: fnames' =>
      let* w := get in
      (if Os.path_exists (fs w) (Os.path_join (directory_path (self w)) fname) then
         _validate_and_fix_file fname
       else ret tt);;;
      files_loop fnames'
  end.

(** An operation of [os] or [shutil] on the file system. *)
Definition fs_op (op : gmap string node -> exn + gmap string node) : M unit :=
  fun w => match op (fs w) with
           | inr fs' => (Ok tt, set_fs fs' w)
           | inl e => (Raise e, w)
           end.

(** The steps of [validate_all], named by the comments that head them
    in the source. *)

(** [# Reset state] *)
Definition reset_state : M unit :=
  modify (set_errors []);;;
  modify (set_removed_records ∅).

(** [# Prepare output directory] *)
Definition prepare_output_directory : M unit :=
  let* w := get in
  (if Os.path_exists (fs w) (output_directory (self w)) then
     fs_op (fun fs => Os.rmtree fs (output_directory (self w)))
   else ret tt);;;
  fs_op (fun fs => Os.makedirs fs (output_directory (self w))).

(** [# Build and write JSON report] *)
Definition write_report : M unit :=
  let* w := get in
  let report := {| hasErrors := (0 <? length (errors (self w)))%nat;
                   report_errors := errors (self w);
                   removedRecords := removed_records (self w) |} in
  write_json (report_file (self w)) report.

Definition validate_all : M (list ValidationError * string * string) :=
  reset_state;;;
  prepare_output_directory;;;
  (* Ensure required files are present *)
  _validate_file_existence;;;
  (* Process both required and optional files *)
  files_loop (required_files ++ optional_files);;;
  write_report;;;
  let* w := get in
  ret (errors (self w), output_directory (self w), report_file (self w)).

End Validator.

(** [SDSValidator.__init__] *)
Definition __init__ (directory_path : string) : SDSValidator :=
  {| directory_path := directory_path;
     errors := [];
     data_cache := ∅;
     sourcedid_cache := ∅;
     removed_records := ∅;
     output_directory := Os.path_join directory_path "validated_output";
     report_file := Os.path_join directory_path "validation_report.json" |}.

(** A run, as [main] makes it: a fresh validator, then [validate_all]. *)
Definition run (lib : PyLib) (directory : string) (files : gmap string node)
    : outcome (list ValidationError * string * string) * World :=
  validate_all lib {| self := __init__ directory; fs := files |}.

(** ** The date texts

    [DateText.accepted] says in closed form which texts
    [datetime.strptime] takes for a date with the format [%Y-%m-%d]:
    four digits, a month and a day of one or two characters, and a day
    that exists.  [spec_date_ok] is the stricter reading of the
    specification: the exact pattern [YYYY-MM-DD] with two-digit month and
    day, and a date of the calendar. *)

Module DateText.
Import Text Strptime.

Inductive year_text : string -> Z -> Prop :=
| year_4 a b c d :
    is_digit a = true -> is_digit b = true ->
    is_digit c = true -> is_digit d = true ->
    year_text (String a (String b (String c (String d ""))))
      (1000 * digit_value a + 100 * digit_value b + 10 * digit_value c + digit_value d).

Inductive month_text : string -> Z -> Prop :=
| month_10 c : in_class "0" "2" c = true ->
    month_text (String "1" (String c "")) (10 + digit_value c)
| month_0 c : in_class "1" "9" c = true ->
    month_text (String "0" (String c "")) (digit_value c)
| month_1 c : in_class "1" "9" c = true ->
    month_text (String c "") (digit_value c).

Inductive day_text : string -> Z -> Prop :=
| day_30 c : in_class "0" "1" c = true ->
    day_text (String "3" (String c "")) (30 + digit_value c)
| day_10 a b : in_class "1" "2" a = true -> is_digit b = true ->
    day_text (String a (String b "")) (10 * digit_value a + digit_value b)
| day_0 c : in_class "1" "9" c = true ->
    day_text (String "0" (String c "")) (digit_value c)
| day_1 c : in_class "1" "9" c = true ->
    day_text (String c "") (digit_value c)
| day_space c : in_class "1" "9" c = true ->
    day_text (String " " (String c "")) (digit_value c).

Definition accepted (s : string) : Prop :=
  exists ys ms ds y m d,
    s = ys +:+ "-" +:+ ms +:+ "-" +:+ ds
    /\ year_text ys y /\ month_text ms m /\ day_text ds d
    /\ 1 <= y /\ d <= _days_in_month y m.

End DateText.

(** The date format in the words of the specification: the exact pattern
    [YYYY-MM-DD], four-digit year, two-digit zero-padded month and day,
    separated by hyphens, and a date that exists in the calendar. *)
Definition spec_date_ok (s : string) : bool :=
  match s with
  | String y1 (String y2 (String y3 (String y4 (String "-"
      (String m1 (String m2 (String "-" (String d1 (String d2 "")))))))))%char =>
      let dv := Text.digit_value in
      let y := 1000 * dv y1 + 100 * dv y2 + 10 * dv y3 + dv y4 in
      let m := 10 * dv m1 + dv m2 in
      let d := 10 * dv d1 + dv d2 in
      forallb Text.is_digit [y1; y2; y3; y4; m1; m2; d1; d2]
      && (1 <=? m) && (m <=? 12) && (1 <=? d) && (d <=? Strptime._days_in_month y m)
  | _ => false
  end.

(** ** An instance of the library functions

    For evaluating the validator on examples.  The examples below hold no
    e-mail address and no phone number, and their texts hold no character
    that [repr] escapes. *)
Definition example_lib : PyLib :=
  {| parseaddr := fun s => ("", s);
     lower := fun s => s;
     phonenumbers_valid := fun _ => None;
     repr := fun s => "'" +:+ s +:+ "'" |}.

(** ** Vocabulary of the claims *)

(** The rows of [l] at the positions where [mask] is true, in order. *)
Fixpoint select {A} (mask : list bool) (l : list A) : list A :=
  match mask, l with
  | b :: mask', x :: l' => if b then x :: select mask' l' else select mask' l'
  | _, _ => []
  end.

(** The three kinds of line an error carries: 0 for an error on a file
    as a whole (a required file that is missing, an exception while the
    file is processed), 1 for the header row, 2 and more for a data
    row. *)
Definition line_kind (e : ValidationError) : Prop :=
  (line e = 0 /\ field e = "") \/ (line e = 1 /\ field e = "header") \/ 2 <= line e.

(** What processing one file may change in the world: it appends errors
    of the file, writes at most the clean copy, and publishes at most the
    identifiers of the file. *)
Definition file_effect (filename : string) (w w' : World) : Prop :=
  directory_path (self w') = directory_path (self w)
  /\ output_directory (self w') = output_directory (self w)
  /\ report_file (self w') = report_file (self w)
  /\ (exists es, errors (self w') = (errors (self w) ++ es)%list
                 /\ Forall (fun e => line_kind e /\ file e = filename) es)
  /\ (fs w' = fs w
      \/ exists written,
           fs w' = <[Os.path_join (output_directory (self w)) filename
                     := File (Csv written None)]> (fs w))
  /\ (sourcedid_cache (self w') = sourcedid_cache (self w)
      \/ exists ids,
           sourcedid_cache (self w') = <[filename := ids]> (sourcedid_cache (self w))).

(** The cells that [DictWriter] writes for a row: the values of the
    field names in their order, with an empty cell for a [None]. *)
Definition row_cells (fieldnames : list string) (row : Record_) : list string :=
  (fun k => default "" (dict_get row k)) <$> fieldnames.

(** The error of a duplicate identifier. *)
Definition is_DuplicateSourcedId (e : ValidationError) : bool :=
  String.eqb (field e) "sourcedId" && String.prefix "Duplicate sourcedId: " (message e).

(** ** Inputs of the examples *)

Definition orgs_header : list string := ["sourcedId"; "name"; "type"; "parentSourcedId"].

Definition users_header : list string :=
  ["sourcedId"; "username"; "givenName"; "familyName"; "password";
   "activeDirectoryMatchId"; "email"; "phone"; "sms"].

Definition roles_header : list string :=
  ["userSourcedId"; "orgSourcedId"; "role"; "sessionSourcedId"; "grade"; "isPrimary";
   "roleStartDate"; "roleEndDate"].

Definition sessions_header : list string :=
  ["sourcedId"; "title"; "type"; "startDate"; "endDate"; "parentSourcedId"].

Definition ex_dir : string := "data".

(** A validator just made, and the files of a directory. *)
Definition fresh (files : gmap string node) : World :=
  {| self := __init__ ex_dir; fs := files |}.

(** A directory with two input files and the output of an earlier run. *)
Definition ex_files : gmap string node :=
  <["data/orgs.csv" := File (Csv [orgs_header;
                                   ["o1"; "School"; "school"; ""];
                                   ["o1"; "Again"; "school"; ""];
                                   ["o2"; ""; "school"; ""]] None)]>
  (<["data/users.csv" := File (Csv [users_header;
                                     ["u1"; "alice"; "A"; "B"; ""; ""; ""; ""; ""]] None)]>
  (<["data/validated_output" := Dir]>
  (<["data/validated_output/stale.csv" := File (Csv [["x"]] None)]> ∅))).

Definition ex_session : Record_ :=
  DictReader_row sessions_header ["s1"; "Term 1"; "term"; "2023/04/01"; "2024-3-31"; ""].

Definition ex_alice : Record_ :=
  DictReader_row users_header ["u1"; "alice"; "A"; "B"; ""; ""; ""; ""; ""].

Definition ex_bob : Record_ :=
  DictReader_row users_header ["u1"; "bob"; "C"; "D"; ""; ""; ""; ""; ""].

(** users.csv with two rows that share [u1]; the first has no
    username. *)
Definition c3_files : gmap string node :=
  <["data/users.csv" := File (Csv [users_header;
                                    ["u1"; ""; "A"; "B"; ""; ""; ""; ""; ""];
                                    ["u1"; "bob"; "C"; "D"; ""; ""; ""; ""; ""]] None)]> ∅.

(** users.csv with a header that is not the expected one. *)
Definition c6_files : gmap string node :=
  <["data/users.csv" := File (Csv [["invalid_header1"; "invalid_header2"];
                                    ["value1"; "value2"]] None)]> ∅.

(** A header of orgs.csv that holds [name] twice, and a row before and
    after its two [name] columns are exchanged. *)
Definition c7_header : list string :=
  ["sourcedId"; "name"; "type"; "parentSourcedId"; "name"].

Definition c7_row : list string := ["o1"; ""; "school"; ""; "School"].

Definition c7_row_exchanged : list string := ["o1"; "School"; "school"; ""; ""].

(** ** What the record checks compute

    The checks of a record read the cache of accepted identifiers and
    append to [self.errors]; they touch nothing else.  The definitions
    below give, in closed form, the value each check returns and the
    errors it appends; the lemmas that relate them to the methods come
    with the proofs. *)

Definition add_errors (es : list ValidationError) (w : World) : World :=
  set_errors (errors (self w) ++ es) w.

(** A returned value and appended errors, as a method. *)
Definition lift {A} (v : outcome A * list ValidationError) : M A :=
  fun w => (v.1, add_errors v.2 w).

Section Views.
Context (lib : PyLib).

Definition req_fields (filename : string) (record : Record_) : list string :=
  match table_get sds_v21_required filename with
  | Some alt =>
      if dict_has record "sourcedId" then alt
      else default [] (table_get required filename)
  | None => default [] (table_get required filename)
  end.

Definition missing (record : Record_) (flds : list string) : list string :=
  filter (fun fld => truthy (dict_get record fld) = false) flds.

Definition required_error (filename : string) (ln : Z) (fld : string)
    : ValidationError :=
  mkerr filename ln fld ("Required field " +:+ fld +:+ " missing").

Definition format_bad (record : Record_) (k : string) (valid : string -> bool)
    : bool :=
  truthy (dict_get record k) && negb (valid (py_str (dict_get record k))).

Definition format_errors (filename : string) (record : Record_) (ln : Z)
    (k : string) (valid : string -> bool) (what : string) : list ValidationError :=
  if format_bad record k valid
  then [mkerr filename ln k ("Invalid " +:+ what +:+ " " +:+ py_str (dict_get record k))]
  else [].

Definition boolean_bad (record : Record_) : bool :=
  dict_has record "enabledUser"
  && negb (in_list (dict_get record "enabledUser") ["true"; "false"]).

Definition data_types_errors (filename : string) (record : Record_) (ln : Z)
    : list ValidationError :=
  (format_errors filename record ln "email" (_is_valid_email lib) "email"
   ++ format_errors filename record ln "phone" (_is_valid_phone lib) "phone"
   ++ flat_map (fun dt => format_errors filename record ln dt _is_valid_date "date")
        date_fields
   ++ (if boolean_bad record
       then [mkerr filename ln "enabledUser"
               ("Invalid boolean " +:+ py_str (dict_get record "enabledUser"))]
       else []))%list.

Definition data_types_ok (record : Record_) : bool :=
  negb (format_bad record "email" (_is_valid_email lib))
  && negb (format_bad record "phone" (_is_valid_phone lib))
  && forallb (fun dt => negb (format_bad record dt _is_valid_date)) date_fields
  && negb (boolean_bad record).

(** The cross-references of a file: referenced file and field. *)
Definition references (filename : string) : list (string * string) :=
  ((if String.eqb filename "roles.csv"
    then [("users.csv", "userSourcedId"); ("orgs.csv", "orgSourcedId")] else [])
   ++ (if String.eqb filename "enrollments.csv"
       then [("users.csv", "userSourcedId"); ("classes.csv", "classSourcedId")] else []))%list.

(** The checks of [references] in turn, until one raises. *)
Fixpoint refs_view (cache : gmap string (gset string)) (filename : string)
    (record : Record_) (ln : Z) (refs : list (string * string)) (ok : bool)
    : outcome bool * list ValidationError :=
  match refs with
  | [] => (Ok ok, [])
  | (ref, k) :: refs' =>
      match cache !! ref with
      | None => refs_view cache filename record ln refs' ok
      | Some ids =>
          match fields record !! k with
          | None => (Raise (KeyError k), [])
          | Some v =>
              if in_set v ids then refs_view cache filename record ln refs' ok
              else
                let r := refs_view cache filename record ln refs' false in
                (r.1, mkerr filename ln k ("Missing ref " +:+ py_str v) :: r.2)
          end
      end
  end.

Definition record_view (cache : gmap string (gset string)) (filename : string)
    (record : Record_) (ln : Z) : outcome bool * list ValidationError :=
  let req := missing record (req_fields filename record) in
  let refs := refs_view cache filename record ln (references filename) true in
  (match refs.1 with
   | Ok b => Ok (bool_decide (req = []) && data_types_ok record && b)
   | Raise e => Raise e
   end,
   ((required_error filename ln <$> req)
    ++ data_types_errors filename record ln ++ refs.2)%list).

(** The loop over the rows. *)
Fixpoint loop_view (cache : gmap string (gset string)) (filename : string)
    (rows : list Record_) (idx : Z)
    (cleaned : list Record_) (seen : gset string) (removed : list Record_)
    : outcome (list Record_ * gset string * list Record_) * list ValidationError :=
  match rows with
  | [] => (Ok (cleaned, seen, removed), [])
  | row :: rows' =>
      let sid := row_sid row in
      if checks_duplicates filename && bool_decide (sid ∈ seen) then
        let r := loop_view cache filename rows' (idx + 1) cleaned seen (removed ++ [row]) in
        (r.1, mkerr filename idx "sourcedId" ("Duplicate sourcedId: " +:+ sid) :: r.2)
      else
        let v := record_view cache filename row idx in
        match v.1 with
        | Ok true =>
            let r := loop_view cache filename rows' (idx + 1)
                       (cleaned ++ [row]) (seen ∪ {[sid]}) removed in
            (r.1, (v.2 ++ r.2)%list)
        | Ok false =>
            let r := loop_view cache filename rows' (idx + 1)
                       cleaned seen (removed ++ [row]) in
            (r.1, (v.2 ++ r.2)%list)
        | Raise e => (Raise e, v.2)
        end
  end.

(** The last steps on a file whose rows were all checked: the log of
    removed rows, the clean copy, the two caches. *)
Definition publish_view (filename : string) (actual : list string)
    (res : list Record_ * gset string * list Record_) (w : World) : World :=
  let '(cleaned, seen, removed) := res in
  let w := if negb (bool_decide (removed = []))
           then set_removed_records (<[filename := removed]> (removed_records (self w))) w
           else w in
  let outfile := Os.path_join (output_directory (self w)) filename in
  match fs w !! outfile with
  | Some Dir => add_errors [file_error lib filename (IsADirectoryError lib outfile)] w
  | _ =>
      let '(written, e) :=
        writerows lib (output_headers filename actual) cleaned
          [output_headers filename actual] in
      let w := set_fs (<[outfile := File (Csv written None)]> (fs w)) w in
      match e with
      | Some e => add_errors [file_error lib filename e] w
      | None =>
          set_sourcedid_cache (<[filename := seen]> (sourcedid_cache (self w)))
            (set_data_cache (<[filename := cleaned]> (data_cache (self w))) w)
      end
  end.

(** The data rows of a file as records. *)
Definition data_rows (rows : list (list string)) : list Record_ :=
  DictReader_row (default [] (head rows)) <$> filter (fun r => r ≠ []) (tail rows).

(** The world [_validate_and_fix_file] leaves. *)
Definition file_view (filename : string) (w : World) : World :=
  let infile := Os.path_join (directory_path (self w)) filename in
  match fs w !! infile with
  | Some (File c) =>
      match csv_rows c with
      | ([], Some msg) => add_errors [file_error lib filename (ValueError msg)] w
      | (rows, failure) =>
          let actual := default [] (head rows) in
          if negb (header_valid filename actual)
          then add_errors [header_error lib filename actual] w
          else
            match failure with
            | Some msg => add_errors [file_error lib filename (ValueError msg)] w
            | None =>
                match loop_view (sourcedid_cache (self w)) filename
                        (data_rows rows) 2 [] ∅ [] with
                | (Ok res, es) => publish_view filename actual res (add_errors es w)
                | (Raise e, es) =>
                    add_errors (es ++ [file_error lib filename e]) w
                end
            end
      end
  | Some Dir => add_errors [file_error lib filename (IsADirectoryError lib infile)] w
  | None => add_errors [file_error lib filename (FileNotFoundError lib infile)] w
  end.

(** The world the loop over the file names leaves. *)
Fixpoint process_files (fnames : list string) (w : World) : World :=
  match fnames with
  | [] => w
  | fname :: fnames' =>
      process_files fnames'
        (if Os.path_exists (fs w) (Os.path_join (directory_path (self w)) fname)
         then file_view fname w else w)
  end.

(** The errors of [_validate_file_existence]. *)
Definition missing_files (w : World) (fnames : list string) : list string :=
  filter (fun fname =>
    Os.path_exists (fs w) (Os.path_join (directory_path (self w)) fname) = false)
    fnames.

(** [# Prepare output directory]: the file system the step leaves, and
    the exception if it raises. *)
Definition prepare_view (files : gmap string node) (out : string)
    : gmap string node * option exn :=
  let cleared :=
    if Os.path_exists files out then Os.rmtree files out else inr files in
  match cleared with
  | inl e => (files, Some e)
  | inr fs1 =>
      match Os.makedirs fs1 out with
      | inl e => (fs1, Some e)
      | inr fs2 => (fs2, None)
      end
  end.

Definition prepared_fs (files : gmap string node) (out : string)
    : gmap string node :=
  (prepare_view files out).1.

(** The world before the report is written, in a run that gets
    there. *)
Definition processed (w : World) : World :=
  let w0 := set_removed_records ∅ (set_errors [] w) in
  let w1 := set_fs (prepared_fs (fs w) (output_directory (self w))) w0 in
  let w2 := add_errors
              (missing_file_error <$> missing_files w1 ["orgs.csv"; "users.csv"; "roles.csv"])
              w1 in
  process_files (required_files ++ optional_files) w2.

Definition report_of (w : World) : Report :=
  {| hasErrors := (0 <? length (errors (self w)))%nat;
     report_errors := errors (self w);
     removedRecords := removed_records (self w) |}.

End Views.

(** ** Where the errors of a run come from *)

Section Origins.
Context (lib : PyLib).

(** An error of a data row: the row is the [i]-th data row of the file,
    the error carries the line [2 + i], and it is the error of a
    duplicate of the row's identifier or one of the errors that the
    checks of the row append at that line. *)
Definition row_error (filename : string) (data : list Record_)
    (e : ValidationError) : Prop :=
  exists (i : nat) (row : Record_),
    data !! i = Some row
    /\ line e = 2 + Z.of_nat i
    /\ (e = mkerr filename (line e) "sourcedId" ("Duplicate sourcedId: " +:+ row_sid row)
        \/ exists cache, e ∈ (record_view lib cache filename row (line e)).2).

(** The four origins of an error of a run on the directory [dir] that
    holds [files]: a required file that is missing; an exception caught
    while a file is processed; the header row of a file; a data row of a
    file. *)
Inductive error_origin (dir : string) (files : gmap string node)
    : ValidationError -> Prop :=
| of_missing_file g :
    g ∈ required_files ->
    files !! Os.path_join dir g = None ->
    error_origin dir files (missing_file_error g)
| of_file g e :
    g ∈ (required_files ++ optional_files)%list ->
    files !! Os.path_join dir g <> None ->
    error_origin dir files (file_error lib g e)
| of_header g c :
    g ∈ (required_files ++ optional_files)%list ->
    files !! Os.path_join dir g = Some (File c) ->
    error_origin dir files (header_error lib g (default [] (head (csv_rows c).1)))
| of_row g c e :
    g ∈ (required_files ++ optional_files)%list ->
    files !! Os.path_join dir g = Some (File c) ->
    file e = g ->
    row_error g (data_rows (csv_rows c).1) e ->
    error_origin dir files e.

End Origins.

(** ** [main] *)

(** How the process ends: [sys.exit(code)], or an exception that nothing
    catches. *)
Inductive termination :=
| SystemExit (code : Z)
| Uncaught (e : exn).

(** What a run of the program leaves: the lines it printed, how it
    ended, and the files. *)
Record Process := {
  stdout : list string;
  ended : termination;
  files_left : gmap string node;
}.

(** [main], for [sys.argv] and the files it finds. *)
Definition main (lib : PyLib) (argv : list string) (files : gmap string node)
    : Process :=
  if negb (length argv =? 2)%nat then
    {| stdout := ["Usage: python sds_validator.py <CSV directory>"];
       ended := SystemExit 1;
       files_left := files |}
  else
    let validator := __init__ (nth 1 argv "") in
    match validate_all lib {| self := validator; fs := files |} with
    | (Ok (errors, out_dir, report_path), w) =>
        {| stdout :=
             [ (match errors with
                | [] => "No errors. Report at: "
                | _ :: _ => "Errors detected. See report at: "
                end) +:+ report_path;
               "Cleaned files in: " +:+ out_dir ];
           ended := SystemExit (match errors with [] => 0 | _ :: _ => 1 end);
           files_left := fs w |}
    | (Raise e, w) =>
        {| stdout := []; ended := Uncaught e; files_left := fs w |}
    end.

(** ** Vocabulary of the further properties *)

(** A check that returned true. *)
Definition is_Ok_true (o : outcome bool) : bool :=
  match o with Ok true => true | _ => false end.

(** ** Inputs of the further examples *)

(** A user without a username. *)
Definition ex_anon : Record_ :=
  DictReader_row users_header ["u2"; ""; "A"; "B"; ""; ""; ""; ""; ""].

(** A user whose e-mail cell holds no [@] and whose phone cell holds no
    number: of such a cell [parseaddr] returns the text itself as the
    address, and [phonenumbers.parse] raises. *)
Definition ex_carol : Record_ :=
  DictReader_row users_header
    ["u3"; "carol"; "C"; "D"; ""; ""; "invalid-email"; "invalid-phone"; ""].

(** Rows of roles.csv: a role, and a row without a role. *)
Definition ex_role : Record_ :=
  DictReader_row roles_header ["u1"; "o1"; "teacher"; ""; ""; ""; ""; ""].

Definition ex_no_role : Record_ :=
  DictReader_row roles_header ["u1"; "o1"; ""; ""; ""; ""; ""; ""].

(** orgs.csv with a row that has one cell more than the header. *)
Definition ex_long_files : gmap string node :=
  <["data/orgs.csv" := File (Csv [orgs_header;
                                   ["o1"; "School"; "school"; ""; "surplus"]] None)]> ∅.

(** A validator that an earlier call left with a set of identifiers for
    users.csv, in a directory that holds no file. *)
Definition ex_second_call : World :=
  set_sourcedid_cache {["users.csv" := {["u0"]}]} (fresh ∅).

(** A directory whose three required files hold one valid row each. *)
Definition ex_clean_files : gmap string node :=
  <["data/orgs.csv" := File (Csv [orgs_header; ["o1"; "School"; "school"; ""]] None)]>
  (<["data/users.csv" := File (Csv [users_header;
                                     ["u1"; "alice"; "A"; "B"; ""; ""; ""; ""; ""]] None)]>
  (<["data/roles.csv" := File (Csv [roles_header;
                                     ["u1"; "o1"; "teacher"; ""; ""; ""; ""; ""]] None)]> ∅)).

(** The directory of [ex_files], which is there as a directory. *)
Definition ex_tree : gmap string node := <["data" := Dir]> ex_files.

(** users.csv with two rows that share the identifier [u1], the first
    of which is valid. *)
Definition ex_dup_files : gmap string node :=
  <["data/users.csv" := File (Csv [users_header;
                                    ["u1"; "alice"; "A"; "B"; ""; ""; ""; ""; ""];
                                    ["u1"; "bob"; "C"; "D"; ""; ""; ""; ""; ""]] None)]> ∅.

(** The directory of a first call, with the user [u0], and the directory
    of a second call of the same validator: users.csv is gone, and
    roles.csv refers to the user [u9]. *)
Definition ex_first_files : gmap string node :=
  <["data/users.csv" := File (Csv [users_header;
                                    ["u0"; "zoe"; "Z"; "Y"; ""; ""; ""; ""; ""]] None)]> ∅.

Definition ex_second_files : gmap string node :=
  <["data/roles.csv" := File (Csv [roles_header;
                                    ["u9"; "o1"; "teacher"; ""; ""; ""; ""; ""]] None)]> ∅.

(** roles.csv as [test_output_directory] writes it: eight names in the
    header, nine cells in the row. *)
Definition ex_test_roles_files : gmap string node :=
  <["data/roles.csv" := File (Csv [roles_header;
                                    ["user1"; "org1"; "teacher"; ""; ""; ""; ""; ""; ""]]
                                None)]> ∅.
(** * Proofs *)

(** ** The monad *)

Lemma add_errors_nil w : add_errors [] w = w.
Proof.
  destruct w as [[] ?]. unfold add_errors, set_errors. simpl.
  by rewrite app_nil_r.
Qed.

Lemma add_errors_app es1 es2 w :
  add_errors es2 (add_errors es1 w) = add_errors (es1 ++ es2) w.
Proof. unfold add_errors, set_errors. simpl. by rewrite app_assoc. Qed.

Lemma append_error_eq e w : append_error e w = (Ok tt, add_errors [e] w).
Proof. reflexivity. Qed.

Lemma bind_ok {A B} (m : M A) (k : A -> M B) w a w' :
  m w = (Ok a, w') -> bind m k w = k a w'.
Proof. unfold bind. by intros ->. Qed.

Lemma bind_raise {A B} (m : M A) (k : A -> M B) w e w' :
  m w = (Raise e, w') -> bind m k w = (Raise e, w').
Proof. unfold bind. by intros ->. Qed.

Lemma bind_ret {A B} (a : A) (k : A -> M B) w : bind (ret a) k w = k a w.
Proof. reflexivity. Qed.

Lemma bind_append {B} e (k : unit -> M B) w :
  bind (append_error e) k w = k tt (add_errors [e] w).
Proof. reflexivity. Qed.

Lemma lift_eq {A} (v : outcome A * list ValidationError) w o es :
  v = (o, es) -> lift v w = (o, add_errors es w).
Proof. by intros ->. Qed.

(** ** The record checks against their closed forms *)

Section RecordChecks.
Context (lib : PyLib).

Lemma required_loop_view f r ln flds ok w :
  required_loop f r ln flds ok w
  = (Ok (ok && bool_decide (missing r flds = [])),
     add_errors (required_error f ln <$> missing r flds) w).
Proof.
  revert ok w. induction flds as [|fld flds IH]; intros ok w; simpl.
  - by rewrite add_errors_nil, andb_true_r.
  - unfold missing. rewrite filter_cons.
    destruct (truthy (dict_get r fld)) eqn:E; simpl.
    + apply IH.
    +         erewrite bind_ok by apply append_error_eq.
      fold (missing r flds). rewrite IH, add_errors_app. simpl.
      by rewrite andb_false_r.
Qed.

Lemma _validate_required_fields_view f r ln w :
  _validate_required_fields f r ln w
  = (Ok (bool_decide (missing r (req_fields f r) = [])),
     add_errors (required_error f ln <$> missing r (req_fields f r)) w).
Proof. unfold _validate_required_fields. by rewrite required_loop_view. Qed.

Lemma check_format_view f r ln k valid what ok w :
  check_format f r ln k valid what ok w
  = (Ok (ok && negb (format_bad r k valid)),
     add_errors (format_errors f r ln k valid what) w).
Proof.
  unfold check_format, format_errors, format_bad, dict_has, dict_item, dict_get.
  destruct (fields r !! k) as [v|] eqn:E; simpl.
  - unfold bind, ret. simpl.
    destruct (truthy v && negb (valid (py_str v))); simpl.
    + by rewrite andb_false_r.
    + by rewrite add_errors_nil, andb_true_r.
  - by rewrite add_errors_nil, andb_true_r.
Qed.

Lemma dates_loop_view f r ln dts ok w :
  dates_loop f r ln dts ok w
  = (Ok (ok && forallb (fun dt => negb (format_bad r dt _is_valid_date)) dts),
     add_errors (flat_map (fun dt => format_errors f r ln dt _is_valid_date "date") dts) w).
Proof.
  revert ok w. induction dts as [|dt dts IH]; intros ok w; simpl.
  - by rewrite add_errors_nil, andb_true_r.
  - erewrite bind_ok by apply check_format_view.
    by rewrite IH, add_errors_app, andb_assoc.
Qed.

Lemma _validate_data_types_view f r ln w :
  _validate_data_types lib f r ln w
  = (Ok (data_types_ok lib r), add_errors (data_types_errors lib f r ln) w).
Proof.
  unfold _validate_data_types, data_types_ok, data_types_errors.
  erewrite bind_ok by apply check_format_view.
  erewrite bind_ok by apply check_format_view.
  erewrite bind_ok by apply dates_loop_view.
  rewrite !add_errors_app, andb_true_l.
  unfold boolean_bad, dict_has, dict_item, dict_get.
  destruct (fields r !! "enabledUser") as [v|].
  - rewrite bind_ret. rewrite andb_true_l.
    destruct (in_list v ["true"; "false"]); cbn [negb].
    + unfold ret. by rewrite ?app_nil_r, andb_true_r, <- ?app_assoc.
    + rewrite bind_append, add_errors_app. unfold ret.
      by rewrite andb_false_r, <- ?app_assoc.
  - rewrite andb_false_l. cbn [negb]. unfold ret.
    by rewrite ?app_nil_r, andb_true_r, <- ?app_assoc.
Qed.

Lemma bind_ret_r {A} (m : M A) w : bind m ret w = m w.
Proof. unfold bind, ret. by destruct (m w) as [[] ?]. Qed.

Lemma bind_assoc {A B C} (m : M A) (k1 : A -> M B) (k2 : B -> M C) w :
  bind (bind m k1) k2 w = bind m (fun a => bind (k1 a) k2) w.
Proof. unfold bind. by destruct (m w) as [[] ?]. Qed.

Lemma lift_nil {A} (a : A) w : lift (Ok a, []) w = (Ok a, w).
Proof. unfold lift. simpl. by rewrite add_errors_nil. Qed.

Lemma lift_cons {A} (r : outcome A * list ValidationError) e w :
  lift r (add_errors [e] w) = lift (r.1, e :: r.2) w.
Proof. unfold lift. simpl. by rewrite add_errors_app. Qed.

Lemma lift_app {A} (r : outcome A * list ValidationError) es w :
  lift r (add_errors es w) = lift (r.1, (es ++ r.2)%list) w.
Proof. unfold lift. simpl. by rewrite add_errors_app. Qed.

(** One check of a reference, followed by the checks of [refs]. *)
Lemma check_ref_then f r ln ref k ok refs (K : bool -> M bool) w :
  (forall ok' w', sourcedid_cache (self w') = sourcedid_cache (self w) ->
     K ok' w' = lift (refs_view (sourcedid_cache (self w)) f r ln refs ok') w') ->
  bind (check_ref f r ln ref k ok) K w
  = lift (refs_view (sourcedid_cache (self w)) f r ln ((ref, k) :: refs) ok) w.
Proof.
  intros HK. unfold check_ref. rewrite bind_assoc. unfold get at 1.
  unfold bind at 1. simpl.
  destruct (sourcedid_cache (self w) !! ref) as [ids|]; [|by rewrite bind_ret, HK].
  unfold dict_item. destruct (fields r !! k) as [v|].
  - rewrite bind_assoc, bind_ret.
    destruct (in_set v ids); cbn [negb].
    + by rewrite bind_ret, HK.
    + rewrite bind_assoc, bind_append, bind_ret, HK by done. apply lift_cons.
  - unfold bind, raise, lift. simpl. by rewrite add_errors_nil.
Qed.

Lemma refs_pair_view f r ln ref1 k1 ref2 k2 ok w :
  bind (check_ref f r ln ref1 k1 ok) (fun ok => check_ref f r ln ref2 k2 ok) w
  = lift (refs_view (sourcedid_cache (self w)) f r ln [(ref1, k1); (ref2, k2)] ok) w.
Proof.
  apply check_ref_then. intros ok' w' Hw'.
  rewrite <- bind_ret_r, <- Hw'. apply check_ref_then.
  intros ok'' w'' _. simpl. unfold ret, lift. simpl. by rewrite add_errors_nil.
Qed.

Lemma refs_view_app c f r ln refs1 refs2 ok :
  refs_view c f r ln (refs1 ++ refs2) ok
  = match refs_view c f r ln refs1 ok with
    | (Ok b, es) =>
        let r2 := refs_view c f r ln refs2 b in (r2.1, (es ++ r2.2)%list)
    | (Raise e, es) => (Raise e, es)
    end.
Proof.
  revert ok. induction refs1 as [|[ref k] refs1 IH]; intros ok; simpl.
  - by destruct (refs_view c f r ln refs2 ok).
  - destruct (c !! ref) as [ids|]; [|apply IH].
    destruct (fields r !! k) as [v|]; [|done].
    destruct (in_set v ids); [apply IH|].
    rewrite IH. by destruct (refs_view c f r ln refs1 false) as [[] ?].
Qed.

Lemma _validate_cross_reference_view f r ln w :
  _validate_cross_reference f r ln w
  = lift (refs_view (sourcedid_cache (self w)) f r ln (references f) true) w.
Proof.
  unfold _validate_cross_reference, references.
  rewrite refs_view_app.
  assert (Hsnd : forall ok w', sourcedid_cache (self w') = sourcedid_cache (self w) ->
    (if String.eqb f "enrollments.csv"
     then bind (check_ref f r ln "users.csv" "userSourcedId" ok)
            (fun ok => check_ref f r ln "classes.csv" "classSourcedId" ok)
     else ret ok) w'
    = lift (refs_view (sourcedid_cache (self w)) f r ln
              (if String.eqb f "enrollments.csv"
               then [("users.csv", "userSourcedId"); ("classes.csv", "classSourcedId")]
               else []) ok) w').
  { intros ok w' Hw'. destruct (String.eqb f "enrollments.csv").
    - rewrite <- Hw'. apply refs_pair_view.
    - simpl. by rewrite lift_nil. }
  destruct (String.eqb f "roles.csv").
  - unfold bind at 1. rewrite refs_pair_view. unfold lift at 1.
    destruct (refs_view _ f r ln [_; _] true) as [[b|e] es]; [|done].
    cbn [fst snd]. rewrite Hsnd by done. apply lift_app.
  - rewrite bind_ret. cbn [refs_view app]. rewrite Hsnd by done.
    by destruct (refs_view _ f r ln _ true).
Qed.

Lemma _validate_record_view f r ln w :
  _validate_record lib f r ln w
  = lift (record_view lib (sourcedid_cache (self w)) f r ln) w.
Proof.
  unfold _validate_record, record_view.
  erewrite bind_ok by apply _validate_required_fields_view.
  erewrite bind_ok by apply _validate_data_types_view.
  unfold bind. rewrite _validate_cross_reference_view. unfold lift. cbn [fst snd].
  destruct (refs_view _ f r ln (references f) true) as [[b|e] es]; cbn [fst snd].
  - unfold ret. rewrite !add_errors_app. f_equal. f_equal.
    destruct (bool_decide _), (data_types_ok lib r), b; reflexivity.
  - by rewrite !add_errors_app.
Qed.

Lemma rows_loop_view f rows idx cleaned seen removed w :
  rows_loop lib f rows idx cleaned seen removed w
  = lift (loop_view lib (sourcedid_cache (self w)) f rows idx cleaned seen removed) w.
Proof.
  revert idx cleaned seen removed w.
  induction rows as [|row rows IH]; intros idx cleaned seen removed w;
    cbn [rows_loop loop_view].
  - by rewrite lift_nil.
  - destruct (checks_duplicates f && bool_decide (row_sid row ∈ seen)).
    + rewrite bind_append, IH. apply lift_cons.
    + unfold bind. rewrite _validate_record_view. unfold lift at 1.
      destruct (record_view lib _ f row idx) as [[[|]|e] es]; cbn [fst snd].
      * rewrite IH. apply lift_app.
      * rewrite IH. apply lift_app.
      * done.
Qed.

Lemma _validate_and_fix_file_view filename w :
  _validate_and_fix_file lib filename w = (Ok tt, file_view lib filename w).
Proof.
  unfold _validate_and_fix_file, file_view. rewrite bind_ok with (a := w) (w' := w) by done.
  unfold try_except, open_read. unfold bind at 1.
  destruct (fs w !! Os.path_join (directory_path (self w)) filename) as [[|c]|];
    [done| |done].
  unfold reader_fieldnames, reader_list, data_rows.
  destruct (csv_rows c) as [rows failure].
  assert (Hmain :
    (let actual := default [] (head rows) in
     match
       (if negb (header_valid filename actual)
        then append_error (header_error lib filename actual)
        else
          let* rows0 := match failure with
                        | Some msg => raise (ValueError msg)
                        | None => ret (DictReader_row (default [] (head rows))
                                         <$> filter (fun r => r ≠ []) (tail rows))
                        end in
          let* (cleaned, seen, removed) := rows_loop lib filename rows0 2 [] ∅ [] in
          (if negb (bool_decide (removed = []))
           then modify (fun w0 => set_removed_records
                          (<[filename := removed]> (removed_records (self w0))) w0)
           else ret tt);;;
          write_csv lib (Os.path_join (output_directory (self w)) filename)
            (output_headers filename actual) cleaned;;;
          modify (fun w0 => set_data_cache
                    (<[filename := cleaned]> (data_cache (self w0))) w0);;;
          modify (fun w0 => set_sourcedid_cache
                    (<[filename := seen]> (sourcedid_cache (self w0))) w0)) w
     with
     | (Ok a, w') => (Ok a, w')
     | (Raise e, w') => append_error (file_error lib filename e) w'
     end
     = (Ok tt,
        if negb (header_valid filename actual)
        then add_errors [header_error lib filename actual] w
        else match failure with
             | Some msg => add_errors [file_error lib filename (ValueError msg)] w
             | None =>
                 match loop_view lib (sourcedid_cache (self w)) filename
                         (DictReader_row (default [] (head rows))
                            <$> filter (fun r => r ≠ []) (tail rows)) 2 [] ∅ [] with
                 | (Ok res, es) => publish_view lib filename actual res (add_errors es w)
                 | (Raise e, es) => add_errors (es ++ [file_error lib filename e]) w
                 end
             end))).
  { cbv zeta. destruct (negb (header_valid filename (default [] (head rows)))); [done|].
    destruct failure as [msg|]; [done|].
    rewrite bind_ret. unfold bind at 1. rewrite rows_loop_view. unfold lift at 1.
    destruct (loop_view lib _ filename _ 2 [] ∅ []) as [[[[cleaned seen] removed]|e] es];
      cbn [fst snd]; [|by rewrite append_error_eq, add_errors_app].
    unfold publish_view.
    set (w1 := add_errors es w).
    replace (output_directory (self w)) with (output_directory (self w1)) by done.
    assert (Hstep : forall w2, output_directory (self w2) = output_directory (self w1) ->
      match
        (write_csv lib (Os.path_join (output_directory (self w1)) filename)
           (output_headers filename (default [] (head rows))) cleaned;;;
         modify (fun w0 => set_data_cache
                   (<[filename := cleaned]> (data_cache (self w0))) w0);;;
         modify (fun w0 => set_sourcedid_cache
                   (<[filename := seen]> (sourcedid_cache (self w0))) w0)) w2
      with
      | (Ok a, w') => (Ok a, w')
      | (Raise e, w') => append_error (file_error lib filename e) w'
      end
      = (Ok tt,
         match fs w2 !! Os.path_join (output_directory (self w2)) filename with
         | Some Dir =>
             add_errors [file_error lib filename
               (IsADirectoryError lib (Os.path_join (output_directory (self w2)) filename))] w2
         | _ =>
             let '(written, e) :=
               writerows lib (output_headers filename (default [] (head rows))) cleaned
                 [output_headers filename (default [] (head rows))] in
             let w := set_fs (<[Os.path_join (output_directory (self w2)) filename
                                := File (Csv written None)]> (fs w2)) w2 in
             match e with
             | Some e => add_errors [file_error lib filename e] w
             | None =>
                 set_sourcedid_cache (<[filename := seen]> (sourcedid_cache (self w)))
                   (set_data_cache (<[filename := cleaned]> (data_cache (self w))) w)
             end
         end)).
    { intros w2 Hw2. rewrite <- Hw2. unfold bind at 1, write_csv.
      destruct (fs w2 !! _) as [[|c']|]; [done| |];
        destruct (writerows lib _ cleaned _) as [written [e|]]; done. }
    destruct (negb (bool_decide (removed = []))).
    - unfold bind at 1, modify at 1. apply Hstep. done.
    - rewrite bind_ret. apply Hstep. done. }
  destruct rows as [|h rows']; [destruct failure as [msg|]|].
  - done.
  - rewrite bind_ret. apply Hmain.
  - rewrite bind_ret. apply Hmain.
Qed.

Lemma existence_loop_view fnames w :
  existence_loop fnames w
  = (Ok tt, add_errors (missing_file_error <$> missing_files w fnames) w).
Proof.
  assert (H : forall es,
    existence_loop fnames (add_errors es w)
    = (Ok tt, add_errors (es ++ (missing_file_error <$> missing_files w fnames)) w)).
  { induction fnames as [|fname fnames IH]; intros es; cbn [existence_loop].
    - unfold ret, missing_files. simpl. by rewrite app_nil_r.
    - rewrite bind_ok with (a := add_errors es w) (w' := add_errors es w) by done.
      unfold missing_files. rewrite filter_cons. fold (missing_files w fnames).
      change (fs (add_errors es w)) with (fs w).
      change (directory_path (self (add_errors es w))) with (directory_path (self w)).
      destruct (Os.path_exists (fs w) _) eqn:E; cbn [negb].
      + rewrite bind_ret. rewrite decide_False by done. apply IH.
      + rewrite bind_append, add_errors_app, IH. rewrite decide_True by done.
        by rewrite <- app_assoc. }
  specialize (H []). by rewrite add_errors_nil in H.
Qed.

Lemma files_loop_view fnames w :
  files_loop lib fnames w = (Ok tt, process_files lib fnames w).
Proof.
  revert w. induction fnames as [|fname fnames IH]; intros w; [done|].
  cbn [files_loop process_files].
  rewrite bind_ok with (a := w) (w' := w) by done.
  destruct (Os.path_exists (fs w) _).
  - erewrite bind_ok by apply _validate_and_fix_file_view. apply IH.
  - rewrite bind_ret. apply IH.
Qed.

End RecordChecks.

(** ** Text and paths *)

Section Paths.
Import Text.

Lemma append_cons c a b : String c a +:+ b = String c (a +:+ b).
Proof. reflexivity. Qed.

Lemma append_empty s : s +:+ "" = s.
Proof.
  induction s as [|c s IH]; [done|]. by rewrite append_cons, IH.
Qed.

Lemma append_assoc a b c : (a +:+ b) +:+ c = a +:+ (b +:+ c).
Proof.
  induction a as [|x a IH]; [done|]. by rewrite !append_cons, IH.
Qed.

Lemma append_inj_l a b c : a +:+ b = a +:+ c -> b = c.
Proof.
  induction a as [|x a IH]; [done|]. rewrite !append_cons. intros [= H]. auto.
Qed.

Lemma prefix_empty s : String.prefix "" s = true.
Proof. by destruct s. Qed.

Lemma prefix_cons x a b :
  String.prefix (String x a) (String x b) = String.prefix a b.
Proof. simpl. by destruct (ascii_dec x x). Qed.

Lemma prefix_append a b c :
  String.prefix (a +:+ b) (a +:+ c) = String.prefix b c.
Proof.
  induction a as [|x a IH]; [done|]. by rewrite !append_cons, prefix_cons.
Qed.

Lemma prefix_append_self a b : String.prefix a (a +:+ b) = true.
Proof.
  rewrite <- (append_empty a) at 1. rewrite prefix_append. apply prefix_empty.
Qed.

Lemma last_char_append a b :
  b <> "" -> last_char (a +:+ b) = last_char b.
Proof.
  intros Hb. induction a as [|x a IH]; [done|].
  rewrite append_cons. cbn [last_char]. rewrite IH.
  destruct (a +:+ b) eqn:E; [|done].
  destruct a; [|done]. change (b = "") in E. done.
Qed.

(** [os.path.join] with a relative name puts it after the directory
    and one separator. *)
Lemma path_join_relative a b :
  startswith_char "/" b = false -> Os.path_join a b = Os.path_join a "" +:+ b.
Proof.
  intros Hb. unfold Os.path_join. rewrite Hb. cbn [startswith_char].
  destruct (is_empty a || endswith_char "/" a).
  - by rewrite append_empty.
  - by rewrite append_empty, <- append_assoc.
Qed.

(** The directory of the output, which does not end with a
    separator. *)
Lemma path_join_in_output a b :
  startswith_char "/" b = false ->
  Os.path_join (Os.path_join a "validated_output") b
  = Os.path_join a "" +:+ "validated_output/" +:+ b.
Proof.
  intros Hb. rewrite (path_join_relative a "validated_output") by done.
  unfold Os.path_join at 1. rewrite Hb.
  assert (Hempty : is_empty (Os.path_join a "" +:+ "validated_output") = false).
  { destruct (Os.path_join a "" +:+ "validated_output") eqn:E; [|done].
    destruct (Os.path_join a ""); discriminate E. }
  assert (Hend : endswith_char "/" (Os.path_join a "" +:+ "validated_output") = false).
  { unfold endswith_char. by rewrite last_char_append. }
  rewrite Hempty, Hend. cbn [orb]. rewrite append_assoc.
  f_equal.
Qed.

Lemma eqb_append_false a b : b <> "" -> String.eqb a (a +:+ b) = false.
Proof.
  intros Hb. apply String.eqb_neq. intros H.
  rewrite <- (append_empty a) in H at 1. apply append_inj_l in H. congruence.
Qed.

(** The paths of a run in the directory [dir]. *)
Lemma out_of_eq dir :
  Os.path_join dir "validated_output" = Os.path_join dir "" +:+ "validated_output".
Proof. by apply path_join_relative. Qed.

Lemma rep_of_eq dir :
  Os.path_join dir "validation_report.json"
  = Os.path_join dir "" +:+ "validation_report.json".
Proof. by apply path_join_relative. Qed.

Lemma beneath_out dir k :
  Os.beneath (Os.path_join dir "validated_output") k
  = String.prefix (Os.path_join dir "" +:+ "validated_output/") k
    && negb (String.eqb (Os.path_join dir "" +:+ "validated_output/") k).
Proof.
  unfold Os.beneath.
  by rewrite (path_join_in_output dir ""), append_empty.
Qed.

(** A path of the input directory is not in the output directory. *)
Lemma beneath_out_input dir x :
  String.prefix "validated_output/" x = false ->
  Os.beneath (Os.path_join dir "validated_output") (Os.path_join dir "" +:+ x) = false.
Proof. intros H. by rewrite beneath_out, prefix_append, H. Qed.

Lemma beneath_out_self dir : Os.beneath (Os.path_join dir "validated_output") (Os.path_join dir "validated_output") = false.
Proof. rewrite out_of_eq at 2. by apply beneath_out_input. Qed.

Lemma beneath_out_rep dir : Os.beneath (Os.path_join dir "validated_output") (Os.path_join dir "validation_report.json") = false.
Proof. rewrite rep_of_eq. by apply beneath_out_input. Qed.

Lemma beneath_out_outfile dir g :
  startswith_char "/" g = false -> g <> "" ->
  Os.beneath (Os.path_join dir "validated_output") (Os.path_join (Os.path_join dir "validated_output") g) = true.
Proof.
  intros Hrel Hne. rewrite beneath_out.
  rewrite path_join_in_output by done. rewrite <- append_assoc.
  by rewrite prefix_append_self, eqb_append_false.
Qed.

Lemma beneath_dir dir x :
  startswith_char "/" x = false -> x <> "" ->
  Os.beneath dir (Os.path_join dir x) = true.
Proof.
  intros Hrel Hne. unfold Os.beneath. rewrite (path_join_relative dir x) by done.
  by rewrite prefix_append_self, eqb_append_false.
Qed.

Lemma out_rep_ne dir : Os.path_join dir "validated_output" <> Os.path_join dir "validation_report.json".
Proof. rewrite out_of_eq, rep_of_eq. by intros H%append_inj_l. Qed.

(** *** [posixpath.split] and [os.makedirs] *)

Lemma prefix_spec a b : String.prefix a b = true <-> exists r, b = a +:+ r.
Proof.
  revert b. induction a as [|x a IH]; intros b.
  - rewrite prefix_empty. split; [intros _; by exists b|done].
  - destruct b as [|y b]; simpl.
    + split; [done|]. by intros [r [=]].
    + destruct (ascii_dec x y) as [->|Hne].
      * rewrite IH. split; intros [r Hr]; exists r; [by rewrite Hr|].
        by injection Hr.
      * split; [done|]. intros [r [= ? _]]. by destruct Hne.
Qed.

Lemma prefix_refl a : String.prefix a a = true.
Proof. apply prefix_spec. exists "". by rewrite append_empty. Qed.

Lemma prefix_trans a b c :
  String.prefix a b = true -> String.prefix b c = true -> String.prefix a c = true.
Proof.
  rewrite !prefix_spec. intros [r ->] [r' ->]. exists (r +:+ r').
  by rewrite append_assoc.
Qed.

Lemma length_append a b :
  String.length (a +:+ b) = (String.length a + String.length b)%nat.
Proof. induction a as [|x a IH]; [done|]. rewrite append_cons. simpl. by rewrite IH. Qed.

Lemma prefix_length a b :
  String.prefix a b = true -> (String.length a <= String.length b)%nat.
Proof. rewrite prefix_spec. intros [r ->]. rewrite length_append. lia. Qed.

Lemma rstrip_sep_prefix s : String.prefix (Os.rstrip_sep s) s = true.
Proof.
  induction s as [|c s IH]; [done|]. cbn [Os.rstrip_sep].
  destruct (is_empty (Os.rstrip_sep s) && is_char "/" c); [done|].
  by rewrite prefix_cons.
Qed.

Lemma rsplit_sep_append p : (Os.rsplit_sep p).1 +:+ (Os.rsplit_sep p).2 = p.
Proof.
  induction p as [|c p IH]; [done|]. cbn [Os.rsplit_sep].
  destruct (Os.rsplit_sep p) as [h t]. cbn [fst snd] in *.
  destruct h as [|x h]; cbn [is_empty].
  - change (t = p) in IH. subst t. by destruct (is_char "/" c).
  - cbn [fst snd]. by rewrite append_cons, IH.
Qed.

(** The head of a path is a prefix of the path, and head and tail are
    together no longer than the path. *)
Lemma split_prefix p : String.prefix (Os.split p).1 p = true.
Proof.
  unfold Os.split. pose proof (rsplit_sep_append p) as H.
  destruct (Os.rsplit_sep p) as [h t]. cbn [fst snd] in *.
  assert (Hh : String.prefix h p = true) by (apply prefix_spec; by exists t).
  destruct (negb (is_empty h) && negb (is_empty (Os.rstrip_sep h))); [|done].
  eapply prefix_trans; [apply rstrip_sep_prefix|done].
Qed.

Lemma split_length p :
  (String.length (Os.split p).1 + String.length (Os.split p).2 <= String.length p)%nat.
Proof.
  unfold Os.split. pose proof (rsplit_sep_append p) as H.
  destruct (Os.rsplit_sep p) as [h t]. cbn [fst snd] in *.
  rewrite <- H, length_append.
  destruct (negb (is_empty h) && negb (is_empty (Os.rstrip_sep h))); [|done].
  pose proof (prefix_length _ _ (rstrip_sep_prefix h)). cbn [fst snd]. lia.
Qed.

Lemma is_empty_true s : is_empty s = true <-> s = "".
Proof. by destruct s. Qed.

Lemma is_empty_false s : is_empty s = false <-> s <> "".
Proof. by destruct s. Qed.

(** The head that [os.makedirs] goes on with. *)
Lemma makedirs_head name :
  let '(head, tail) := Os.split name in
  let '(head', tail') := if is_empty tail then Os.split head else (head, tail) in
  String.prefix head' name = true
  /\ (tail' <> "" -> (String.length head' < String.length name)%nat)
  /\ (tail <> "" -> head' = Os.dirname name /\ tail' = tail).
Proof.
  pose proof (split_prefix name) as Hp. pose proof (split_length name) as Hl.
  unfold Os.dirname.
  destruct (Os.split name) as [h t]. cbn [fst snd] in *.
  destruct t as [|x t]; cbn [is_empty].
  - pose proof (split_prefix h) as Hp'. pose proof (split_length h) as Hl'.
    destruct (Os.split h) as [h' t']. cbn [fst snd] in *.
    split; [by eapply prefix_trans|]. split; [|done].
    intros Ht. destruct t'; [done|]. simpl in *. lia.
  - split; [done|]. split; [|done]. intros _. simpl in *. lia.
Qed.

Lemma mkdir_inr fs p fs' :
  Os.mkdir fs p = inr fs' -> fs !! p = None /\ fs' = <[p := Dir]> fs.
Proof.
  unfold Os.mkdir.
  destruct (if Os.always_there _ then _ else _) as [[|c]|]; [|done|done].
  destruct (fs !! p); [done|]. by intros [= <-].
Qed.

(** What [os.makedirs] changes: it makes directories at paths that did
    not exist, each a prefix of the path it is given. *)
Lemma makedirs_within_frame depth fs name fs' :
  Os.makedirs_within depth fs name = inr fs' ->
  forall k, fs' !! k = fs !! k
            \/ (fs !! k = None /\ fs' !! k = Some Dir /\ String.prefix k name = true).
Proof.
  revert fs name fs'. induction depth as [|depth IH]; intros fs name fs'; [done|].
  cbn [Os.makedirs_within]. pose proof (makedirs_head name) as Hh.
  destruct (Os.split name) as [h t].
  destruct (if is_empty t then Os.split h else (h, t)) as [h' t'].
  destruct Hh as (Hpre & _ & _).
  assert (Hlast : forall fs1, 
    (forall k, fs1 !! k = fs !! k
               \/ (fs !! k = None /\ fs1 !! k = Some Dir /\ String.prefix k name = true)) ->
    Os.mkdir fs1 name = inr fs' ->
    forall k, fs' !! k = fs !! k
              \/ (fs !! k = None /\ fs' !! k = Some Dir /\ String.prefix k name = true)).
  { intros fs1 H1 [Hnone ->]%mkdir_inr k.
    destruct (decide (k = name)) as [->|Hne].
    - right. rewrite lookup_insert_eq. split; [|by rewrite prefix_refl].
      destruct (H1 name) as [<-|(? & _)]; done.
    - rewrite lookup_insert_ne by done. apply H1. }
  destruct (negb (is_empty h') && negb (is_empty t') && negb (Os.head_exists fs h')).
  - assert (Hrec : forall fs1,
      match Os.makedirs_within depth fs h' with
      | inl e => if Os.is_FileExistsError e then inr fs else inl e
      | inr fs'0 => inr fs'0
      end = inr fs1 ->
      forall k, fs1 !! k = fs !! k
              \/ (fs !! k = None /\ fs1 !! k = Some Dir /\ String.prefix k name = true)).
    { intros fs1. destruct (Os.makedirs_within depth fs h') as [e|fs0] eqn:E.
      - destruct (Os.is_FileExistsError e); [|done]. intros [= <-] k. by left.
      - intros [= <-] k. destruct (IH _ _ _ E k) as [?|(? & ? & ?)]; [by left|right].
        repeat split; try done. by eapply prefix_trans. }
    destruct (match Os.makedirs_within depth fs h' with
              | inl e => if Os.is_FileExistsError e then inr fs else inl e
              | inr fs'0 => inr fs'0
              end) as [e|fs1]; [done|].
    specialize (Hrec fs1 eq_refl).
    destruct (String.eqb t' "."); [by intros [= <-]|].
    by apply Hlast.
  - apply Hlast. intros k. by left.
Qed.

(** The bound that [os.makedirs] gives is enough: a larger one changes
    nothing. *)
Lemma makedirs_within_enough depth depth' fs name :
  (String.length name < depth)%nat -> (String.length name < depth')%nat ->
  Os.makedirs_within depth fs name = Os.makedirs_within depth' fs name.
Proof.
  revert depth' fs name. induction depth as [|depth IH]; intros [|depth'] fs name; try lia.
  intros Hd Hd'. cbn [Os.makedirs_within]. pose proof (makedirs_head name) as Hh.
  destruct (Os.split name) as [h t].
  destruct (if is_empty t then Os.split h else (h, t)) as [h' t'].
  destruct Hh as (_ & Hlen & _).
  destruct (negb (is_empty h') && negb (is_empty t') && negb (Os.head_exists fs h')) eqn:E;
    [|done].
  apply andb_true_iff in E as [[_ Ht%negb_true_iff%is_empty_false]%andb_true_iff _].
  specialize (Hlen Ht). by rewrite (IH depth') by lia.
Qed.

Lemma makedirs_enough depth fs name :
  (String.length name < depth)%nat ->
  Os.makedirs_within depth fs name = Os.makedirs fs name.
Proof. intros H. apply makedirs_within_enough; [done|lia]. Qed.

Lemma makedirs_frame fs name fs' :
  Os.makedirs fs name = inr fs' ->
  forall k, fs' !! k = fs !! k
            \/ (fs !! k = None /\ fs' !! k = Some Dir /\ String.prefix k name = true).
Proof. apply makedirs_within_frame. Qed.

(** A path whose last part is a name becomes a directory. *)
Lemma makedirs_created fs name fs' :
  (Os.split name).2 <> "" -> (Os.split name).2 <> "." ->
  Os.makedirs fs name = inr fs' -> fs' !! name = Some Dir.
Proof.
  intros Ht Hdot. unfold Os.makedirs. cbn [Os.makedirs_within].
  destruct (Os.split name) as [h t]. cbn [snd] in *.
  apply is_empty_false in Ht as Hte. rewrite Hte.
  assert (Hlast : forall fs1, Os.mkdir fs1 name = inr fs' -> fs' !! name = Some Dir).
  { intros fs1 [_ ->]%mkdir_inr. apply lookup_insert_eq. }
  destruct (negb (is_empty h) && negb (is_empty t) && negb (Os.head_exists fs h));
    [|apply Hlast].
  destruct (match Os.makedirs_within _ fs h with
            | inl e => if Os.is_FileExistsError e then inr fs else inl e
            | inr fs'0 => inr fs'0
            end) as [e|fs1]; [done|].
  apply String.eqb_neq in Hdot. rewrite Hdot. apply Hlast.
Qed.

(** When the directory above is there, only the path itself is made. *)
Lemma makedirs_parent_there fs name :
  (Os.split name).2 <> "" ->
  Os.always_there (Os.dirname name) = true \/ fs !! Os.dirname name = Some Dir ->
  fs !! name = None ->
  Os.makedirs fs name = inr (<[name := Dir]> fs).
Proof.
  intros Ht Hparent Hnone. unfold Os.makedirs. cbn [Os.makedirs_within].
  unfold Os.mkdir, Os.dirname in *.
  destruct (Os.split name) as [h t]. cbn [fst snd] in *.
  apply is_empty_false in Ht as ->.
  assert (Hex : Os.head_exists fs h = true).
  { unfold Os.head_exists, Os.path_exists.
    destruct Hparent as [-> | ->]; [done|]. rewrite bool_decide_eq_true_2 by eauto.
    apply orb_true_r. }
  rewrite Hex, !andb_false_r.
  destruct Hparent as [-> | ->]; [by rewrite Hnone|].
  rewrite Hnone. by destruct (Os.always_there h).
Qed.

(** When the path above is a regular file, nothing is made. *)
Lemma makedirs_parent_file fs name c :
  (Os.split name).2 <> "" ->
  Os.always_there (Os.dirname name) = false ->
  fs !! Os.dirname name = Some (File c) ->
  Os.makedirs fs name = inl (OSError "Not a directory").
Proof.
  intros Ht Hroot Hparent. unfold Os.makedirs. cbn [Os.makedirs_within].
  unfold Os.mkdir, Os.dirname in *.
  destruct (Os.split name) as [h t]. cbn [fst snd] in *.
  apply is_empty_false in Ht as ->.
  assert (Hex : Os.head_exists fs h = true).
  { unfold Os.head_exists, Os.path_exists.
    rewrite Hparent, bool_decide_eq_true_2 by eauto. apply orb_true_r. }
  by rewrite Hex, !andb_false_r, Hroot, Hparent.
Qed.

Lemma rsplit_sep_name t : contains_char "/" t = false -> Os.rsplit_sep t = ("", t).
Proof.
  induction t as [|c t IH]; [done|]. cbn [contains_char Os.rsplit_sep].
  intros [Hc Ht]%orb_false_iff. rewrite (IH Ht). cbn [is_empty].
  unfold is_char. rewrite Ascii.eqb_sym in Hc. by rewrite Hc.
Qed.

Lemma rsplit_sep_in_directory a t :
  contains_char "/" t = false -> a = "" \/ endswith_char "/" a = true ->
  Os.rsplit_sep (a +:+ t) = (a, t).
Proof.
  intros Ht. induction a as [|c a IH]; intros Ha.
  - by apply rsplit_sep_name.
  - rewrite append_cons. cbn [Os.rsplit_sep].
    destruct Ha as [|Ha]; [done|].
    destruct a as [|x a].
    + change ("" +:+ t) with t. rewrite (rsplit_sep_name t Ht). cbn [is_empty].
      unfold endswith_char in Ha. cbn [last_char] in Ha.
      unfold is_char. rewrite Ascii.eqb_sym in Ha. by rewrite Ha.
    + rewrite IH; [done|]. right. exact Ha.
Qed.

Lemma path_join_empty_ends a :
  Os.path_join a "" = "" \/ endswith_char "/" (Os.path_join a "") = true.
Proof.
  unfold Os.path_join. cbn [startswith_char].
  destruct a as [|c a]; [by left|]. cbn [is_empty orb]. right.
  destruct (endswith_char "/" (String c a)) eqn:E.
  - by rewrite append_empty.
  - rewrite append_empty. unfold endswith_char. by rewrite last_char_append.
Qed.

(** The output directory of a run: its last part is the name
    [validated_output]. *)
Lemma split_out dir :
  (Os.split (Os.path_join dir "validated_output")).2 = "validated_output".
Proof.
  rewrite out_of_eq. unfold Os.split.
  rewrite rsplit_sep_in_directory; [done|done|apply path_join_empty_ends].
Qed.

(** A path of the input directory is not above the output directory. *)
Lemma not_above_out dir x :
  String.prefix x "validated_output" = false ->
  String.prefix (Os.path_join dir "" +:+ x) (Os.path_join dir "validated_output") = false.
Proof. intros H. by rewrite out_of_eq, prefix_append. Qed.

(** Nor is a path of the output directory. *)
Lemma beneath_out_not_above dir k :
  Os.beneath (Os.path_join dir "validated_output") k = true ->
  String.prefix k (Os.path_join dir "validated_output") = false.
Proof.
  rewrite beneath_out. intros [Hp _]%andb_true_iff.
  destruct (String.prefix k _) eqn:E; [|done].
  apply prefix_length in Hp, E. rewrite out_of_eq in E.
  rewrite !length_append in *. simpl in *. lia.
Qed.

(** The names of the files are relative. *)
Lemma file_names_relative g :
  g ∈ (required_files ++ optional_files)%list ->
  startswith_char "/" g = false /\ g <> ""
  /\ String.prefix "validated_output/" g = false
  /\ String.prefix g "validated_output" = false.
Proof.
  unfold required_files, optional_files. simpl.
  rewrite !elem_of_cons, elem_of_nil.
  intros [->|[->|[->|[->|[->|[->|[->|[]]]]]]]]; repeat split; done.
Qed.

(** An input file is neither the output directory nor in it. *)
Lemma infile_not_output dir g :
  g ∈ (required_files ++ optional_files)%list ->
  Os.beneath (Os.path_join dir "validated_output") (Os.path_join dir g) = false
  /\ Os.path_join dir g <> Os.path_join dir "validated_output".
Proof.
  intros Hin. destruct (file_names_relative _ Hin) as (Hrel & Hne & Hpre & _).
  rewrite (path_join_relative dir g) by done. split.
  - by apply beneath_out_input.
  - rewrite out_of_eq. intros H%append_inj_l. subst g.
    revert Hin. unfold required_files, optional_files. simpl.
    rewrite !elem_of_cons, elem_of_nil. intuition discriminate.
Qed.

End Paths.

(** ** Dates *)

Section Dates.
Import Text Strptime DateText.

Lemma in_class_bounds lo hi c :
  in_class lo hi c = true <-> code lo <= code c <= code hi.
Proof. unfold in_class. rewrite andb_true_iff, !Z.leb_le. tauto. Qed.

Lemma is_char_eq x c : is_char x c = true <-> c = x.
Proof. unfold is_char. rewrite Ascii.eqb_eq. split; congruence. Qed.

Lemma two_inv p1 p2 tens s v s' :
  two p1 p2 tens s = Some (v, s') ->
  exists a b, s = String a (String b s') /\ p1 a = true /\ p2 b = true
    /\ v = (if tens then 10 * digit_value a else 0) + digit_value b.
Proof.
  unfold two. destruct s as [|a [|b s0]]; try done.
  destruct (p1 a) eqn:E1, (p2 b) eqn:E2; try done.
  intros [= <- <-]. by exists a, b.
Qed.

Lemma one_inv p s v s' :
  one p s = Some (v, s') ->
  exists a, s = String a s' /\ p a = true /\ v = digit_value a.
Proof.
  unfold one. destruct s as [|a s0]; try done.
  destruct (p a) eqn:E; try done. intros [= <- <-]. by exists a.
Qed.

Lemma literal_inv x s s' : literal x s = Some s' -> s = String x s'.
Proof.
  unfold literal. destruct s as [|c s0]; try done.
  destruct (is_char x c) eqn:E; try done.
  apply is_char_eq in E. by intros [= <-]; subst.
Qed.

Lemma alternation_inv {A} branches (k : Z -> string -> option A) s r :
  alternation branches k s = Some r ->
  exists br v s', In br branches /\ br s = Some (v, s') /\ k v s' = Some r.
Proof.
  induction branches as [|br branches IH]; [done|]. simpl.
  destruct (br s) as [[v s']|] eqn:E; simpl.
  - destruct (k v s') eqn:Ek.
    + intros [= <-]. exists br, v, s'. auto.
    + intros H. destruct (IH H) as (br' & v' & s'' & ? & ? & ?).
      exists br', v', s''. auto.
  - intros H. destruct (IH H) as (br' & v' & s'' & ? & ? & ?).
    exists br', v', s''. auto.
Qed.

Lemma group_m_inv br s v s' :
  In br group_m -> br s = Some (v, s') ->
  exists ms, s = ms +:+ s' /\ month_text ms v.
Proof.
  intros Hin Hbr. simpl in Hin.
  destruct Hin as [<-|[<-|[<-|[]]]].
  - apply two_inv in Hbr as (a & b & -> & ->%is_char_eq & Hb & ->).
    exists (String "1" (String b "")). split; [done|]. by constructor.
  - apply two_inv in Hbr as (a & b & -> & ->%is_char_eq & Hb & ->).
    exists (String "0" (String b "")). split; [done|]. by constructor.
  - apply one_inv in Hbr as (a & -> & Ha & ->).
    exists (String a ""). split; [done|]. by constructor.
Qed.

Lemma group_d_inv br s v s' :
  In br group_d -> br s = Some (v, s') ->
  exists ds, s = ds +:+ s' /\ day_text ds v.
Proof.
  intros Hin Hbr. simpl in Hin.
  destruct Hin as [<-|[<-|[<-|[<-|[<-|[]]]]]].
  - apply two_inv in Hbr as (a & b & -> & ->%is_char_eq & Hb & ->).
    exists (String "3" (String b "")). split; [done|]. by constructor.
  - apply two_inv in Hbr as (a & b & -> & Ha & Hb & ->).
    exists (String a (String b "")). split; [done|]. by constructor.
  - apply two_inv in Hbr as (a & b & -> & ->%is_char_eq & Hb & ->).
    exists (String "0" (String b "")). split; [done|]. by constructor.
  - apply one_inv in Hbr as (a & -> & Ha & ->).
    exists (String a ""). split; [done|]. by constructor.
  - apply two_inv in Hbr as (a & b & -> & ->%is_char_eq & Hb & ->).
    exists (String " " (String b "")). split; [done|].
    rewrite Z.add_0_l. by constructor.
Qed.

Lemma regex_match_inv s y m d rest :
  regex_match s = Some (y, m, d, rest) ->
  exists ys ms ds,
    s = ys +:+ "-" +:+ ms +:+ "-" +:+ ds +:+ rest
    /\ year_text ys y /\ month_text ms m /\ day_text ds d.
Proof.
  unfold regex_match.
  destruct (group_Y s) as [[y0 s1]|] eqn:EY; [|done].
  destruct (literal "-" s1) as [s2|] eqn:E1; [|done].
  intros (brm & m0 & s3 & Hinm & Hbrm & Hk)%alternation_inv.
  destruct (literal "-" s3) as [s4|] eqn:E2; [|done].
  apply alternation_inv in Hk as (brd & d0 & rest0 & Hind & Hbrd & [= <- <- <- <-]).
  apply literal_inv in E1 as ->. apply literal_inv in E2 as ->.
  destruct (group_m_inv _ _ _ _ Hinm Hbrm) as (ms & -> & Hms).
  destruct (group_d_inv _ _ _ _ Hind Hbrd) as (ds & -> & Hds).
  unfold group_Y in EY.
  destruct s as [|a [|b [|c [|e s0]]]]; try done.
  destruct (is_digit a) eqn:Ea, (is_digit b) eqn:Eb,
    (is_digit c) eqn:Ec, (is_digit e) eqn:Ee; try done.
  injection EY as <- ->.
  exists (String a (String b (String c (String e "")))), ms, ds.
  split; [|split; [by constructor|done]].
  reflexivity.
Qed.

Lemma class_values lo hi c :
  in_class lo hi c = true ->
  code lo - 48 <= digit_value c <= code hi - 48.
Proof. rewrite in_class_bounds. unfold digit_value. lia. Qed.

Lemma year_text_bounds ys y : year_text ys y -> 0 <= y <= 9999.
Proof.
  intros [a b c d Ha%class_values Hb%class_values Hc%class_values Hd%class_values].
  change (code "0" - 48) with 0 in *. change (code "9" - 48) with 9 in *. lia.
Qed.

Lemma month_text_bounds ms m : month_text ms m -> 1 <= m <= 12.
Proof.
  intros [c H%class_values|c H%class_values|c H%class_values];
    vm_compute (code _ - 48) in H; lia.
Qed.

Lemma day_text_bounds ds d : day_text ds d -> 1 <= d.
Proof.
  intros [c H%class_values|a b Ha%class_values Hb%class_values
         |c H%class_values|c H%class_values|c H%class_values];
    vm_compute (code _ - 48) in *; lia.
Qed.

Lemma class_excludes lo hi x c :
  in_class lo hi c = true -> in_class lo hi x = false -> is_char x c = false.
Proof.
  intros Hc Hx. destruct (is_char x c) eqn:E; [|done].
  apply is_char_eq in E. congruence.
Qed.

#[local] Arguments in_class : simpl never.
#[local] Arguments is_char : simpl never.
#[local] Arguments is_digit : simpl never.
#[local] Arguments digit_value : simpl never.
#[local] Arguments Z.mul : simpl never.
#[local] Arguments Z.add : simpl never.

(** Decide a class test on a literal character, or use a hypothesis on
    a variable one. *)
Ltac class_step :=
  match goal with
  | H : ?p ?c = _ |- context [?p ?c] => rewrite H
  | |- context [in_class ?lo ?hi ?c] =>
      let v := eval vm_compute in (in_class lo hi c) in
      lazymatch v with
      | true => change (in_class lo hi c) with true
      | false => change (in_class lo hi c) with false
      end
  | |- context [is_char ?x ?c] =>
      let v := eval vm_compute in (is_char x c) in
      lazymatch v with
      | true => change (is_char x c) with true
      | false => change (is_char x c) with false
      end
  | |- context [?b && false] => rewrite (andb_false_r b)
  end.

Lemma regex_match_complete ys ms ds y m d :
  year_text ys y -> month_text ms m -> day_text ds d ->
  regex_match (ys +:+ "-" +:+ ms +:+ "-" +:+ ds) = Some (y, m, d, "").
Proof.
  intros [a b c e Ha Hb Hc He] Hm Hd.
  unfold regex_match, group_Y. simpl. rewrite Ha, Hb, Hc, He. simpl.
  destruct Hm as [x Hx|x Hx|x Hx];
    destruct Hd as [z Hz|z1 z2 Hz1 Hz2|z Hz|z Hz|z Hz];
    try (assert (is_char "3" z1 = false) by (by eapply class_excludes));
    simpl; repeat (class_step; simpl); reflexivity.
Qed.


(** The texts [_is_valid_date] takes are those of [DateText.accepted]. *)
Lemma _is_valid_date_accepted s : _is_valid_date s = true <-> accepted s.
Proof.
  unfold _is_valid_date, strptime, accepted. split.
  - destruct (regex_match s) as [[[[y m] d] rest]|] eqn:E; [|done].
    destruct rest; [|done]. cbn [is_empty negb].
    destruct (_check_date_fields y m d) eqn:Ec; [|done]. intros _.
    apply regex_match_inv in E as (ys & ms & ds & -> & Hy & Hm & Hd).
    exists ys, ms, ds, y, m, d. rewrite append_empty.
    unfold _check_date_fields in Ec. rewrite !andb_true_iff, !Z.leb_le in Ec.
    intuition lia.
  - intros (ys & ms & ds & y & m & d & -> & Hy & Hm & Hd & Hy1 & Hdim).
    rewrite (regex_match_complete _ _ _ _ _ _ Hy Hm Hd). cbn [is_empty negb].
    pose proof (year_text_bounds _ _ Hy). pose proof (month_text_bounds _ _ Hm).
    pose proof (day_text_bounds _ _ Hd).
    replace (_check_date_fields y m d) with true; [done|].
    symmetry. unfold _check_date_fields. rewrite !andb_true_iff, !Z.leb_le. lia.
Qed.

End Dates.

(** ** Rows and records *)

Section Rows.
Context (lib : PyLib).

Lemma foldl_insert_is_Some (items : list (string * option string))
    (d : gmap string (option string)) k :
  is_Some (foldl (fun d kv => <[kv.1 := kv.2]> d) d items !! k)
  <-> is_Some (d !! k) \/ k ∈ items.*1.
Proof.
  revert d. induction items as [|[k' v] items IH]; intros d; simpl.
  - rewrite elem_of_nil. tauto.
  - rewrite IH, elem_of_cons, lookup_insert_is_Some'. simpl.
    intuition (subst; auto).
Qed.

Lemma foldl_insert_None_is_Some (keys : list string)
    (d : gmap string (option string)) k :
  is_Some (foldl (fun d key => <[key := None]> d) d keys !! k)
  <-> is_Some (d !! k) \/ k ∈ keys.
Proof.
  revert d. induction keys as [|k' keys IH]; intros d; simpl.
  - rewrite elem_of_nil. tauto.
  - rewrite IH, elem_of_cons, lookup_insert_is_Some'. simpl.
    intuition (subst; auto).
Qed.

Lemma fst_zip_take {A B} (l : list A) (k : list B) :
  (zip l k).*1 = take (length k) l.
Proof.
  revert k. induction l as [|x l IH]; intros [|y k]; simpl; try done.
  by rewrite IH.
Qed.

(** Every name of the header is a key of every record of the file. *)
Lemma DictReader_row_has actual row k :
  k ∈ actual -> is_Some (fields (DictReader_row actual row) !! k).
Proof.
  intros Hk. unfold DictReader_row, dict_of_items.
  rewrite <- (take_drop (length row) actual), elem_of_app in Hk.
  destruct (length actual <? length row)%nat eqn:E; simpl.
  - apply foldl_insert_is_Some. right.
    rewrite fst_zip_take, length_fmap.
    apply Nat.ltb_lt in E.
    destruct Hk as [Hk|Hk]; [done|].
    rewrite drop_ge in Hk by lia. by apply elem_of_nil in Hk.
  - apply foldl_insert_None_is_Some.
    destruct Hk as [Hk|Hk]; [left|by right].
    apply foldl_insert_is_Some. right. by rewrite fst_zip_take, length_fmap.
Qed.

Lemma set_eq_elem a b k : set_eq a b = true -> k ∈ b -> k ∈ a.
Proof.
  unfold set_eq. intros H%bool_decide_eq_true Hk.
  apply (elem_of_list_to_set (C := gset string)). rewrite H.
  by apply elem_of_list_to_set.
Qed.

Lemma header_valid_cases f actual :
  header_valid f actual = true ->
  set_eq actual (default [] (table_get headers f)) = true
  \/ exists alt, table_get sds_v21_headers f = Some alt /\ set_eq actual alt = true.
Proof.
  unfold header_valid.
  destruct (table_get sds_v21_headers f) as [alt|]; [|by left].
  destruct (set_eq actual (default [] (table_get headers f))); simpl; [by left|].
  right. by exists alt.
Qed.

(** The fields the cross-references read are names of the header. *)
Lemma references_in_header f actual ref k :
  header_valid f actual = true -> In (ref, k) (references f) -> k ∈ actual.
Proof.
  intros Hv Hin. unfold references in Hin. apply in_app_or in Hin.
  destruct Hin as [Hin|Hin].
  - destruct (String.eqb f "roles.csv") eqn:E; [|done].
    apply String.eqb_eq in E. subst f.
    destruct (header_valid_cases _ _ Hv) as [H|(alt & [= <-] & H)];
      apply (set_eq_elem _ _ _ H);
      simpl in Hin; destruct Hin as [[= <- <-]|[[= <- <-]|[]]];
      simpl; set_solver.
  - destruct (String.eqb f "enrollments.csv") eqn:E; [|done].
    apply String.eqb_eq in E. subst f.
    destruct (header_valid_cases _ _ Hv) as [H|(alt & [= <-] & H)];
      apply (set_eq_elem _ _ _ H);
      simpl in Hin; destruct Hin as [[= <- <-]|[[= <- <-]|[]]];
      simpl; set_solver.
Qed.

Lemma refs_view_returns c f r ln refs ok :
  (forall ref k, In (ref, k) refs -> is_Some (fields r !! k)) ->
  exists b, (refs_view c f r ln refs ok).1 = Ok b.
Proof.
  revert ok. induction refs as [|[ref k] refs IH]; intros ok Hk; simpl.
  - by exists ok.
  - assert (Hk' : forall ref k, In (ref, k) refs -> is_Some (fields r !! k))
      by (intros; eapply Hk; right; eauto).
    destruct (c !! ref) as [ids|]; [|by apply IH].
    destruct (Hk ref k) as [v ->]; [by left|].
    destruct (in_set v ids); [by apply IH|]. simpl. by apply IH.
Qed.

Lemma record_view_returns c f actual row ln :
  header_valid f actual = true ->
  exists b, (record_view lib c f (DictReader_row actual row) ln).1 = Ok b.
Proof.
  intros Hv. unfold record_view. cbn [fst].
  destruct (refs_view_returns c f (DictReader_row actual row) ln (references f) true)
    as [b ->]; [|by eexists].
  intros ref k Hin. apply DictReader_row_has. by eapply references_in_header.
Qed.

(** C9.  For every file whose header matched the canonical or the
    alternate variant, and for every data row of it, the
    cross-reference check returns: the accesses
    [record['userSourcedId']], [record['orgSourcedId']] and
    [record['classSourcedId']] never raise [KeyError], because every
    field they name is in the header and [DictReader] gives every
    record all the names of the header as keys. *)
Theorem C9_cross_reference_never_raises f actual row ln w :
  header_valid f actual = true ->
  exists ok w',
    _validate_cross_reference f (DictReader_row actual row) ln w = (Ok ok, w').
Proof.
  intros Hv. rewrite _validate_cross_reference_view. unfold lift.
  destruct (refs_view_returns (sourcedid_cache (self w)) f
              (DictReader_row actual row) ln (references f) true) as [b Hb].
  - intros ref k Hin. apply DictReader_row_has. by eapply references_in_header.
  - rewrite Hb. eauto.
Qed.

(** *** The order of the header *)

Lemma set_eq_perm a a' b : a ≡ₚ a' -> set_eq a b = set_eq a' b.
Proof.
  intros Hp. unfold set_eq.
  by rewrite (list_to_set_perm_L (C := gset string) _ _ Hp).
Qed.

Lemma header_valid_perm f actual actual' :
  actual ≡ₚ actual' -> header_valid f actual = header_valid f actual'.
Proof.
  intros Hp. unfold header_valid.
  rewrite (set_eq_perm _ _ _ Hp).
  destruct (table_get sds_v21_headers f) as [alt|]; [|done].
  by rewrite (set_eq_perm _ _ alt Hp).
Qed.

Lemma output_headers_perm f actual actual' :
  actual ≡ₚ actual' -> output_headers f actual = output_headers f actual'.
Proof.
  intros Hp. unfold output_headers.
  destruct (table_get sds_v21_headers f) as [alt|]; [|done].
  by rewrite (set_eq_perm _ _ alt Hp).
Qed.

Lemma foldl_insert_lookup (items : list (string * option string))
    (d : gmap string (option string)) k :
  NoDup items.*1 ->
  foldl (fun d kv => <[kv.1 := kv.2]> d) d items !! k
  = match (list_to_map items : gmap string (option string)) !! k with
    | Some v => Some v
    | None => d !! k
    end.
Proof.
  revert d. induction items as [|[k0 v0] items IH]; intros d Hnd; [done|].
  apply NoDup_cons in Hnd as [Hk0 Hnd]. cbn [foldl fst snd fmap list_fmap].
  rewrite IH by done. cbn [list_to_map foldr uncurry fst snd].
  destruct (decide (k = k0)) as [->|Hne].
  - rewrite (not_elem_of_list_to_map_1 _ k0) by done.
    by rewrite !lookup_insert_eq.
  - by rewrite !lookup_insert_ne.
Qed.

(** Without a repeated key, the order of the items of a [dict] does
    not matter. *)
Lemma dict_of_items_perm items items' :
  NoDup items.*1 -> items ≡ₚ items' -> dict_of_items items = dict_of_items items'.
Proof.
  intros Hnd Hp. assert (Hnd' : NoDup items'.*1) by by rewrite <- Hp.
  apply map_eq. intros k. unfold dict_of_items.
  rewrite !foldl_insert_lookup by done.
  by rewrite (list_to_map_proper items items' Hnd Hp).
Qed.

Lemma DictReader_row_complete actual row :
  length row = length actual ->
  DictReader_row actual row
  = {| fields := dict_of_items (prod_map id Some <$> zip actual row); rest := None |}.
Proof.
  intros Hlen. unfold DictReader_row.
  rewrite (proj2 (Nat.ltb_ge _ _)) by lia.
  rewrite drop_ge by lia. cbn [foldl].
  by rewrite prod_map_zip, list_fmap_id.
Qed.

(** *** The loop over the rows *)

Lemma select_length {A} (mask : list bool) (l : list A) :
  length mask = length l ->
  (length (select mask l) + length (select (negb <$> mask) l) = length l)%nat.
Proof.
  revert l. induction mask as [|b mask IH]; intros [|x l] Hlen; try done.
  injection Hlen as Hlen. specialize (IH l Hlen).
  rewrite fmap_cons. destruct b; simpl; lia.
Qed.

Lemma select_sublist {A} (mask : list bool) (l : list A) :
  select mask l `sublist_of` l.
Proof.
  revert l. induction mask as [|b mask IH]; intros [|x l]; simpl;
    try apply sublist_nil_l.
  destruct b; [by apply sublist_skip|by apply sublist_cons].
Qed.

Lemma refs_view_ln c f r ln ln' refs ok :
  (refs_view c f r ln refs ok).1 = (refs_view c f r ln' refs ok).1.
Proof.
  revert ok. induction refs as [|[ref k] refs IH]; intros ok; simpl; [done|].
  destruct (c !! ref) as [ids|]; [|apply IH].
  destruct (fields r !! k) as [v|]; [|done].
  destruct (in_set v ids); [apply IH|]. simpl. apply IH.
Qed.

(** Whether a record passes does not depend on its line. *)
Lemma record_view_ln c f r ln ln' :
  (record_view lib c f r ln).1 = (record_view lib c f r ln').1.
Proof. unfold record_view. cbn [fst]. by rewrite (refs_view_ln c f r ln ln'). Qed.

Lemma refs_view_true c f r ln refs ok es :
  refs_view c f r ln refs ok = (Ok true, es) -> es = [] /\ ok = true.
Proof.
  revert ok es. induction refs as [|[ref k] refs IH]; intros ok es; simpl.
  - by intros [= -> <-].
  - destruct (c !! ref) as [ids|]; [|apply IH].
    destruct (fields r !! k) as [v|]; [|done].
    destruct (in_set v ids); [apply IH|].
    destruct (refs_view c f r ln refs false) as [o es'] eqn:E. simpl.
    intros [= -> <-]. by destruct (IH _ _ E).
Qed.

Lemma data_types_ok_no_errors f r ln :
  data_types_ok lib r = true -> data_types_errors lib f r ln = [].
Proof.
  unfold data_types_ok, data_types_errors, format_errors. simpl.
  repeat match goal with
         | |- context [if ?b then _ else _] => destruct b
         end; simpl; done.
Qed.

(** A record that passes appends no error. *)
Lemma record_view_pass c f r ln :
  (record_view lib c f r ln).1 = Ok true -> (record_view lib c f r ln).2 = [].
Proof.
  unfold record_view. cbn [fst snd].
  destruct (refs_view c f r ln (references f) true) as [[b|e] es] eqn:E;
    cbn [fst snd]; [|done].
  intros [= H]. apply andb_true_iff in H as [H ->].
  apply andb_true_iff in H as [Hreq%bool_decide_eq_true Hdt].
  rewrite Hreq, (data_types_ok_no_errors _ _ _ Hdt).
  by destruct (refs_view_true _ _ _ _ _ _ _ E) as [-> _].
Qed.

(** What the loop returns: the positions it kept, and the identifiers
    of the rows kept. *)
Lemma loop_view_mask c f rows idx cl seen rm cl' seen' rm' es :
  loop_view lib c f rows idx cl seen rm = (Ok (cl', seen', rm'), es) ->
  exists mask,
    length mask = length rows
    /\ cl' = (cl ++ select mask rows)%list
    /\ rm' = (rm ++ select (negb <$> mask) rows)%list
    /\ seen' = seen ∪ list_to_set (row_sid <$> select mask rows)
    /\ Forall (fun row => forall ln, (record_view lib c f row ln).1 = Ok true)
         (select mask rows).
Proof.
  revert idx cl seen rm es.
  induction rows as [|row rows IH]; intros idx cl seen rm es; cbn [loop_view].
  - intros [= <- <- <- <-]. exists []. simpl.
    rewrite !app_nil_r. repeat split; [set_solver|constructor].
  - destruct (checks_duplicates f && bool_decide (row_sid row ∈ seen)).
    + destruct (loop_view lib c f rows (idx + 1) cl seen (rm ++ [row]))
        as [o es0] eqn:E. cbn [fst snd]. intros [= -> <-].
      destruct (IH _ _ _ _ _ E) as (mask & Hlen & -> & -> & -> & HF).
      exists (false :: mask). simpl. rewrite Hlen, <- app_assoc. done.
    + destruct (record_view lib c f row idx) as [[[|]|e] esv] eqn:Ev;
        cbn [fst snd]; [| |done].
      * destruct (loop_view lib c f rows (idx + 1) (cl ++ [row])
                    (seen ∪ {[row_sid row]}) rm) as [o es0] eqn:E.
        cbn [fst snd]. intros [= -> <-].
        destruct (IH _ _ _ _ _ E) as (mask & Hlen & -> & -> & -> & HF).
        exists (true :: mask). rewrite fmap_cons. cbn [select negb length].
        rewrite Hlen, <- app_assoc, fmap_cons, list_to_set_cons.
        repeat split; [set_solver|].
        constructor; [|done]. intros ln.
        by rewrite (record_view_ln c f row ln idx), Ev.
      * destruct (loop_view lib c f rows (idx + 1) cl seen (rm ++ [row]))
          as [o es0] eqn:E. cbn [fst snd]. intros [= -> <-].
        destruct (IH _ _ _ _ _ E) as (mask & Hlen & -> & -> & -> & HF).
        exists (false :: mask). simpl. rewrite Hlen, <- app_assoc. done.
Qed.

(** Where duplicates are checked, the rows kept have distinct
    identifiers. *)
Lemma loop_view_NoDup c f rows idx cl seen rm cl' seen' rm' es :
  checks_duplicates f = true ->
  loop_view lib c f rows idx cl seen rm = (Ok (cl', seen', rm'), es) ->
  seen = list_to_set (row_sid <$> cl) -> NoDup (row_sid <$> cl) ->
  NoDup (row_sid <$> cl').
Proof.
  intros Hdup. revert idx cl seen rm es.
  induction rows as [|row rows IH]; intros idx cl seen rm es; cbn [loop_view].
  - by intros [= <- <- <- <-].
  - rewrite Hdup, andb_true_l.
    destruct (bool_decide (row_sid row ∈ seen)) eqn:Ein.
    + destruct (loop_view lib c f rows (idx + 1) cl seen (rm ++ [row]))
        as [o es0] eqn:E. cbn [fst snd]. intros [= -> <-]. by eapply IH.
    + apply bool_decide_eq_false in Ein.
      destruct (record_view lib c f row idx) as [[[|]|e] esv] eqn:Ev;
        cbn [fst snd]; [| |done].
      * destruct (loop_view lib c f rows (idx + 1) (cl ++ [row])
                    (seen ∪ {[row_sid row]}) rm) as [o es0] eqn:E.
        cbn [fst snd]. intros [= -> <-] Hseen Hnd.
        eapply IH; [done| |].
        -- rewrite fmap_app, list_to_set_app_L, Hseen. simpl. set_solver.
        -- rewrite fmap_app. apply NoDup_app. split; [done|]. split.
           ++ intros x Hx [->|[]%elem_of_nil]%elem_of_cons.
              apply Ein. rewrite Hseen. by apply elem_of_list_to_set.
           ++ simpl. apply NoDup_singleton.
      * destruct (loop_view lib c f rows (idx + 1) cl seen (rm ++ [row]))
          as [o es0] eqn:E. cbn [fst snd]. intros [= -> <-]. by eapply IH.
Qed.

Lemma loop_view_returns c f rows idx cl seen rm :
  Forall (fun row => forall ln, exists b, (record_view lib c f row ln).1 = Ok b) rows ->
  exists res, (loop_view lib c f rows idx cl seen rm).1 = Ok res.
Proof.
  intros HF. revert idx cl seen rm.
  induction HF as [|row rows Hrow HF IH]; intros idx cl seen rm; cbn [loop_view].
  - by eexists.
  - destruct (checks_duplicates f && bool_decide (row_sid row ∈ seen)).
    + cbn [fst]. apply IH.
    + destruct (Hrow idx) as [b Hb].
      destruct (record_view lib c f row idx) as [o esv]. cbn [fst] in Hb. subst o.
      cbn [fst snd]. destruct b; cbn [fst]; apply IH.
Qed.

(** *** Lines of the errors *)

Lemma refs_view_lines c f r ln refs ok :
  Forall (fun e => file e = f /\ line e = ln) (refs_view c f r ln refs ok).2.
Proof.
  revert ok. induction refs as [|[ref k] refs IH]; intros ok; simpl; [constructor|].
  destruct (c !! ref) as [ids|]; [|apply IH].
  destruct (fields r !! k) as [v|]; [|constructor].
  destruct (in_set v ids); [apply IH|]. simpl. constructor; [done|apply IH].
Qed.

Lemma record_view_lines c f r ln :
  Forall (fun e => file e = f /\ line e = ln) (record_view lib c f r ln).2.
Proof.
  unfold record_view. cbn [snd]. rewrite !Forall_app. split; [|split].
  - apply Forall_fmap, Forall_forall. by intros fld _.
  - unfold data_types_errors, format_errors. simpl.
    repeat match goal with
           | |- context [if ?b then _ else _] => destruct b
           end; simpl; repeat constructor.
  - apply refs_view_lines.
Qed.

Lemma loop_view_lines c f rows idx cl seen rm :
  Forall (fun e => file e = f /\ idx <= line e)
    (loop_view lib c f rows idx cl seen rm).2.
Proof.
  revert idx cl seen rm.
  induction rows as [|row rows IH]; intros idx cl seen rm; cbn [loop_view];
    [constructor|].
  assert (Hnext : forall cl seen rm,
    Forall (fun e => file e = f /\ idx <= line e)
      (loop_view lib c f rows (idx + 1) cl seen rm).2).
  { intros. eapply Forall_impl; [apply IH|]. simpl. intros e [? ?]. split; [done|lia]. }
  assert (Hrow : Forall (fun e => file e = f /\ idx <= line e)
                   (record_view lib c f row idx).2).
  { eapply Forall_impl; [apply record_view_lines|]. simpl. intros e [? ?]. split; [done|lia]. }
  destruct (checks_duplicates f && bool_decide (row_sid row ∈ seen)).
  - cbn [snd]. constructor; [split; [done|simpl; lia]|apply Hnext].
  - destruct (record_view lib c f row idx) as [[[|]|e] esv]; cbn [fst snd] in *.
    + apply Forall_app. split; [done|apply Hnext].
    + apply Forall_app. split; [done|apply Hnext].
    + done.
Qed.

(** For every file that passes header validation, the loop over its
    data rows returns, and it puts every row, by position, in exactly
    one of the two lists [cleaned] and [removed]: there is a mask over
    the positions whose true positions make [cleaned] and whose false
    positions make [removed], both in the order of the input. *)
Lemma rows_loop_partition f actual data w :
  header_valid f actual = true ->
  exists cleaned seen removed w' mask,
    rows_loop lib f (DictReader_row actual <$> data) 2 [] ∅ [] w
    = (Ok (cleaned, seen, removed), w')
    /\ length mask = length data
    /\ cleaned = select mask (DictReader_row actual <$> data)
    /\ removed = select (negb <$> mask) (DictReader_row actual <$> data)
    /\ (length cleaned + length removed = length data)%nat
    /\ cleaned `sublist_of` (DictReader_row actual <$> data).
Proof.
  intros Hv. rewrite rows_loop_view. unfold lift.
  destruct (loop_view_returns (sourcedid_cache (self w)) f
              (DictReader_row actual <$> data) 2 [] ∅ []) as [[[cl sn] rm] Hres].
  { apply Forall_fmap, Forall_forall. intros row _ ln. simpl.
    by apply record_view_returns. }
  destruct (loop_view lib _ f _ 2 [] ∅ []) as [o es] eqn:E. cbn [fst snd] in *.
  subst o. destruct (loop_view_mask _ _ _ _ _ _ _ _ _ _ _ E)
    as (mask & Hlen & -> & -> & _ & _).
  rewrite length_fmap in Hlen.
  exists (select mask (DictReader_row actual <$> data)), sn,
    (select (negb <$> mask) (DictReader_row actual <$> data)), (add_errors es w), mask.
  repeat split; try done.
  - rewrite select_length by by rewrite length_fmap. by rewrite length_fmap.
  - apply select_sublist.
Qed.

End Rows.

(** ** A run *)

Section Run.
Context (lib : PyLib).

Lemma file_effect_add_errors filename es w :
  Forall (fun e => line_kind e /\ file e = filename) es ->
  file_effect filename w (add_errors es w).
Proof.
  intros HF. unfold file_effect. simpl. repeat split; eauto.
Qed.

Lemma file_effect_trans filename es w w' :
  Forall (fun e => line_kind e /\ file e = filename) es ->
  file_effect filename (add_errors es w) w' -> file_effect filename w w'.
Proof.
  intros HF (H1 & H2 & H3 & (es' & H4 & HF') & H5 & H6).
  unfold file_effect. simpl in *. repeat split; try done.
  exists (es ++ es')%list. rewrite H4, app_assoc. split; [done|by apply Forall_app].
Qed.

Lemma file_error_kind filename e :
  line_kind (file_error lib filename e) /\ file (file_error lib filename e) = filename.
Proof. split; [by left|done]. Qed.

Lemma publish_view_effect filename actual res w :
  file_effect filename w (publish_view lib filename actual res w).
Proof.
  destruct res as [[cleaned seen] removed]. unfold publish_view.
  set (w1 := if negb (bool_decide (removed = [])) then _ else w).
  assert (H1 : sourcedid_cache (self w1) = sourcedid_cache (self w))
    by (subst w1; by destruct (negb _)).
  assert (H2 : errors (self w1) = errors (self w))
    by (subst w1; by destruct (negb _)).
  assert (H3 : fs w1 = fs w) by (subst w1; by destruct (negb _)).
  assert (H4 : directory_path (self w1) = directory_path (self w))
    by (subst w1; by destruct (negb _)).
  assert (H5 : output_directory (self w1) = output_directory (self w))
    by (subst w1; by destruct (negb _)).
  assert (H6 : report_file (self w1) = report_file (self w))
    by (subst w1; by destruct (negb _)).
  clearbody w1. cbv zeta. unfold file_effect.
  pose proof (file_error_kind filename) as Hk.
  destruct (fs w1 !! _) as [[|c']|];
    try destruct (writerows lib _ cleaned _) as [written [e|]]; simpl;
    rewrite ?H1, ?H2, ?H3, ?H4, ?H5, ?H6;
    repeat split; eauto;
    try (by eexists; split; [done|repeat constructor]);
    by exists []; rewrite app_nil_r.
Qed.

Lemma file_view_effect filename w :
  file_effect filename w (file_view lib filename w).
Proof.
  unfold file_view.
  pose proof (file_error_kind filename) as Hk.
  destruct (fs w !! _) as [[|c]|];
    try (apply file_effect_add_errors; by repeat constructor).
  assert (Hmain : forall rows failure,
    file_effect filename w
      (if negb (header_valid filename (default [] (head rows)))
       then add_errors [header_error lib filename (default [] (head rows))] w
       else match failure with
            | Some msg => add_errors [file_error lib filename (ValueError msg)] w
            | None =>
                match loop_view lib (sourcedid_cache (self w)) filename
                        (data_rows rows) 2 [] ∅ [] with
                | (Ok res, es) =>
                    publish_view lib filename (default [] (head rows)) res
                      (add_errors es w)
                | (Raise e, es) => add_errors (es ++ [file_error lib filename e]) w
                end
            end)).
  { intros rows failure.
    destruct (negb _).
    { apply file_effect_add_errors. constructor; [|constructor].
      split; [right; by left|done]. }
    destruct failure as [msg|].
    { apply file_effect_add_errors. by repeat constructor. }
    pose proof (loop_view_lines lib (sourcedid_cache (self w)) filename
                  (data_rows rows) 2 [] ∅ []) as Hl.
    destruct (loop_view lib _ filename (data_rows rows) 2 [] ∅ []) as [[res|e] es];
      cbn [snd] in Hl.
    - eapply file_effect_trans; [|apply publish_view_effect].
      eapply Forall_impl; [exact Hl|]. simpl. intros e [? ?].
      split; [|done]. right. by right.
    - apply file_effect_add_errors. apply Forall_app. split; [|by repeat constructor].
      eapply Forall_impl; [exact Hl|]. simpl. intros e' [? ?].
      split; [|done]. right. by right. }
  destruct (csv_rows c) as [rows failure].
  destruct rows as [|h rows']; [destruct failure as [msg|]|].
  - apply file_effect_add_errors. by repeat constructor.
  - apply (Hmain [] None).
  - apply (Hmain (h :: rows') failure).
Qed.

(** *** [validate_all] step by step *)

Lemma set_fs_same w : set_fs (fs w) w = w.
Proof. by destruct w. Qed.

Lemma prepare_output_directory_view w :
  prepare_output_directory w
  = (match (prepare_view (fs w) (output_directory (self w))).2 with
     | None => Ok tt
     | Some e => Raise e
     end,
     set_fs (prepared_fs (fs w) (output_directory (self w))) w).
Proof.
  unfold prepare_output_directory, prepared_fs, prepare_view.
  rewrite bind_ok with (a := w) (w' := w) by done.
  destruct (Os.path_exists (fs w) (output_directory (self w))).
  - unfold bind at 1, fs_op at 1.
    destruct (Os.rmtree (fs w) (output_directory (self w))) as [e|fs1].
    + cbn [fst snd]. by rewrite set_fs_same.
    + unfold fs_op. cbn [fs set_fs self].
      by destruct (Os.makedirs fs1 (output_directory (self w))) as [e|fs2].
  - rewrite bind_ret. unfold fs_op.
    destruct (Os.makedirs (fs w) (output_directory (self w))) as [e|fs2];
      cbn [fst snd]; [by rewrite set_fs_same|done].
Qed.

Lemma prepare_output_directory_returns w :
  (prepare_view (fs w) (output_directory (self w))).2 = None ->
  prepare_output_directory w
  = (Ok tt, set_fs (prepared_fs (fs w) (output_directory (self w))) w).
Proof. intros H. by rewrite prepare_output_directory_view, H. Qed.

Lemma validate_all_steps w w1 w2 w3 :
  prepare_output_directory (set_removed_records ∅ (set_errors [] w)) = (Ok tt, w1) ->
  _validate_file_existence w1 = (Ok tt, w2) ->
  files_loop lib (required_files ++ optional_files) w2 = (Ok tt, w3) ->
  validate_all lib w
  = match fs w3 !! report_file (self w3) with
    | Some Dir => (Raise (IsADirectoryError lib (report_file (self w3))), w3)
    | _ =>
        let w' := set_fs (<[report_file (self w3) := File (Json (report_of w3))]>
                            (fs w3)) w3 in
        (Ok (errors (self w'), output_directory (self w'), report_file (self w')), w')
    end.
Proof.
  intros H1 H2 H3. unfold validate_all.
  rewrite bind_ok with (a := tt) (w' := set_removed_records ∅ (set_errors [] w))
    by done.
  rewrite (bind_ok _ _ _ _ _ H1), (bind_ok _ _ _ _ _ H2), (bind_ok _ _ _ _ _ H3).
  unfold bind at 1, write_report.
  rewrite bind_ok with (a := w3) (w' := w3) by done.
  unfold write_json, report_of.
  by destruct (fs w3 !! report_file (self w3)) as [[|c]|].
Qed.

Lemma validate_all_view w :
  (prepare_view (fs w) (output_directory (self w))).2 = None ->
  validate_all lib w
  = match fs (processed lib w) !! report_file (self (processed lib w)) with
    | Some Dir =>
        (Raise (IsADirectoryError lib (report_file (self (processed lib w)))),
         processed lib w)
    | _ =>
        let w' := set_fs (<[report_file (self (processed lib w))
                            := File (Json (report_of (processed lib w)))]>
                            (fs (processed lib w))) (processed lib w) in
        (Ok (errors (self w'), output_directory (self w'), report_file (self w')), w')
    end.
Proof.
  intros Hout. unfold processed.
  eapply validate_all_steps.
  - by apply prepare_output_directory_returns.
  - apply existence_loop_view.
  - apply files_loop_view.
Qed.

(** *** The loop over the files *)

Lemma process_files_app l1 l2 w :
  process_files lib (l1 ++ l2) w = process_files lib l2 (process_files lib l1 w).
Proof. revert w. induction l1 as [|g l1 IH]; intros w; [done|]. simpl. apply IH. Qed.

(** One step of the loop: the file is processed or skipped. *)
Lemma process_step_effect g w :
  let w1 := if Os.path_exists (fs w) (Os.path_join (directory_path (self w)) g)
            then file_view lib g w else w in
  w1 = w \/ (fs w !! Os.path_join (directory_path (self w)) g <> None
             /\ file_effect g w w1).
Proof.
  cbv zeta. unfold Os.path_exists. case_bool_decide as E; [|by left].
  right. split; [by destruct E as [? ->]|apply file_view_effect].
Qed.

Lemma process_files_paths fnames w :
  directory_path (self (process_files lib fnames w)) = directory_path (self w)
  /\ output_directory (self (process_files lib fnames w)) = output_directory (self w)
  /\ report_file (self (process_files lib fnames w)) = report_file (self w).
Proof.
  revert w. induction fnames as [|g fnames IH]; intros w; [done|].
  cbn [process_files]. destruct (process_step_effect g w) as [->|[_ He]]; [apply IH|].
  destruct He as (H1 & H2 & H3 & _). destruct (IH (
    if Os.path_exists (fs w) (Os.path_join (directory_path (self w)) g)
    then file_view lib g w else w)) as (I1 & I2 & I3).
  by rewrite I1, I2, I3.
Qed.

Lemma process_files_errors fnames w :
  exists es, errors (self (process_files lib fnames w)) = (errors (self w) ++ es)%list
             /\ Forall line_kind es.
Proof.
  revert w. induction fnames as [|g fnames IH]; intros w.
  - exists []. by rewrite app_nil_r.
  - cbn [process_files]. destruct (process_step_effect g w) as [->|[_ He]]; [apply IH|].
    destruct He as (_ & _ & _ & (es & Hes & HF) & _).
    destruct (IH (if Os.path_exists (fs w) (Os.path_join (directory_path (self w)) g)
                  then file_view lib g w else w)) as (es' & Hes' & HF').
    exists (es ++ es')%list. rewrite Hes', Hes, app_assoc. split; [done|].
    apply Forall_app. split; [|done]. eapply Forall_impl; [exact HF|]. by intros e [? _].
Qed.

(** The loop writes only the clean copies. *)
Lemma process_files_fs fnames w k :
  fs (process_files lib fnames w) !! k = fs w !! k
  \/ exists g written,
       g ∈ fnames /\ k = Os.path_join (output_directory (self w)) g
       /\ fs (process_files lib fnames w) !! k = Some (File (Csv written None)).
Proof.
  revert w. induction fnames as [|g fnames IH]; intros w; [by left|].
  cbn [process_files].
  set (w1 := if Os.path_exists (fs w) (Os.path_join (directory_path (self w)) g)
             then file_view lib g w else w).
  assert (Hout : output_directory (self w1) = output_directory (self w)).
  { destruct (process_step_effect g w) as [H|[_ He]]; fold w1 in H || fold w1 in He.
    - by rewrite H.
    - by destruct He as (_ & ? & _). }
  destruct (IH w1) as [Hk|(g' & written & Hg' & -> & Hk)].
  - rewrite Hk.
    destruct (process_step_effect g w) as [H|[_ He]]; fold w1 in H || fold w1 in He.
    + left. by rewrite H.
    + destruct He as (_ & _ & _ & _ & [Hfs|[written Hfs]] & _); rewrite Hfs.
      * by left.
      * destruct (decide (k = Os.path_join (output_directory (self w)) g)) as [->|Hne].
        -- right. exists g, written. rewrite Hfs in Hk.
           rewrite lookup_insert_eq in *. split; [set_solver|done].
        -- left. by rewrite lookup_insert_ne.
  - right. exists g', written. rewrite Hout in *. split; [set_solver|done].
Qed.

(** The loop publishes identifiers only for the files it processes:
    for every other file the cache holds what it held. *)
Lemma process_files_cache_same fnames w ref :
  ref ∉ fnames
  \/ (fs w !! Os.path_join (directory_path (self w)) ref = None
      /\ forall g, g ∈ fnames ->
           Os.path_join (directory_path (self w)) ref
           <> Os.path_join (output_directory (self w)) g) ->
  sourcedid_cache (self (process_files lib fnames w)) !! ref
  = sourcedid_cache (self w) !! ref.
Proof.
  revert w. induction fnames as [|g fnames IH]; intros w Href; [done|].
  cbn [process_files].
  set (w1 := if Os.path_exists (fs w) (Os.path_join (directory_path (self w)) g)
             then file_view lib g w else w).
  destruct (process_step_effect g w) as [H|[Hex He]]; fold w1 in H || fold w1 in He.
  - rewrite H. apply IH.
    destruct Href as [Href|[Hfs Hne]]; [left; set_solver|right].
    split; [done|]. intros g' Hg'. apply Hne. set_solver.
  - destruct He as (Hd & Ho & _ & _ & Hfs' & Hc').
    rewrite IH.
    + destruct Hc' as [->|[ids ->]]; [done|].
      rewrite lookup_insert_ne; [done|]. intros ->.
      destruct Href as [Href|[Hfs _]]; [set_solver|done].
    + destruct Href as [Href|[Hfs Hne]]; [left; set_solver|right].
      rewrite Hd, Ho. split.
      * destruct Hfs' as [->|[written ->]]; [done|].
        rewrite lookup_insert_ne; [done|]. intros Heq. eapply Hne; [|by symmetry].
        set_solver.
      * intros g' Hg'. apply Hne. set_solver.
Qed.

(** *** The output directory *)

(** What the step changes outside the output directory: it makes
    directories above it that were missing. *)
Lemma prepared_fs_frame files out k :
  Os.beneath out k = false -> k <> out ->
  prepared_fs files out !! k = files !! k
  \/ (files !! k = None /\ prepared_fs files out !! k = Some Dir
      /\ String.prefix k out = true).
Proof.
  intros Hk Hne. unfold prepared_fs, prepare_view.
  assert (Hmk : forall fs1, fs1 !! k = files !! k ->
    (match Os.makedirs fs1 out with
     | inl e => (fs1, Some e)
     | inr fs2 => (fs2, None)
     end).1 !! k = files !! k
    \/ (files !! k = None
        /\ (match Os.makedirs fs1 out with
            | inl e => (fs1, Some e)
            | inr fs2 => (fs2, None)
            end).1 !! k = Some Dir
        /\ String.prefix k out = true)).
  { intros fs1 H1. destruct (Os.makedirs fs1 out) as [e|fs2] eqn:E; [by left|].
    cbn [fst]. rewrite <- H1. apply (makedirs_frame _ _ _ E). }
  destruct (Os.path_exists files out); [|by apply Hmk].
  unfold Os.rmtree. destruct (files !! out) as [[|c]|]; [|by left|by left].
  apply Hmk. destruct (files !! k) as [x|] eqn:Ek.
  - apply map_lookup_filter_Some_2; [by rewrite lookup_delete_ne|].
    simpl. by rewrite Hk.
  - apply map_lookup_filter_None. left. by rewrite lookup_delete_ne.
Qed.

Lemma prepared_fs_other files out k :
  Os.beneath out k = false -> k <> out -> String.prefix k out = false ->
  prepared_fs files out !! k = files !! k.
Proof.
  intros Hk Hne Hpre.
  destruct (prepared_fs_frame files out k Hk Hne) as [?|(_ & _ & ?)]; congruence.
Qed.

(** A path that exists is left as it is. *)
Lemma prepared_fs_kept files out k :
  Os.beneath out k = false -> k <> out -> files !! k <> None ->
  prepared_fs files out !! k = files !! k.
Proof.
  intros Hk Hne Hex.
  destruct (prepared_fs_frame files out k Hk Hne) as [?|(? & _)]; congruence.
Qed.

Lemma prepared_fs_out files dir :
  (prepare_view files (Os.path_join dir "validated_output")).2 = None ->
  prepared_fs files (Os.path_join dir "validated_output")
    !! Os.path_join dir "validated_output" = Some Dir.
Proof.
  unfold prepared_fs, prepare_view.
  destruct (if Os.path_exists _ _ then _ else _) as [e|fs1]; [done|].
  destruct (Os.makedirs fs1 _) as [e|fs2] eqn:E; [done|]. intros _. cbn [fst].
  eapply makedirs_created; [| |exact E]; by rewrite split_out.
Qed.

(** When the output directory was there, nothing of what it held is
    left; when it was not, the step touches nothing beneath its path. *)
Lemma prepared_fs_beneath files dir k :
  (prepare_view files (Os.path_join dir "validated_output")).2 = None ->
  Os.beneath (Os.path_join dir "validated_output") k = true ->
  prepared_fs files (Os.path_join dir "validated_output") !! k
  = if Os.path_exists files (Os.path_join dir "validated_output") then None
    else files !! k.
Proof.
  intros Hret Hk. revert Hret. unfold prepared_fs, prepare_view.
  pose proof (beneath_out_not_above dir k Hk) as Hpre.
  assert (Hmk : forall fs1 fs2,
    Os.makedirs fs1 (Os.path_join dir "validated_output") = inr fs2 ->
    fs2 !! k = fs1 !! k).
  { intros fs1 fs2 E. destruct (makedirs_frame _ _ _ E k) as [?|(_ & _ & ?)]; congruence. }
  destruct (Os.path_exists files _).
  - unfold Os.rmtree. destruct (files !! _) as [[|c]|]; [|done|done].
    destruct (Os.makedirs _ _) as [e|fs2] eqn:E; [done|]. intros _. cbn [fst].
    rewrite (Hmk _ _ E). apply map_lookup_filter_None. right. intros x _. simpl.
    rewrite Hk. by intros [].
  - destruct (Os.makedirs _ _) as [e|fs2] eqn:E; [done|]. intros _. cbn [fst].
    apply (Hmk _ _ E).
Qed.

Lemma dirname_not_beneath out :
  (Os.split out).2 <> "" ->
  Os.dirname out <> out /\ Os.beneath out (Os.dirname out) = false.
Proof.
  intros Ht. pose proof (split_length out) as Hl. unfold Os.dirname.
  assert (Hlt : (String.length (Os.split out).1 < String.length out)%nat).
  { destruct (Os.split out).2; [done|]. simpl in Hl. lia. }
  split; [intros H; rewrite H in Hlt; lia|].
  unfold Os.beneath. destruct (String.prefix _ _) eqn:E; [|done].
  apply prefix_length in E.
  assert (String.length out <= String.length (Os.path_join out ""))%nat; [|lia].
  unfold Os.path_join. cbn [Text.startswith_char].
  destruct (_ || _); rewrite !length_append; lia.
Qed.

(** The step when the directory above the output directory is there:
    the output directory, emptied, is all that it makes. *)
Lemma prepare_view_parent_there files out :
  (forall c, files !! out <> Some (File c)) ->
  (Os.split out).2 <> "" ->
  Os.always_there (Os.dirname out) = true \/ files !! Os.dirname out = Some Dir ->
  prepare_view files out
  = (<[out := Dir]>
       (if Os.path_exists files out
        then filter (fun kv => negb (Os.beneath out kv.1)) (delete out files)
        else files),
     None).
Proof.
  intros Hfile Ht Hparent. unfold prepare_view, Os.path_exists, Os.rmtree.
  destruct (dirname_not_beneath out Ht) as [Hne Hb].
  destruct (files !! out) as [[|c]|] eqn:E.
  - rewrite bool_decide_eq_true_2 by eauto.
    rewrite makedirs_parent_there; [done|done| |].
    + destruct Hparent as [?|Hp]; [by left|right].
      apply map_lookup_filter_Some_2; [by rewrite lookup_delete_ne|].
      simpl. by rewrite Hb.
    + apply map_lookup_filter_None. left. apply lookup_delete_eq.
  - by destruct (Hfile c).
  - rewrite bool_decide_eq_false_2 by (by intros [? ?]).
    by rewrite makedirs_parent_there.
Qed.

(** The step when the output path is a regular file, and when the path
    above it is one. *)
Lemma prepare_view_file files out c :
  files !! out = Some (File c) ->
  prepare_view files out = (files, Some (OSError "Not a directory")).
Proof.
  intros E. unfold prepare_view, Os.path_exists, Os.rmtree.
  by rewrite E, bool_decide_eq_true_2 by eauto.
Qed.

Lemma prepare_view_parent_file files out c :
  (Os.split out).2 <> "" ->
  Os.always_there (Os.dirname out) = false ->
  files !! Os.dirname out = Some (File c) ->
  (prepare_view files out).2 = Some (OSError "Not a directory").
Proof.
  intros Ht Hroot Hparent. unfold prepare_view, Os.path_exists, Os.rmtree.
  destruct (dirname_not_beneath out Ht) as [Hne Hb].
  destruct (files !! out) as [[|c']|] eqn:E.
  - rewrite bool_decide_eq_true_2 by eauto.
    rewrite (makedirs_parent_file _ _ c); [done|done|done|].
    apply map_lookup_filter_Some_2; [by rewrite lookup_delete_ne|].
    simpl. by rewrite Hb.
  - by rewrite bool_decide_eq_true_2 by eauto.
  - rewrite bool_decide_eq_false_2 by (by intros [? ?]).
    by rewrite (makedirs_parent_file _ _ c).
Qed.

Lemma processed_errors w : Forall line_kind (errors (self (processed lib w))).
Proof.
  unfold processed.
  destruct (process_files_errors (required_files ++ optional_files)
    (add_errors
       (missing_file_error <$>
          missing_files
            (set_fs (prepared_fs (fs w) (output_directory (self w)))
               (set_removed_records ∅ (set_errors [] w)))
            ["orgs.csv"; "users.csv"; "roles.csv"])
       (set_fs (prepared_fs (fs w) (output_directory (self w)))
          (set_removed_records ∅ (set_errors [] w))))) as (es & -> & HF).
  apply Forall_app. split; [|done]. simpl.
  apply Forall_fmap, Forall_forall. intros fname _. by left.
Qed.

(** When the step raises, so does [validate_all], and nothing else is
    done. *)
Lemma validate_all_prepare_raises w e :
  (prepare_view (fs w) (output_directory (self w))).2 = Some e ->
  validate_all lib w
  = (Raise e, set_fs (prepared_fs (fs w) (output_directory (self w)))
                (set_removed_records ∅ (set_errors [] w))).
Proof.
  intros He. unfold validate_all.
  rewrite bind_ok with (a := tt) (w' := set_removed_records ∅ (set_errors [] w))
    by done.
  apply bind_raise. rewrite prepare_output_directory_view.
  cbn [set_removed_records set_errors fs self output_directory]. by rewrite He.
Qed.

Lemma validate_all_output_is_file w c :
  fs w !! output_directory (self w) = Some (File c) ->
  validate_all lib w
  = (Raise (OSError "Not a directory"), set_removed_records ∅ (set_errors [] w)).
Proof.
  intros Hc. rewrite (validate_all_prepare_raises w (OSError "Not a directory")).
  - unfold prepared_fs. by rewrite (prepare_view_file _ _ c).
  - by rewrite (prepare_view_file _ _ c).
Qed.

(** The world when the files [l1] have been processed, in a call of
    [validate_all] that gets there. *)
Lemma validate_all_prefix w l1 w1 :
  (reset_state;;; prepare_output_directory;;; _validate_file_existence;;;
   files_loop lib l1) w = (Ok tt, w1) ->
  exists w2,
    w1 = process_files lib l1 w2
    /\ self w2 = {| directory_path := directory_path (self w);
                    errors := errors (self w2);
                    data_cache := data_cache (self w);
                    sourcedid_cache := sourcedid_cache (self w);
                    removed_records := ∅;
                    output_directory := output_directory (self w);
                    report_file := report_file (self w) |}
    /\ fs w2 = prepared_fs (fs w) (output_directory (self w)).
Proof.
  rewrite bind_ok with (a := tt) (w' := set_removed_records ∅ (set_errors [] w))
    by done.
  pose proof (prepare_output_directory_view (set_removed_records ∅ (set_errors [] w)))
    as Hprep.
  cbn [set_removed_records set_errors fs self output_directory] in Hprep.
  destruct (prepare_view (fs w) (output_directory (self w))).2 as [e|].
  - erewrite bind_raise by exact Hprep. done.
  - erewrite bind_ok by exact Hprep.
    unfold _validate_file_existence.
    erewrite bind_ok by apply existence_loop_view.
    rewrite files_loop_view. intros [= <-]. eexists. split; [done|]. by simpl.
Qed.

Lemma in_out_ne dir g g' :
  g ∈ (required_files ++ optional_files)%list ->
  g' ∈ (required_files ++ optional_files)%list ->
  Os.path_join dir g <> Os.path_join (Os.path_join dir "validated_output") g'.
Proof.
  intros Hg Hg' Heq.
  destruct (infile_not_output dir g Hg) as [Hb _].
  destruct (file_names_relative g' Hg') as (Hrel & Hne & _).
  rewrite Heq, beneath_out_outfile in Hb by done. done.
Qed.

(** The state of a validator that [__init__] made: its output directory
    is [validated_output] in its input directory. *)
Lemma made_by_init_step g w :
  output_directory (self w) = Os.path_join (directory_path (self w)) "validated_output" ->
  let w1 := if Os.path_exists (fs w) (Os.path_join (directory_path (self w)) g)
            then file_view lib g w else w in
  output_directory (self w1) = Os.path_join (directory_path (self w1)) "validated_output"
  /\ directory_path (self w1) = directory_path (self w)
  /\ forall g', g' ∈ (required_files ++ optional_files)%list ->
        g ∈ (required_files ++ optional_files)%list ->
        fs w1 !! Os.path_join (directory_path (self w)) g'
        = fs w !! Os.path_join (directory_path (self w)) g'.
Proof.
  intros Hout. destruct (process_step_effect g w) as [H|[_ He]]; cbv zeta in *.
  - by rewrite H.
  - destruct He as (Hd & Ho & _ & _ & Hfs & _). rewrite Hd, Ho.
    split; [done|]. split; [done|]. intros g' Hg' Hg.
    destruct Hfs as [->|[written ->]]; [done|].
    rewrite lookup_insert_ne; [done|]. rewrite Hout. intros Heq.
    by apply (in_out_ne (directory_path (self w)) g' g Hg' Hg).
Qed.

(** A clean copy is the copy of a file that is in the input
    directory. *)
Lemma process_files_fs_present fnames w k :
  output_directory (self w) = Os.path_join (directory_path (self w)) "validated_output" ->
  (forall g, g ∈ fnames -> g ∈ (required_files ++ optional_files)%list) ->
  fs (process_files lib fnames w) !! k = fs w !! k
  \/ exists g written,
       g ∈ fnames
       /\ fs w !! Os.path_join (directory_path (self w)) g <> None
       /\ k = Os.path_join (output_directory (self w)) g
       /\ fs (process_files lib fnames w) !! k = Some (File (Csv written None)).
Proof.
  revert w. induction fnames as [|g fnames IH]; intros w Hout Hnames; [by left|].
  cbn [process_files].
  destruct (made_by_init_step g w Hout) as (Hout1 & Hd1 & Hfs1).
  assert (Hg : g ∈ (required_files ++ optional_files)%list)
    by apply Hnames, list_elem_of_here.
  set (w1 := if Os.path_exists (fs w) (Os.path_join (directory_path (self w)) g)
             then file_view lib g w else w) in *.
  assert (Ho1 : output_directory (self w1) = output_directory (self w)).
  { destruct (process_step_effect g w) as [H|[_ He]]; fold w1 in H || fold w1 in He.
    - by rewrite H.
    - by destruct He as (_ & ? & _). }
  destruct (IH w1 Hout1) as [Hk|(g' & written & Hg' & Hex & -> & Hk)].
  { intros g' Hg'. by apply Hnames, list_elem_of_further. }
  - rewrite Hk.
    destruct (process_step_effect g w) as [H|[Hex He]]; fold w1 in H || fold w1 in He.
    + left. by rewrite H.
    + destruct He as (_ & _ & _ & _ & [Hfs|[written Hfs]] & _); rewrite Hfs.
      * by left.
      * destruct (decide (k = Os.path_join (output_directory (self w)) g)) as [->|Hne].
        -- right. exists g, written. rewrite Hfs in Hk.
           rewrite lookup_insert_eq in *. split; [apply list_elem_of_here|done].
        -- left. by rewrite lookup_insert_ne.
  - right. exists g', written. rewrite Ho1 in *.
    split; [by apply list_elem_of_further|]. split; [|done].
    rewrite Hd1, Hfs1 in Hex; [done| |done].
    by apply Hnames, list_elem_of_further.
Qed.

(** *** The worlds [validate_all] leaves *)

(** The world before the loop over the files, in a call that gets
    there. *)
Lemma processed_eq w :
  processed lib w
  = process_files lib (required_files ++ optional_files)
      (add_errors
         (missing_file_error
            <$> missing_files
                  (set_fs (prepared_fs (fs w) (output_directory (self w)))
                     (set_removed_records ∅ (set_errors [] w)))
                  ["orgs.csv"; "users.csv"; "roles.csv"])
         (set_fs (prepared_fs (fs w) (output_directory (self w)))
            (set_removed_records ∅ (set_errors [] w)))).
Proof. reflexivity. Qed.

Lemma self_set_fs v w : self (set_fs v w) = self w.
Proof. reflexivity. Qed.

Lemma fs_set_fs v w : fs (set_fs v w) = v.
Proof. reflexivity. Qed.

(** The three worlds [validate_all] can leave: it raised while the
    output directory was prepared, it raised while the report was
    written, or it returned. *)
Lemma validate_all_world w :
  (validate_all lib w).2
  = set_fs (prepared_fs (fs w) (output_directory (self w)))
      (set_removed_records ∅ (set_errors [] w))
  \/ (validate_all lib w).2 = processed lib w
  \/ (validate_all lib w).2
     = set_fs (<[report_file (self (processed lib w))
                 := File (Json (report_of (processed lib w)))]>
                 (fs (processed lib w))) (processed lib w).
Proof.
  destruct (prepare_view (fs w) (output_directory (self w))).2 as [e|] eqn:E.
  - left. by rewrite (validate_all_prepare_raises w e E).
  - right. rewrite validate_all_view by done.
    generalize (processed lib w). intros p.
    destruct (fs p !! report_file (self p)) as [[|c]|]; auto.
Qed.

Lemma processed_paths w :
  directory_path (self (processed lib w)) = directory_path (self w)
  /\ output_directory (self (processed lib w)) = output_directory (self w)
  /\ report_file (self (processed lib w)) = report_file (self w).
Proof.
  rewrite processed_eq.
  match goal with
  | |- context [process_files lib ?l ?w2] =>
      destruct (process_files_paths l w2) as (-> & -> & ->)
  end.
  done.
Qed.

(** A path that the loop over the files leaves as the step before left
    it, or the clean copy of a file of the input directory. *)
Lemma processed_fs_present w k :
  output_directory (self w) = Os.path_join (directory_path (self w)) "validated_output" ->
  fs (processed lib w) !! k = prepared_fs (fs w) (output_directory (self w)) !! k
  \/ exists g written,
       g ∈ (required_files ++ optional_files)%list
       /\ fs w !! Os.path_join (directory_path (self w)) g <> None
       /\ k = Os.path_join (output_directory (self w)) g
       /\ fs (processed lib w) !! k = Some (File (Csv written None)).
Proof.
  intros Hout. rewrite processed_eq.
  match goal with
  | |- context [process_files lib ?l ?w2] =>
      destruct (process_files_fs_present l w2 k) as [->|(g & written & Hg & Hex & ? & ?)];
        [done|done| |]
  end.
  - by left.
  - right. exists g, written. split; [done|]. split; [|done].
    cbn [add_errors set_errors set_fs set_removed_records self fs directory_path] in Hex.
    destruct (infile_not_output (directory_path (self w)) g Hg) as [Hb Hne].
    destruct (file_names_relative g Hg) as (Hrel & _ & _ & Habove).
    rewrite Hout in Hex. rewrite prepared_fs_other in Hex; [done|done|done|].
    rewrite (path_join_relative _ g) by done. by apply not_above_out.
Qed.

(** A path that the loop over the files leaves as the step before left
    it, or a clean copy. *)
Lemma processed_fs w k :
  fs (processed lib w) !! k = prepared_fs (fs w) (output_directory (self w)) !! k
  \/ exists g written,
       g ∈ (required_files ++ optional_files)%list
       /\ k = Os.path_join (output_directory (self w)) g
       /\ fs (processed lib w) !! k = Some (File (Csv written None)).
Proof.
  rewrite processed_eq.
  match goal with
  | |- context [process_files lib ?l ?w2] =>
      destruct (process_files_fs l w2 k) as [->|H]
  end.
  - by left.
  - by right.
Qed.

Lemma processed_fs_frame w k :
  k <> output_directory (self w) -> Os.beneath (output_directory (self w)) k = false ->
  fs (processed lib w) !! k = fs w !! k
  \/ (fs w !! k = None /\ fs (processed lib w) !! k = Some Dir
      /\ String.prefix k (output_directory (self w)) = true).
Proof.
  intros Hne Hb.
  destruct (processed_fs w k) as [->|(g & written & Hg & Hk & _)].
  - by apply prepared_fs_frame.
  - exfalso. destruct (file_names_relative g Hg) as (Hrel & Hg0 & _).
    rewrite Hk, beneath_dir in Hb by done. done.
Qed.

Lemma processed_fs_other w k :
  k <> output_directory (self w) -> Os.beneath (output_directory (self w)) k = false ->
  String.prefix k (output_directory (self w)) = false ->
  fs (processed lib w) !! k = fs w !! k.
Proof.
  intros Hne Hb Hpre.
  destruct (processed_fs_frame w k Hne Hb) as [?|(_ & _ & ?)]; congruence.
Qed.

(** What [validate_all] returns, and the world it leaves then. *)
Lemma validate_all_returns w errs out rep w' :
  validate_all lib w = (Ok (errs, out, rep), w') ->
  errs = errors (self (processed lib w))
  /\ out = output_directory (self w)
  /\ rep = report_file (self w)
  /\ self w' = self (processed lib w)
  /\ fs w' = <[report_file (self w) := File (Json (report_of (processed lib w)))]>
               (fs (processed lib w))
  /\ (prepare_view (fs w) (output_directory (self w))).2 = None.
Proof.
  intros H.
  assert (Hview : forall p,
    directory_path (self p) = directory_path (self w)
    /\ output_directory (self p) = output_directory (self w)
    /\ report_file (self p) = report_file (self w) ->
    match fs p !! report_file (self p) with
    | Some Dir => (Raise (IsADirectoryError lib (report_file (self p))), p)
    | _ =>
        let w' := set_fs (<[report_file (self p) := File (Json (report_of p))]> (fs p)) p in
        (Ok (errors (self w'), output_directory (self w'), report_file (self w')), w')
    end = (Ok (errs, out, rep), w') ->
    errs = errors (self p)
    /\ out = output_directory (self w)
    /\ rep = report_file (self w)
    /\ self w' = self p
    /\ fs w' = <[report_file (self w) := File (Json (report_of p))]> (fs p)).
  { intros p (Hd & Ho & Hr) Hp.
    destruct (fs p !! report_file (self p)) as [[|c]|]; [discriminate| |];
      cbv zeta in Hp; injection Hp as <- <- <- <-;
      rewrite ?self_set_fs, ?fs_set_fs, ?Ho, ?Hr; done. }
  destruct (prepare_view (fs w) (output_directory (self w))).2 as [e|] eqn:E.
  - rewrite (validate_all_prepare_raises w e E) in H. discriminate.
  - rewrite validate_all_view in H by done.
    destruct (Hview (processed lib w) (processed_paths w) H) as (? & ? & ? & ? & ?).
    done.
Qed.

(** When the report path is a directory, a call that gets to the report
    raises. *)
Lemma validate_all_report_is_dir w :
  (prepare_view (fs w) (output_directory (self w))).2 = None ->
  fs (processed lib w) !! report_file (self w) = Some Dir ->
  exists e, validate_all lib w = (Raise e, processed lib w).
Proof.
  intros Hprep Hrep. rewrite validate_all_view by done.
  destruct (processed_paths w) as (_ & _ & ->). rewrite Hrep. by eexists.
Qed.

Lemma validate_all_report_written w :
  (prepare_view (fs w) (output_directory (self w))).2 = None ->
  fs (processed lib w) !! report_file (self w) <> Some Dir ->
  exists w', validate_all lib w
             = (Ok (errors (self (processed lib w)), output_directory (self w),
                    report_file (self w)), w').
Proof.
  intros Hprep Hrep. rewrite validate_all_view by done.
  destruct (processed_paths w) as (_ & Ho & Hr). rewrite Hr.
  destruct (fs (processed lib w) !! report_file (self w)) as [[|c]|]; [done| |];
    cbv zeta; rewrite ?self_set_fs, Ho, Hr; by eexists.
Qed.

End Run.

(** ** The claims *)

Section Claims.
Context (lib : PyLib).

Lemma filter_format_errors f r ln k valid what dt :
  filter (fun e => field e = dt) (format_errors f r ln k valid what)
  = if decide (k = dt) then format_errors f r ln k valid what else [].
Proof.
  unfold format_errors. destruct (format_bad r k valid).
  - rewrite filter_cons, filter_nil. simpl. by destruct (decide (k = dt)).
  - by destruct (decide (k = dt)).
Qed.

(** C2 (amended).  For every record whose cells are texts of code
    points below 256, the texts of the model, and every field [dt] among
    startDate, endDate, roleStartDate, roleEndDate that is present and
    not empty, [_validate_data_types] appends no error naming [dt] when
    [_is_valid_date] takes the value and exactly one, "Invalid date",
    when it does not; and [_is_valid_date] takes exactly the texts of
    [DateText.accepted]: four ASCII digits of a year from 0001 on, a
    hyphen, a month from 1 to 12 written with or without a leading zero,
    a hyphen, and a day written with or without a leading zero or a
    leading space, that exists in that month of that year.  (Beyond
    these texts, [strptime] also reads the decimal digits of other
    scripts, which are code points from 256 on.) *)
Theorem C2_invalid_date_errors f r ln w dt v :
  In dt date_fields -> dict_get r dt = Some v -> v <> "" ->
  exists ok es,
    _validate_data_types lib f r ln w = (Ok ok, add_errors es w)
    /\ filter (fun e => field e = dt) es
       = (if _is_valid_date v then []
          else [mkerr f ln dt ("Invalid date " +:+ v)])
    /\ (_is_valid_date v = true <-> DateText.accepted v).
Proof.
  intros Hdt Hv Hne.
  exists (data_types_ok lib r), (data_types_errors lib f r ln).
  split; [apply _validate_data_types_view|].
  split; [|apply _is_valid_date_accepted].
  assert (Hbad : format_errors f r ln dt _is_valid_date "date"
                 = if _is_valid_date v then []
                   else [mkerr f ln dt ("Invalid date " +:+ v)]).
  { unfold format_errors, format_bad. rewrite Hv. simpl.
    destruct v; [done|]. simpl. by destruct (_is_valid_date _). }
  unfold data_types_errors. rewrite !filter_app, !filter_format_errors.
  assert (Hbool : filter (fun e => field e = dt)
            (if boolean_bad r
             then [mkerr f ln "enabledUser"
                     ("Invalid boolean " +:+ py_str (dict_get r "enabledUser"))]
             else []) = []).
  { destruct (boolean_bad r); [|done].
    rewrite filter_cons, filter_nil. simpl.
    destruct (decide ("enabledUser" = dt)) as [<-|]; [|done].
    simpl in Hdt. intuition discriminate. }
  rewrite Hbool. clear Hbool.
  simpl in Hdt. destruct Hdt as [<-|[<-|[<-|[<-|[]]]]];
    simpl; rewrite !filter_app, !filter_format_errors; simpl;
    rewrite Hbad; by rewrite ?app_nil_r.
Qed.

(** *** One file *)

Lemma record_view_of_method f r ln w :
  (_validate_record lib f r ln w).1 = (record_view lib (sourcedid_cache (self w)) f r ln).1.
Proof. by rewrite _validate_record_view. Qed.

Lemma users_pass_sid c row ln :
  (record_view lib c "users.csv" row ln).1 = Ok true ->
  truthy (dict_get row "sourcedId") = true.
Proof.
  unfold record_view. cbn [fst].
  destruct (refs_view c "users.csv" row ln (references "users.csv") true).1
    as [b|e]; [|done].
  intros [= H]. apply andb_true_iff in H as [H _].
  apply andb_true_iff in H as [H%bool_decide_eq_true _].
  unfold req_fields, missing in H. simpl in H.
  rewrite filter_cons in H.
  destruct (truthy (dict_get row "sourcedId")); [done|].
  by rewrite decide_True in H.
Qed.

(** The last steps of a file leave both caches as they were, or put
    the rows kept and their identifiers in them. *)
Lemma publish_view_caches filename actual cleaned seen removed w :
  let w' := publish_view lib filename actual (cleaned, seen, removed) w in
  sourcedid_cache (self w') = sourcedid_cache (self w)
  \/ (sourcedid_cache (self w') = <[filename := seen]> (sourcedid_cache (self w))
      /\ data_cache (self w') = <[filename := cleaned]> (data_cache (self w))).
Proof.
  unfold publish_view.
  set (w1 := if negb (bool_decide (removed = [])) then _ else w).
  assert (H1 : sourcedid_cache (self w1) = sourcedid_cache (self w))
    by (subst w1; by destruct (negb _)).
  assert (H2 : data_cache (self w1) = data_cache (self w))
    by (subst w1; by destruct (negb _)).
  clearbody w1. cbv zeta.
  destruct (fs w1 !! _) as [[|c']|]; [by left| |];
    destruct (writerows lib _ cleaned _) as [written [e|]]; simpl;
    rewrite ?H1, ?H2; auto.
Qed.

(** What a call of [_validate_and_fix_file] that publishes a set of
    accepted identifiers went through. *)
Lemma file_view_published filename w ids :
  sourcedid_cache (self w) !! filename = None ->
  sourcedid_cache (self (file_view lib filename w)) !! filename = Some ids ->
  exists c rows es cleaned removed,
    fs w !! Os.path_join (directory_path (self w)) filename = Some (File c)
    /\ csv_rows c = (rows, None)
    /\ header_valid filename (default [] (head rows)) = true
    /\ loop_view lib (sourcedid_cache (self w)) filename (data_rows rows) 2 [] ∅ []
       = (Ok (cleaned, ids, removed), es)
    /\ data_cache (self (file_view lib filename w)) !! filename = Some cleaned.
Proof.
  intros Hnone. unfold file_view.
  destruct (fs w !! _) as [[|c]|] eqn:Efs; cbn [add_errors set_errors self sourcedid_cache];
    try (intros H; congruence).
  destruct (csv_rows c) as [rows failure] eqn:Ec.
  assert (Hmain :
    sourcedid_cache (self
      (if negb (header_valid filename (default [] (head rows)))
       then add_errors [header_error lib filename (default [] (head rows))] w
       else match failure with
            | Some msg => add_errors [file_error lib filename (ValueError msg)] w
            | None =>
                match loop_view lib (sourcedid_cache (self w)) filename
                        (data_rows rows) 2 [] ∅ [] with
                | (Ok res, es) =>
                    publish_view lib filename (default [] (head rows)) res
                      (add_errors es w)
                | (Raise e, es) => add_errors (es ++ [file_error lib filename e]) w
                end
            end)) !! filename = Some ids ->
    exists c0 rows0 es cleaned removed,
      Some (File c) = Some (File c0) /\ (rows, failure) = (rows0, None)
      /\ header_valid filename (default [] (head rows0)) = true
      /\ loop_view lib (sourcedid_cache (self w)) filename (data_rows rows0) 2 [] ∅ []
         = (Ok (cleaned, ids, removed), es)
      /\ data_cache (self
           (if negb (header_valid filename (default [] (head rows)))
            then add_errors [header_error lib filename (default [] (head rows))] w
            else match failure with
                 | Some msg => add_errors [file_error lib filename (ValueError msg)] w
                 | None =>
                     match loop_view lib (sourcedid_cache (self w)) filename
                             (data_rows rows) 2 [] ∅ [] with
                     | (Ok res, es) =>
                         publish_view lib filename (default [] (head rows)) res
                           (add_errors es w)
                     | (Raise e, es) =>
                         add_errors (es ++ [file_error lib filename e]) w
                     end
                 end)) !! filename = Some cleaned).
  { destruct (header_valid filename (default [] (head rows))) eqn:Ehv; cbn [negb];
      [|simpl; congruence].
    destruct failure as [msg|]; [simpl; congruence|].
    destruct (loop_view lib _ filename (data_rows rows) 2 [] ∅ [])
      as [[[[cleaned seen] removed]|e] es] eqn:El; [|simpl; congruence].
    destruct (publish_view_caches filename (default [] (head rows))
                cleaned seen removed (add_errors es w)) as [Hsame|[Hc' Hd']].
    - rewrite Hsame. simpl. congruence.
    - rewrite Hc', Hd', !lookup_insert_eq. intros [= ->].
      by exists c, rows, es, cleaned, removed. }
  destruct rows as [|h rows']; [destruct failure as [msg|]|].
  - simpl. congruence.
  - intros H. destruct (Hmain H) as (c0 & rows0 & es & cl & rm & [= <-] & [= <-] & ?).
    by exists c, [], es, cl, rm.
  - intros H. destruct (Hmain H) as (c0 & rows0 & es & cl & rm & [= <-] & [= <- <-] & ?).
    by exists c, (h :: rows'), es, cl, rm.
Qed.

(** C5.  For every file and every call of [_validate_and_fix_file] that
    publishes a set of accepted identifiers for it: the identifiers of
    the set are exactly the identity keys of the rows of [cleaned], which
    are data rows of the file in their order; every such row passed the
    check of the required fields, the check of the formats and the
    check of the cross-references, each of which returned true and
    appended no error; and where duplicates are checked, no two rows of
    [cleaned] share a key.  So a row that failed a check contributes no
    key. *)
Theorem C5_accepted_identifiers_passed_every_check filename w ids :
  sourcedid_cache (self w) !! filename = None ->
  sourcedid_cache (self (_validate_and_fix_file lib filename w).2) !! filename
    = Some ids ->
  exists c cleaned,
    fs w !! Os.path_join (directory_path (self w)) filename = Some (File c)
    /\ data_cache (self (_validate_and_fix_file lib filename w).2) !! filename
       = Some cleaned
    /\ cleaned `sublist_of` data_rows (csv_rows c).1
    /\ (forall k, k ∈ ids <-> exists row, row ∈ cleaned /\ row_sid row = k)
    /\ (forall row, row ∈ cleaned ->
        forall ln w1, sourcedid_cache (self w1) = sourcedid_cache (self w) ->
          _validate_required_fields filename row ln w1 = (Ok true, w1)
          /\ _validate_data_types lib filename row ln w1 = (Ok true, w1)
          /\ _validate_cross_reference filename row ln w1 = (Ok true, w1))
    /\ (checks_duplicates filename = true -> NoDup (row_sid <$> cleaned)).
Proof.
  rewrite _validate_and_fix_file_view. cbn [snd]. intros Hnone Hpub.
  destruct (file_view_published _ _ _ Hnone Hpub)
    as (c & rows & es & cleaned & removed & Hfs & Hc & Hhv & Hloop & Hdata).
  exists c, cleaned. rewrite Hc. cbn [fst].
  destruct (loop_view_mask _ _ _ _ _ _ _ _ _ _ _ _ Hloop)
    as (mask & Hlen & Hcl & _ & Hids & HF).
  rewrite app_nil_l in Hcl. subst cleaned.
  repeat split; try done.
  - apply select_sublist.
  - rewrite Hids, (left_id_L ∅ (∪)), elem_of_list_to_set, list_elem_of_fmap.
    intros (row & -> & Hrow). eauto.
  - intros (row & Hrow & <-).
    rewrite Hids, (left_id_L ∅ (∪)), elem_of_list_to_set, list_elem_of_fmap. eauto.
  - rewrite _validate_required_fields_view.
    rewrite Forall_forall in HF. specialize (HF _ H ln).
    unfold record_view in HF. cbn [fst] in HF.
    destruct (refs_view _ filename row ln (references filename) true).1; [|done].
    injection HF as HF. apply andb_true_iff in HF as [HF _].
    apply andb_true_iff in HF as [HF _]. rewrite HF.
    apply bool_decide_eq_true in HF. rewrite HF. simpl. by rewrite add_errors_nil.
  - rewrite _validate_data_types_view.
    rewrite Forall_forall in HF. specialize (HF _ H ln).
    unfold record_view in HF. cbn [fst] in HF.
    destruct (refs_view _ filename row ln (references filename) true).1; [|done].
    injection HF as HF. apply andb_true_iff in HF as [HF _].
    apply andb_true_iff in HF as [_ HF]. rewrite HF.
    by rewrite (data_types_ok_no_errors _ _ _ _ HF), add_errors_nil.
  - rewrite _validate_cross_reference_view. rewrite H0.
    rewrite Forall_forall in HF. specialize (HF _ H ln).
    unfold record_view in HF. cbn [fst] in HF.
    destruct (refs_view _ filename row ln (references filename) true)
      as [[b|e] es'] eqn:E; [|done].
    cbn [fst] in HF. injection HF as HF. apply andb_true_iff in HF as [_ ->].
    destruct (refs_view_true _ _ _ _ _ _ _ E) as [-> _].
    unfold lift. simpl. by rewrite add_errors_nil.
  - intros Hdup. eapply (loop_view_NoDup lib); [done|exact Hloop| |]; simpl.
    + done.
    + constructor.
Qed.

(** C6.  For every file whose header field set matches neither the
    canonical nor, when there is one, the alternate header set,
    [_validate_and_fix_file] returns with exactly one more error, the
    header error, at line 1, and changes nothing else: the file system is
    the same (no clean copy is written), both caches are the same (no
    set of accepted identifiers is published), so is the log of removed
    rows; this holds also when reading the data rows would fail, so no
    data row is read.  The loop over the files goes on with the next
    file from this state. *)
Theorem C6_header_mismatch filename w c rows failure :
  fs w !! Os.path_join (directory_path (self w)) filename = Some (File c) ->
  csv_rows c = (rows, failure) ->
  rows <> [] \/ failure = None ->
  header_valid filename (default [] (head rows)) = false ->
  let e := header_error lib filename (default [] (head rows)) in
  let w' := (_validate_and_fix_file lib filename w).2 in
  _validate_and_fix_file lib filename w = (Ok tt, add_errors [e] w)
  /\ line e = 1 /\ field e = "header" /\ file e = filename
  /\ errors (self w') = (errors (self w) ++ [e])%list
  /\ fs w' = fs w
  /\ sourcedid_cache (self w') = sourcedid_cache (self w)
  /\ data_cache (self w') = data_cache (self w)
  /\ removed_records (self w') = removed_records (self w)
  /\ forall fnames,
       files_loop lib (filename :: fnames) w = files_loop lib fnames (add_errors [e] w).
Proof.
  intros Hfs Hc Hrows Hhv e w'.
  assert (Hview : file_view lib filename w = add_errors [e] w).
  { unfold file_view. rewrite Hfs, Hc.
    destruct rows as [|h rows']; [destruct failure as [msg|]|].
    - by destruct Hrows.
    - by rewrite Hhv.
    - by rewrite Hhv. }
  assert (Hcall : _validate_and_fix_file lib filename w = (Ok tt, add_errors [e] w)).
  { by rewrite _validate_and_fix_file_view, Hview. }
  subst w'. rewrite Hcall. repeat split.
  intros fnames. cbn [files_loop].
  rewrite bind_ok with (a := w) (w' := w) by done.
  unfold Os.path_exists. rewrite Hfs. rewrite bool_decide_eq_true_2 by eauto.
  by erewrite bind_ok by apply Hcall.
Qed.

(** C7 (amended).  For every file and every permutation of the fields
    of its header row, the header is valid for the one order exactly
    when it is for the other, and the same header is chosen for the
    clean copy.  When no field name occurs twice in the header and the
    cells of a complete data row are permuted along with the names, the
    record [DictReader] makes of the row is the same, and so is all that
    [_validate_record] does with it. *)
Theorem C7_header_order_is_irrelevant f actual actual' :
  actual ≡ₚ actual' ->
  header_valid f actual = header_valid f actual'
  /\ output_headers f actual = output_headers f actual'
  /\ forall row row',
       NoDup actual ->
       length row = length actual -> length row' = length actual' ->
       zip actual row ≡ₚ zip actual' row' ->
       DictReader_row actual row = DictReader_row actual' row'
       /\ forall ln w,
            _validate_record lib f (DictReader_row actual row) ln w
            = _validate_record lib f (DictReader_row actual' row') ln w.
Proof.
  intros Hp. split; [by apply header_valid_perm|].
  split; [by apply output_headers_perm|].
  intros row row' Hnd Hlen Hlen' Hzip.
  assert (Heq : DictReader_row actual row = DictReader_row actual' row').
  { rewrite !DictReader_row_complete by done. f_equal.
    apply dict_of_items_perm; [|by rewrite Hzip].
    rewrite <- list_fmap_compose.
    rewrite (list_fmap_ext _ fst (zip actual row)) by (by intros ? []).
    by rewrite fst_zip by lia. }
  split; [done|]. intros ln w. by rewrite Heq.
Qed.

(** *** A run *)

(** C4.  In a call of [validate_all] on a validator whose output
    directory is [validated_output] in its input directory, when the
    files [l1] that come before a file in the processing order have been
    processed: for a referenced file [ref] that is not among them or
    that is absent from the directory, the cache holds what it held when
    the call began, since the call does not reset it: no set in the
    first call of a validator, and the set that an earlier call
    published in a later one.  When the cache holds no set for [ref],
    every check of a reference to [ref] is skipped: it returns the value
    of [ok] it was given and appends no error.  When it holds one, the
    reference is looked up in it, whichever call published it. *)
Theorem C4_reference_checked_only_against_published_set w l1 l2 w1 ref :
  output_directory (self w)
  = Os.path_join (directory_path (self w)) "validated_output" ->
  (required_files ++ optional_files)%list = (l1 ++ l2)%list ->
  (reset_state;;; prepare_output_directory;;; _validate_file_existence;;;
   files_loop lib l1) w = (Ok tt, w1) ->
  ref ∈ (required_files ++ optional_files)%list ->
  (ref ∉ l1 \/ fs w !! Os.path_join (directory_path (self w)) ref = None ->
   sourcedid_cache (self w1) !! ref = sourcedid_cache (self w) !! ref)
  /\ (sourcedid_cache (self w) = ∅ ->
      ref ∉ l1 \/ fs w !! Os.path_join (directory_path (self w)) ref = None ->
      forall f record ln k ok, check_ref f record ln ref k ok w1 = (Ok ok, w1))
  /\ (forall f record ln k ok,
        check_ref f record ln ref k ok w1
        = match sourcedid_cache (self w1) !! ref with
          | None => (Ok ok, w1)
          | Some ids =>
              match fields record !! k with
              | None => (Raise (KeyError k), w1)
              | Some v =>
                  if in_set v ids then (Ok ok, w1)
                  else (Ok false,
                        add_errors [mkerr f ln k ("Missing ref " +:+ py_str v)] w1)
              end
          end).
Proof.
  intros Hout Horder Hrun Href.
  destruct (validate_all_prefix _ _ _ _ Hrun) as (w2 & -> & Hself & Hfs).
  assert (Hcheck : forall w3 f record ln k ok,
    check_ref f record ln ref k ok w3
    = match sourcedid_cache (self w3) !! ref with
      | None => (Ok ok, w3)
      | Some ids =>
          match fields record !! k with
          | None => (Raise (KeyError k), w3)
          | Some v =>
              if in_set v ids then (Ok ok, w3)
              else (Ok false, add_errors [mkerr f ln k ("Missing ref " +:+ py_str v)] w3)
          end
      end).
  { intros w3 f record ln k ok. unfold check_ref.
    rewrite bind_ok with (a := w3) (w' := w3) by done.
    destruct (sourcedid_cache (self w3) !! ref) as [ids|]; [|done].
    unfold dict_item. destruct (fields record !! k) as [v|]; [|done].
    rewrite bind_ret. by destruct (in_set v ids). }
  assert (Hsame : ref ∉ l1 \/ fs w !! Os.path_join (directory_path (self w)) ref = None ->
    sourcedid_cache (self (process_files lib l1 w2)) !! ref
    = sourcedid_cache (self w) !! ref).
  { intros Hcase. rewrite process_files_cache_same; [by rewrite Hself|].
    destruct Hcase as [Hcase|Hcase]; [by left|right].
    rewrite Hself, Hfs. cbn [directory_path output_directory].
    destruct (infile_not_output (directory_path (self w)) ref Href) as [Hb Hne].
    destruct (file_names_relative _ Href) as (Hrel & Hne' & _ & Habove).
    rewrite Hout. split.
    - rewrite prepared_fs_other; [done|done|done|].
      rewrite (path_join_relative _ ref) by done. by apply not_above_out.
    - intros g Hg Heq.
      assert (Hg' : g ∈ (required_files ++ optional_files)%list)
        by (rewrite Horder; set_solver).
      destruct (file_names_relative _ Hg') as (Hrelg & Hneg & _).
      by rewrite Heq, beneath_out_outfile in Hb. }
  split; [exact Hsame|]. split; [|apply Hcheck].
  intros Hempty Hcase f record ln k ok.
  by rewrite Hcheck, (Hsame Hcase), Hempty, lookup_empty.
Qed.

(** C1 (amended).  A run on an input directory that is there, whose
    output path [validated_output] is not a regular file and whose report
    path [validation_report.json] is not a directory, returns, and it
    changes no path but the output directory, the paths beneath it and
    the report.  Every run that returns, returns the errors with these
    two paths, the input directory joined with [validated_output] and
    with [validation_report.json], both beneath the input directory; the
    report path is not inside [validated_output]; after the run
    [validated_output] is a directory; what an output directory that was
    there held is gone, and all that lies in it is clean copies written
    by this run, each at the name of a file that is in the input
    directory; the report, with
    the errors returned, is at the report path; and every other path is
    as it was, or is a directory above the output directory that was
    missing and that [os.makedirs] made. *)
Theorem C1_outputs_of_a_run dir files :
  let out := Os.path_join dir "validated_output" in
  let rep := Os.path_join dir "validation_report.json" in
  ((forall c, files !! out <> Some (File c)) ->
   files !! rep <> Some Dir ->
   Os.always_there (Os.dirname out) = true \/ files !! Os.dirname out = Some Dir ->
   exists errs w',
     run lib dir files = (Ok (errs, out, rep), w')
     /\ forall k, Os.beneath out k = false -> k <> out -> k <> rep ->
                  fs w' !! k = files !! k)
  /\ forall errs out' rep' w',
       run lib dir files = (Ok (errs, out', rep'), w') ->
       out' = out /\ rep' = rep
       /\ Os.beneath dir out = true
       /\ Os.beneath dir rep = true
       /\ Os.beneath out rep = false
       /\ fs w' !! out = Some Dir
       /\ (forall k, Os.beneath out k = true -> fs w' !! k <> None ->
             (exists g written,
                g ∈ (required_files ++ optional_files)%list
                /\ files !! Os.path_join dir g <> None
                /\ k = Os.path_join out g
                /\ fs w' !! k = Some (File (Csv written None)))
             \/ (files !! out = None /\ fs w' !! k = files !! k))
       /\ (exists r, fs w' !! rep = Some (File (Json r)) /\ report_errors r = errs)
       /\ (forall k, Os.beneath out k = false -> k <> out -> k <> rep ->
             fs w' !! k = files !! k
             \/ (files !! k = None /\ fs w' !! k = Some Dir
                 /\ String.prefix k out = true)).
Proof.
  intros out rep.
  set (w := {| self := __init__ dir; fs := files |}).
  assert (Hb_rep : Os.beneath out rep = false) by apply beneath_out_rep.
  assert (Hb_self : Os.beneath out out = false) by apply beneath_out_self.
  assert (Hor : out <> rep) by apply out_rep_ne.
  assert (Hrel : forall g, g ∈ (required_files ++ optional_files)%list ->
                   Os.beneath out (Os.path_join out g) = true).
  { intros g (Hrel & Hne & _)%file_names_relative. by apply beneath_out_outfile. }
  assert (Hunwritten : forall k, Os.beneath out k = false ->
            fs (processed lib w) !! k = prepared_fs files out !! k).
  { intros k Hk. destruct (processed_fs lib w k) as [->|(g & written & Hg & -> & _)]; [done|].
    change (output_directory (self w)) with out in Hk. by rewrite (Hrel g Hg) in Hk. }
  assert (Hrep_above : String.prefix rep out = false).
  { unfold rep. rewrite rep_of_eq. by apply not_above_out. }
  split.
  - intros Hout Hrep Hparent.
    assert (Hview : prepare_view files out
                    = (<[out := Dir]>
                         (if Os.path_exists files out
                          then filter (fun kv => negb (Os.beneath out kv.1)) (delete out files)
                          else files), None)).
    { apply prepare_view_parent_there; [done| |done]. unfold out. by rewrite split_out. }
    assert (Hprep : (prepare_view (fs w) (output_directory (self w))).2 = None)
      by (change ((prepare_view files out).2 = None); by rewrite Hview).
    destruct (validate_all_report_written lib w Hprep) as [w' Hw'].
    { change (report_file (self w)) with rep. rewrite Hunwritten by done.
      rewrite prepared_fs_other; done. }
    exists (errors (self (processed lib w))), w'. split; [exact Hw'|].
    apply validate_all_returns in Hw' as (_ & _ & _ & _ & Hfs & _).
    intros k Hk Hko Hkr. rewrite Hfs. change (report_file (self w)) with rep.
    rewrite lookup_insert_ne by done. rewrite Hunwritten by done.
    unfold prepared_fs. rewrite Hview. cbn [fst]. rewrite lookup_insert_ne by done.
    destruct (Os.path_exists files out); [|done].
    destruct (files !! k) as [x|] eqn:Ek.
    + apply map_lookup_filter_Some_2; [by rewrite lookup_delete_ne|].
      simpl. by rewrite Hk.
    + apply map_lookup_filter_None. left. by rewrite lookup_delete_ne.
  - intros errs out' rep' w' Hrun. unfold run in Hrun. fold w in Hrun.
    apply validate_all_returns in Hrun as (Herrs & -> & -> & _ & Hfs & Hprep).
    change (report_file (self w)) with rep in *.
    change (output_directory (self w)) with out in *.
    change (fs w) with files in *.
    split; [done|]. split; [done|].
    split; [by apply beneath_dir|]. split; [by apply beneath_dir|].
    split; [done|]. rewrite Hfs. split.
    { rewrite lookup_insert_ne by congruence.
      rewrite Hunwritten by done. by apply prepared_fs_out. }
    split.
    { intros k Hk Hsome.
      assert (Hkrep : k <> rep) by (intros ->; congruence).
      rewrite lookup_insert_ne in * by done.
      destruct (processed_fs_present lib w k eq_refl)
        as [Heq|(g & written & Hg & Hex & -> & Hw)].
      - right. change (fs w) with files in Heq.
        change (output_directory (self w)) with out in Heq.
        rewrite Heq in *. unfold out in *.
        rewrite prepared_fs_beneath in * by done.
        unfold Os.path_exists in *. case_bool_decide as Ex; [done|].
        split; [|done]. by apply eq_None_not_Some.
      - left. by exists g, written. }
    split.
    { exists (report_of (processed lib w)). by rewrite lookup_insert_eq. }
    intros k Hk Hko Hkr. rewrite lookup_insert_ne by done.
    rewrite Hunwritten by done. by apply prepared_fs_frame.
Qed.

End Claims.

(** * The claims on concrete inputs *)

(** ** Examples of the amended and of the confirmed claims *)

(** C1 at [ex_dir] and [ex_tree]: the run returns, the stale file of an
    earlier run is gone, and the report is beside the output directory. *)
Lemma C1_witness :
  exists errs w' r,
    run example_lib ex_dir ex_tree
    = (Ok (errs, "data/validated_output", "data/validation_report.json"), w')
    /\ fs w' !! "data/validated_output" = Some Dir
    /\ fs w' !! "data/validated_output/stale.csv" = None
    /\ fs w' !! "data/validation_report.json" = Some (File (Json r))
    /\ report_errors r = errs
    /\ fs w' !! "data/orgs.csv" = ex_tree !! "data/orgs.csv".
Proof.
  destruct (C1_outputs_of_a_run example_lib ex_dir ex_tree) as [Hreturns Hleaves].
  destruct Hreturns as (errs & w' & Hrun & Hother).
  - intros c. vm_compute. discriminate.
  - vm_compute. discriminate.
  - right. vm_compute. reflexivity.
  - destruct (Hleaves errs _ _ w' Hrun)
      as (_ & _ & _ & _ & _ & Hout & Hclean & (r & Hrep & Herrs) & _).
    exists errs, w', r. split; [exact Hrun|]. split; [exact Hout|].
    split; [|split; [exact Hrep|split; [exact Herrs|]]].
    + destruct (fs w' !! "data/validated_output/stale.csv") eqn:E; [|reflexivity].
      destruct (Hclean "data/validated_output/stale.csv")
        as [(g & written & Hg & _ & Hk & _)|[Hnone _]].
      * reflexivity.
      * rewrite E. discriminate.
      * exfalso. revert Hg Hk. unfold required_files, optional_files. simpl.
        rewrite !elem_of_cons, elem_of_nil.
        intros [->|[->|[->|[->|[->|[->|[->|[]]]]]]]]; vm_compute; discriminate.
      * exfalso. revert Hnone. vm_compute. discriminate.
    + apply Hother; [reflexivity| |]; vm_compute; discriminate.
Defined.

(** C2 at a session whose startDate is written with slashes. *)
Lemma C2_witness :
  exists ok es,
    _validate_data_types example_lib "academicSessions.csv" ex_session 2 (fresh ∅)
    = (Ok ok, add_errors es (fresh ∅))
    /\ filter (fun e => field e = "startDate") es
       = [mkerr "academicSessions.csv" 2 "startDate" "Invalid date 2023/04/01"].
Proof.
  destruct (C2_invalid_date_errors example_lib "academicSessions.csv" ex_session 2
              (fresh ∅) "startDate" "2023/04/01") as (ok & es & H1 & H2 & _).
  - simpl. auto.
  - vm_compute. reflexivity.
  - discriminate.
  - exists ok, es. split; [exact H1|exact H2].
Defined.

(** C4 at a directory without orgs.csv, when the three required files
    have had their turn in the first call of a validator. *)
Lemma C4_witness :
  let w1 := ((reset_state;;; prepare_output_directory;;; _validate_file_existence;;;
              files_loop example_lib required_files) (fresh c3_files)).2 in
  sourcedid_cache (self w1) !! "orgs.csv" = None
  /\ forall f record ln k ok, check_ref f record ln "orgs.csv" k ok w1 = (Ok ok, w1).
Proof.
  destruct (C4_reference_checked_only_against_published_set example_lib (fresh c3_files)
              required_files optional_files
              ((reset_state;;; prepare_output_directory;;; _validate_file_existence;;;
                files_loop example_lib required_files) (fresh c3_files)).2 "orgs.csv")
    as (H1 & H2 & _).
  - reflexivity.
  - reflexivity.
  - vm_compute. reflexivity.
  - apply list_elem_of_here.
  - assert (H : fs (fresh c3_files) !! Os.path_join (directory_path (self (fresh c3_files)))
                                         "orgs.csv" = None) by (vm_compute; reflexivity).
    split; [rewrite H1; [reflexivity|right; exact H]|apply H2; [reflexivity|right; exact H]].
Defined.

(** C5 at the orgs.csv of [ex_files], whose accepted identifiers are
    [o1] alone. *)
Lemma C5_witness :
  exists c cleaned,
    fs (fresh ex_files) !! "data/orgs.csv" = Some (File c)
    /\ data_cache (self (_validate_and_fix_file example_lib "orgs.csv" (fresh ex_files)).2)
         !! "orgs.csv" = Some cleaned
    /\ cleaned `sublist_of` data_rows (csv_rows c).1
    /\ (forall k, k ∈ ({["o1"]} : gset string)
                  <-> exists row, row ∈ cleaned /\ row_sid row = k)
    /\ NoDup (row_sid <$> cleaned).
Proof.
  destruct (C5_accepted_identifiers_passed_every_check example_lib "orgs.csv"
              (fresh ex_files) {["o1"]})
    as (c & cleaned & H1 & H2 & H3 & H4 & _ & H6).
  - vm_compute. reflexivity.
  - vm_compute. reflexivity.
  - exists c, cleaned. repeat split; try assumption; try apply H4.
    apply H6. vm_compute. reflexivity.
Defined.

(** C6 at the users.csv of the header test. *)
Lemma C6_witness :
  _validate_and_fix_file example_lib "users.csv" (fresh c6_files)
  = (Ok tt,
     add_errors [header_error example_lib "users.csv"
                   ["invalid_header1"; "invalid_header2"]] (fresh c6_files)).
Proof.
  destruct (C6_header_mismatch example_lib "users.csv" (fresh c6_files)
              (Csv [["invalid_header1"; "invalid_header2"]; ["value1"; "value2"]] None)
              [["invalid_header1"; "invalid_header2"]; ["value1"; "value2"]] None)
    as [H _].
  - vm_compute. reflexivity.
  - reflexivity.
  - left. discriminate.
  - vm_compute. reflexivity.
  - exact H.
Defined.

(** C7 at orgs.csv with its first two columns exchanged. *)
Lemma C7_witness :
  header_valid "orgs.csv" ["name"; "sourcedId"; "type"; "parentSourcedId"] = true
  /\ DictReader_row orgs_header ["o1"; "School"; "school"; ""]
     = DictReader_row ["name"; "sourcedId"; "type"; "parentSourcedId"]
         ["School"; "o1"; "school"; ""].
Proof.
  destruct (C7_header_order_is_irrelevant example_lib "orgs.csv" orgs_header
              ["name"; "sourcedId"; "type"; "parentSourcedId"]) as (H1 & _ & H3).
  - apply perm_swap.
  - split.
    + rewrite <- H1. vm_compute. reflexivity.
    + apply (H3 ["o1"; "School"; "school"; ""] ["School"; "o1"; "school"; ""]).
      * apply (bool_decide_unpack _). vm_compute. exact I.
      * reflexivity.
      * reflexivity.
      * apply perm_swap.
Defined.

(** C9 at a short row of roles.csv: the fields that the row lacks are
    keys all the same. *)
Lemma C9_witness :
  exists ok w',
    _validate_cross_reference "roles.csv"
      (DictReader_row roles_header ["u1"; "o1"; "teacher"]) 2 (fresh ∅) = (Ok ok, w').
Proof.
  apply (C9_cross_reference_never_raises "roles.csv" roles_header).
  vm_compute. reflexivity.
Defined.

(** ** Inputs on which the claims fail as they are stated *)

(** C1 as stated fails: the report of a run is written beside the output
    directory, not inside it. *)
Lemma C1_counterexample :
  exists errs w',
    run example_lib ex_dir ex_files
    = (Ok (errs, "data/validated_output", "data/validation_report.json"), w')
    /\ Os.beneath "data/validated_output" "data/validation_report.json" = false
    /\ fs w' !! "data/validation_report.json" <> None.
Proof.
  eexists _, _. split; [vm_compute; reflexivity|].
  split; vm_compute; [reflexivity|discriminate].
Defined.

(** C2 as stated fails: a date with a month of one digit is not of the
    pattern YYYY-MM-DD, and it is accepted. *)
Lemma C2_counterexample :
  dict_get ex_session "endDate" = Some "2024-3-31"
  /\ spec_date_ok "2024-3-31" = false
  /\ _is_valid_date "2024-3-31" = true
  /\ filter (fun e => field e = "endDate")
       (errors (self (_validate_data_types example_lib "academicSessions.csv"
                        ex_session 2 (fresh ∅)).2)) = [].
Proof. repeat split; vm_compute; reflexivity. Defined.

(** C3 as stated fails: when the first of two rows with the same
    sourcedId is rejected, no duplicate is reported, and the second row is
    the one kept. *)
Lemma C3_counterexample :
  let w' := (run example_lib ex_dir c3_files).2 in
  List.filter is_DuplicateSourcedId (errors (self w')) = []
  /\ errors (self w')
     = [mkerr "orgs.csv" 0 "" "Required file orgs.csv not found";
        mkerr "roles.csv" 0 "" "Required file roles.csv not found";
        mkerr "users.csv" 2 "username" "Required field username missing"]
  /\ data_cache (self w') !! "users.csv" = Some [ex_bob]
  /\ sourcedid_cache (self w') !! "users.csv" = Some {["u1"]}.
Proof. repeat split; vm_compute; reflexivity. Defined.

(** C7 as stated fails: with a field name that occurs twice in the
    header, exchanging the two columns changes the record, and with it the
    result of its validation. *)
Lemma C7_counterexample :
  c7_header ≡ₚ c7_header
  /\ zip c7_header c7_row ≡ₚ zip c7_header c7_row_exchanged
  /\ header_valid "orgs.csv" c7_header = true
  /\ (_validate_record example_lib "orgs.csv"
        (DictReader_row c7_header c7_row) 2 (fresh ∅)).1 = Ok true
  /\ (_validate_record example_lib "orgs.csv"
        (DictReader_row c7_header c7_row_exchanged) 2 (fresh ∅)).1 = Ok false.
Proof.
  split; [reflexivity|]. split.
  - unfold c7_header, c7_row, c7_row_exchanged. simpl. apply perm_skip.
    apply (Permutation_cons_app
             [("name", "School"); ("type", "school"); ("parentSourcedId", "")] []).
    simpl. symmetry.
    apply (Permutation_cons_append [("type", "school"); ("parentSourcedId", "")]).
  - repeat split; vm_compute; reflexivity.
Defined.

(** C8 as stated fails: the error of a required file that is missing
    carries line 0. *)
Lemma C8_counterexample :
  errors (self (run example_lib ex_dir ∅).2)
  = [mkerr "orgs.csv" 0 "" "Required file orgs.csv not found";
     mkerr "users.csv" 0 "" "Required file users.csv not found";
     mkerr "roles.csv" 0 "" "Required file roles.csv not found"]
  /\ ~ Forall (fun e => 1 <= line e) (errors (self (run example_lib ex_dir ∅).2)).
Proof.
  assert (H : errors (self (run example_lib ex_dir ∅).2)
              = [mkerr "orgs.csv" 0 "" "Required file orgs.csv not found";
                 mkerr "users.csv" 0 "" "Required file users.csv not found";
                 mkerr "roles.csv" 0 "" "Required file roles.csv not found"])
    by (vm_compute; reflexivity).
  split; [exact H|]. rewrite H. intros HF. apply Forall_inv in HF. simpl in HF. lia.
Defined.

(** C4 fails on the second call of a validator: the first call published
    the identifiers of users.csv; in the second call users.csv is absent
    from the directory, it is reported as missing and is not processed,
    and the reference of roles.csv to the user [u9] is looked up all the
    same, in the set of the first call, and reported as missing. *)
Lemma C4_counterexample :
  let first := (validate_all example_lib (fresh ex_first_files)).2 in
  let second := validate_all example_lib {| self := self first; fs := ex_second_files |} in
  sourcedid_cache (self first) !! "users.csv" = Some {["u0"]}
  /\ ex_second_files !! "data/users.csv" = None
  /\ second.1
     = Ok ([mkerr "orgs.csv" 0 "" "Required file orgs.csv not found";
            mkerr "users.csv" 0 "" "Required file users.csv not found";
            mkerr "roles.csv" 2 "userSourcedId" "Missing ref u9"],
           "data/validated_output", "data/validation_report.json")
  /\ (run example_lib ex_dir ex_second_files).1
     = Ok ([mkerr "orgs.csv" 0 "" "Required file orgs.csv not found";
            mkerr "users.csv" 0 "" "Required file users.csv not found"],
           "data/validated_output", "data/validation_report.json").
Proof. repeat split; vm_compute; reflexivity. Defined.

(** ** Dates on examples *)

Example date_iso : _is_valid_date "2023-04-01" = true.
Proof. reflexivity. Qed.

Example date_slashes : _is_valid_date "2023/04/01" = false.
Proof. reflexivity. Qed.

Example date_one_digit : _is_valid_date "2023-4-1" = true.
Proof. reflexivity. Qed.

Example date_leading_space : _is_valid_date "2023-04- 1" = true.
Proof. reflexivity. Qed.

Example date_feb29 :
  _is_valid_date "2023-02-29" = false /\ _is_valid_date "2024-02-29" = true
  /\ _is_valid_date "1900-02-29" = false /\ _is_valid_date "2000-02-29" = true.
Proof. repeat split; reflexivity. Qed.

Example date_refused :
  _is_valid_date "2023-01-311" = false /\ _is_valid_date "2023-01-01 " = false
  /\ _is_valid_date "2023-13-01" = false /\ _is_valid_date "0000-01-01" = false
  /\ _is_valid_date "023-01-01" = false /\ _is_valid_date "2023-01-0" = false.
Proof. repeat split; reflexivity. Qed.

(** * Further properties of the code *)

(** ** The checks of a record *)

Section RecordProperties.
Context (lib : PyLib).

Lemma filter_eq_nil {A} (P : A -> Prop) `{forall x, Decision (P x)} (l : list A) :
  filter P l = [] <-> forall x, x ∈ l -> ~ P x.
Proof.
  split.
  - intros Hnil x Hx HP. by apply (filter_nil_not_elem_of P l x).
  - intros Hall. destruct (filter P l) as [|x k] eqn:E; [done|].
    assert (Hx : x ∈ filter P l) by (rewrite E; apply list_elem_of_here).
    apply list_elem_of_filter in Hx as [HP Hx]. by destruct (Hall x Hx).
Qed.

Lemma format_errors_nil f r ln k valid what :
  format_errors f r ln k valid what = [] <-> format_bad r k valid = false.
Proof. unfold format_errors. by destruct (format_bad r k valid). Qed.

Lemma data_types_errors_nil f r ln :
  data_types_errors lib f r ln = [] <-> data_types_ok lib r = true.
Proof.
  split; [|apply data_types_ok_no_errors].
  unfold data_types_errors, data_types_ok, date_fields. cbn [flat_map forallb].
  intros H.
  repeat (apply app_eq_nil in H as [?%format_errors_nil H]).
  apply app_eq_nil in H as [Hd H].
  repeat (apply app_eq_nil in Hd as [?%format_errors_nil Hd]).
  destruct (boolean_bad r); [done|].
  repeat match goal with H : format_bad _ _ _ = false |- _ => rewrite H; clear H end.
  done.
Qed.

Lemma refs_view_ok c f r ln refs ok b es :
  refs_view c f r ln refs ok = (Ok b, es) -> (b = true <-> ok = true /\ es = []).
Proof.
  revert ok b es. induction refs as [|[ref k] refs IH]; intros ok b es; simpl.
  - intros [= <- <-]. tauto.
  - destruct (c !! ref) as [ids|]; [|apply IH].
    destruct (fields r !! k) as [v|]; [|done].
    destruct (in_set v ids); [apply IH|].
    destruct (refs_view c f r ln refs false) as [o es'] eqn:E. simpl.
    intros [= -> <-]. apply IH in E. split; [|intros [_ [=]]].
    intros ->. destruct E as [E _]. by destruct (E eq_refl).
Qed.

Lemma record_view_ok c f r ln b :
  (record_view lib c f r ln).1 = Ok b ->
  (b = true <-> (record_view lib c f r ln).2 = []).
Proof.
  intros H. split; [intros ->; by apply record_view_pass|].
  revert H. unfold record_view. cbn [fst snd].
  destruct (refs_view c f r ln (references f) true) as [[b'|e] es] eqn:E; [|done].
  cbn [fst snd]. intros [= <-] H.
  apply app_eq_nil in H as [H1 H]. apply app_eq_nil in H as [H2 H3].
  apply fmap_nil_inv in H1. apply data_types_errors_nil in H2.
  rewrite H1, H2. subst es. apply refs_view_ok in E.
  rewrite bool_decide_eq_true_2 by done. simpl. by apply E.
Qed.

(** X1.  [_validate_required_fields] appends one error for each required
    field that is absent, [None] or empty, in the order of the table, and
    returns true exactly when there is none.  The required fields are those
    of the alternate table when the file has one and the record has the key
    [sourcedId]. *)
Theorem required_fields_one_error_per_missing_field f r ln w :
  exists ok es,
    _validate_required_fields f r ln w = (Ok ok, add_errors es w)
    /\ es = (fun fld => mkerr f ln fld ("Required field " +:+ fld +:+ " missing"))
            <$> filter (fun fld => truthy (dict_get r fld) = false) (req_fields f r)
    /\ (ok = true
        <-> forall fld, fld ∈ req_fields f r -> truthy (dict_get r fld) = true).
Proof.
  eexists _, _. split; [apply _validate_required_fields_view|].
  split; [done|].
  rewrite bool_decide_eq_true. unfold missing. rewrite filter_eq_nil.
  split; intros H fld Hfld; specialize (H fld Hfld);
    by destruct (truthy (dict_get r fld)).
Qed.

(** X2.  [_validate_record] returns true exactly when it appends no error: a
    record is refused if and only if at least one error is reported for it.
    All the errors it appends carry the file and the line it was given, and
    it changes nothing but the list of errors. *)
Theorem validate_record_true_iff_no_error f r ln w ok w' :
  _validate_record lib f r ln w = (Ok ok, w') ->
  exists es,
    w' = add_errors es w
    /\ (ok = true <-> es = [])
    /\ Forall (fun e => file e = f /\ line e = ln) es.
Proof.
  rewrite _validate_record_view. unfold lift.
  pose proof (record_view_lines lib (sourcedid_cache (self w)) f r ln) as Hl.
  pose proof (record_view_ok (sourcedid_cache (self w)) f r ln) as Hok.
  destruct (record_view lib (sourcedid_cache (self w)) f r ln) as [o es].
  cbn [fst snd] in *. intros [= -> <-]. exists es. split; [done|].
  split; [by apply Hok|done].
Qed.

(** X3.  [_validate_record] runs its three checks whatever the earlier ones
    found: when each check, run alone, returns, the record check returns the
    conjunction of the three results and appends the errors of the three, in
    the order required fields, formats, cross-references. *)
Theorem validate_record_runs_every_check f r ln w ok1 es1 ok2 es2 ok3 es3 :
  _validate_required_fields f r ln w = (Ok ok1, add_errors es1 w) ->
  _validate_data_types lib f r ln w = (Ok ok2, add_errors es2 w) ->
  _validate_cross_reference f r ln w = (Ok ok3, add_errors es3 w) ->
  _validate_record lib f r ln w
  = (Ok (ok1 && ok2 && ok3), add_errors (es1 ++ es2 ++ es3) w).
Proof.
  rewrite _validate_required_fields_view, _validate_data_types_view,
    _validate_cross_reference_view, _validate_record_view.
  unfold lift, record_view.
  destruct (refs_view (sourcedid_cache (self w)) f r ln (references f) true)
    as [o es]. cbn [fst snd].
  intros [= <- ->%app_inv_head] [= <- ->%app_inv_head]
    [= -> ->%app_inv_head].
  done.
Qed.

Lemma table_get_elem {A} (d : list (string * A)) k v :
  table_get d k = Some v -> (k, v) ∈ d.
Proof.
  induction d as [|[k' v'] d IH]; [done|]. simpl.
  destruct (String.eqb k' k) eqn:E.
  - apply String.eqb_eq in E as ->. intros [= ->]. apply list_elem_of_here.
  - intros H. apply list_elem_of_further, IH, H.
Qed.

Lemma DictReader_row_keys actual row k :
  is_Some (fields (DictReader_row actual row) !! k) <-> k ∈ actual.
Proof.
  split; [|apply DictReader_row_has].
  unfold DictReader_row, dict_of_items.
  assert (Hzip : forall d0 : gmap string (option string),
            is_Some (foldl (fun d kv => <[kv.1 := kv.2]> d) d0
                       (zip actual (Some <$> row)) !! k) ->
            is_Some (d0 !! k) \/ k ∈ actual).
  { intros d0 [H|H]%foldl_insert_is_Some; [by left|right].
    rewrite fst_zip_take in H. by apply (subseteq_take _ _ _ H). }
  destruct (length actual <? length row)%nat; simpl.
  - intros [H|H]%Hzip; [|done]. rewrite lookup_empty in H. by destruct H.
  - intros [[H|H]%Hzip|H]%foldl_insert_None_is_Some; [|done|].
    + rewrite lookup_empty in H. by destruct H.
    + by apply (subseteq_drop _ _ _ H).
Qed.

Lemma set_eq_elem_r a b k : set_eq a b = true -> k ∈ a -> k ∈ b.
Proof.
  unfold set_eq. intros H%bool_decide_eq_true Hk.
  apply (elem_of_list_to_set (C := gset string)).
  rewrite <- H. by apply elem_of_list_to_set.
Qed.

(** The columns of a valid header are those of a table of the source. *)
Lemma header_valid_columns f actual k :
  header_valid f actual = true -> k ∈ actual ->
  exists hs, (f, hs) ∈ (headers ++ sds_v21_headers)%list /\ k ∈ hs.
Proof.
  intros [H|(alt & Halt & H)]%header_valid_cases Hk.
  - pose proof (set_eq_elem_r _ _ _ H Hk) as Hin.
    destruct (table_get headers f) as [hs|] eqn:E; simpl in Hin.
    + exists hs. split; [|done]. apply elem_of_app. left. by apply table_get_elem.
    + by apply elem_of_nil in Hin.
  - exists alt. split; [|by apply (set_eq_elem_r _ _ _ H)].
    apply elem_of_app. right. by apply table_get_elem.
Qed.

Lemma no_header_has_enabledUser :
  Forall (fun fh : string * list string => "enabledUser" ∉ fh.2)
    (headers ++ sds_v21_headers)%list.
Proof.
  repeat constructor; simpl; intros H;
    repeat (apply elem_of_cons in H as [H|H]; [discriminate|]);
    by apply elem_of_nil in H.
Qed.

Lemma format_errors_kind f r ln k valid what :
  Forall (fun e => file e = f /\ line e = ln /\ field e = k
                   /\ truthy (dict_get r k) = true)
    (format_errors f r ln k valid what).
Proof.
  unfold format_errors, format_bad.
  destruct (truthy (dict_get r k)); simpl; [|constructor].
  destruct (negb _); repeat constructor.
Qed.

Lemma format_errors_only_for_filled_cells_aux f r ln w :
  exists ok es,
    _validate_data_types lib f r ln w = (Ok ok, add_errors es w)
    /\ Forall (fun e =>
          (In (field e) ("email" :: "phone" :: date_fields)
           /\ truthy (dict_get r (field e)) = true)
          \/ (field e = "enabledUser" /\ dict_has r "enabledUser" = true)) es.
Proof.
  eexists _, _. split; [apply _validate_data_types_view|].
  unfold data_types_errors, date_fields. cbn [flat_map].
  repeat (apply Forall_app; split);
    try (eapply Forall_impl; [apply format_errors_kind|];
         intros e (? & ? & -> & ?); simpl; tauto).
  - constructor.
  - unfold boolean_bad. destruct (dict_has r "enabledUser"); simpl; [|constructor].
    destruct (negb _); [|constructor]. constructor; [|constructor]. by right.
Qed.

(** X4.  [_validate_data_types] returns true exactly when it appends no
    error.  A format error names one of the six format fields and is
    appended only for a cell that holds text: for a key that is absent, a
    [None] and an empty cell no error names the field.  The check of
    [enabledUser] applies whenever the record has that key, also to an empty
    cell and to a [None]: exactly one error, "Invalid boolean" followed by
    the cell, names [enabledUser] when the key is there and its value is
    neither [true] nor [false], and none otherwise. *)
Theorem format_errors_only_for_filled_cells f r ln w :
  exists ok es,
    _validate_data_types lib f r ln w = (Ok ok, add_errors es w)
    /\ (ok = true <-> es = [])
    /\ Forall (fun e =>
          file e = f /\ line e = ln
          /\ ((In (field e) ("email" :: "phone" :: date_fields)
               /\ truthy (dict_get r (field e)) = true)
              \/ (field e = "enabledUser" /\ dict_has r "enabledUser" = true))) es
    /\ (forall k, In k ("email" :: "phone" :: date_fields) ->
          truthy (dict_get r k) = false ->
          filter (fun e => field e = k) es = [])
    /\ filter (fun e => field e = "enabledUser") es
       = if dict_has r "enabledUser"
            && negb (in_list (dict_get r "enabledUser") ["true"; "false"])
         then [mkerr f ln "enabledUser"
                 ("Invalid boolean " +:+ py_str (dict_get r "enabledUser"))]
         else [].
Proof.
  eexists _, _. split; [apply _validate_data_types_view|].
  split; [by rewrite data_types_errors_nil|].
  assert (HF : Forall (fun e =>
            file e = f /\ line e = ln
            /\ ((In (field e) ("email" :: "phone" :: date_fields)
                 /\ truthy (dict_get r (field e)) = true)
                \/ (field e = "enabledUser" /\ dict_has r "enabledUser" = true)))
            (data_types_errors lib f r ln)).
  { unfold data_types_errors, date_fields. cbn [flat_map].
    repeat (apply Forall_app; split);
      try (eapply Forall_impl; [apply format_errors_kind|];
           intros e (? & ? & -> & ?); simpl; tauto).
    - constructor.
    - unfold boolean_bad. destruct (dict_has r "enabledUser"); simpl; [|constructor].
      destruct (negb _); [|constructor]. constructor; [|constructor].
      repeat split. by right. }
  split; [exact HF|]. split.
  - intros k Hk Hempty. apply filter_eq_nil. intros e He Hfield.
    rewrite Forall_forall in HF.
    destruct (HF e He) as (_ & _ & [[_ Hfilled]|[Hbool _]]).
    + rewrite Hfield in Hfilled. congruence.
    + rewrite Hfield in Hbool. rewrite Hbool in Hk. simpl in Hk.
      repeat (destruct Hk as [Hk|Hk]; [discriminate|]). destruct Hk.
  - unfold data_types_errors, date_fields. cbn [flat_map].
    rewrite !filter_app, !filter_format_errors.
    repeat match goal with
           | |- context [decide (?a = ?b)] =>
               destruct (decide (a = b)) as [?|?]; [try discriminate|try done]
           end.
    rewrite filter_nil. cbn [app]. fold (boolean_bad r).
    destruct (boolean_bad r); [|done].
    by rewrite filter_cons_True, filter_nil.
Qed.

(** X5.  Under a valid header, every format error names a column of the
    header that is one of the six format fields: [enabledUser] is a column
    of no header, so the check of that field never reports, on no row of no
    file. *)
Theorem format_errors_name_header_columns f actual row ln w :
  header_valid f actual = true ->
  exists ok es,
    _validate_data_types lib f (DictReader_row actual row) ln w
    = (Ok ok, add_errors es w)
    /\ Forall (fun e => field e ∈ actual
                        /\ In (field e) ("email" :: "phone" :: date_fields)) es.
Proof.
  intros Hhv.
  destruct (format_errors_only_for_filled_cells_aux f (DictReader_row actual row) ln w)
    as (ok & es & Hrun & HF).
  exists ok, es. split; [done|].
  eapply Forall_impl; [exact HF|]. intros e [[Hin Ht]|[_ Hen]].
  - split; [|done]. apply (DictReader_row_keys actual row).
    unfold dict_get in Ht. destruct (fields _ !! field e); [done|discriminate].
  - exfalso.
    assert (Hk : "enabledUser" ∈ actual).
    { apply (DictReader_row_keys actual row). unfold dict_has in Hen.
      destruct (fields _ !! "enabledUser"); [done|discriminate]. }
    destruct (header_valid_columns _ _ _ Hhv Hk) as (hs & Hf & Hin).
    pose proof no_header_has_enabledUser as HF'.
    rewrite Forall_forall in HF'. by apply (HF' _ Hf).
Qed.

Lemma filter_boolean_error f r ln dt :
  dt <> "enabledUser" ->
  filter (fun e => field e = dt)
    (if boolean_bad r
     then [mkerr f ln "enabledUser"
             ("Invalid boolean " +:+ py_str (dict_get r "enabledUser"))]
     else []) = [].
Proof.
  intros Hne. destruct (boolean_bad r); [|done].
  rewrite filter_cons, filter_nil. simpl.
  destruct (decide ("enabledUser" = dt)) as [<-|]; done.
Qed.

Lemma format_errors_filled f r ln k valid what v :
  dict_get r k = Some v -> v <> "" ->
  format_errors f r ln k valid what
  = if valid v then [] else [mkerr f ln k ("Invalid " +:+ what +:+ " " +:+ v)].
Proof.
  intros Hv Hne. unfold format_errors, format_bad. rewrite Hv. simpl.
  destruct v; [done|]. simpl. by destruct (valid _).
Qed.

(** X6.  An e-mail cell that holds text is accepted exactly when the address
    [parseaddr] finds in it is not empty, holds an [@] and is equal to its
    lower-case form; otherwise [_validate_data_types] appends exactly one
    error naming [email], "Invalid email" followed by the cell, and returns
    false. *)
Theorem invalid_email_errors f r ln w v :
  dict_get r "email" = Some v -> v <> "" ->
  exists ok es,
    _validate_data_types lib f r ln w = (Ok ok, add_errors es w)
    /\ filter (fun e => field e = "email") es
       = (if _is_valid_email lib v then []
          else [mkerr f ln "email" ("Invalid email " +:+ v)])
    /\ (_is_valid_email lib v = false -> ok = false)
    /\ (_is_valid_email lib v = true
        <-> (parseaddr lib v).2 <> ""
            /\ Text.contains_char "@" (parseaddr lib v).2 = true
            /\ lower lib (parseaddr lib v).2 = (parseaddr lib v).2).
Proof.
  intros Hv Hne. eexists _, _. split; [apply _validate_data_types_view|].
  split; [|split].
  - unfold data_types_errors, date_fields. cbn [flat_map].
    rewrite !filter_app, !filter_format_errors, filter_boolean_error by done.
    repeat match goal with
           | |- context [decide (?a = ?b)] =>
               destruct (decide (a = b)) as [?|?]; [try discriminate|try done]
           end.
    rewrite filter_nil, ?app_nil_r. cbn [app].
    by apply format_errors_filled.
  - intros Hbad.
    assert (Hfb : format_bad r "email" (_is_valid_email lib) = true).
    { unfold format_bad. rewrite Hv. simpl. rewrite Hbad. by destruct v. }
    unfold data_types_ok. by rewrite Hfb.
  - unfold _is_valid_email. rewrite !andb_true_iff, String.eqb_eq, negb_true_iff.
    destruct (parseaddr lib v).2; simpl; intuition congruence.
Qed.

(** X7.  A phone cell that holds text is accepted exactly when
    [phonenumbers] parses it and finds the number valid; when parsing raises
    or the number is not valid, [_validate_data_types] appends exactly one
    error naming [phone], "Invalid phone" followed by the cell, and returns
    false. *)
Theorem invalid_phone_errors f r ln w v :
  dict_get r "phone" = Some v -> v <> "" ->
  exists ok es,
    _validate_data_types lib f r ln w = (Ok ok, add_errors es w)
    /\ filter (fun e => field e = "phone") es
       = (if _is_valid_phone lib v then []
          else [mkerr f ln "phone" ("Invalid phone " +:+ v)])
    /\ (_is_valid_phone lib v = false -> ok = false)
    /\ (_is_valid_phone lib v = true <-> phonenumbers_valid lib v = Some true).
Proof.
  intros Hv Hne. eexists _, _. split; [apply _validate_data_types_view|].
  split; [|split].
  - unfold data_types_errors, date_fields. cbn [flat_map].
    rewrite !filter_app, !filter_format_errors, filter_boolean_error by done.
    repeat match goal with
           | |- context [decide (?a = ?b)] =>
               destruct (decide (a = b)) as [?|?]; [try discriminate|try done]
           end.
    rewrite filter_nil, ?app_nil_r. cbn [app].
    by apply format_errors_filled.
  - intros Hbad.
    assert (Hfb : format_bad r "phone" (_is_valid_phone lib) = true).
    { unfold format_bad. rewrite Hv. simpl. rewrite Hbad. by destruct v. }
    unfold data_types_ok. rewrite Hfb. simpl. by rewrite andb_false_r.
  - unfold _is_valid_phone. destruct (phonenumbers_valid lib v) as [[]|]; split; congruence.
Qed.

Lemma refs_view_closed c f r ln refs ok :
  (forall ref k, In (ref, k) refs -> is_Some (fields r !! k)) ->
  refs_view c f r ln refs ok
  = (Ok (ok && bool_decide
           (flat_map (fun rk : string * string =>
              match c !! rk.1 with
              | Some ids =>
                  if in_set (dict_get r rk.2) ids then []
                  else [mkerr f ln rk.2 ("Missing ref " +:+ py_str (dict_get r rk.2))]
              | None => []
              end) refs = [])),
     flat_map (fun rk : string * string =>
       match c !! rk.1 with
       | Some ids =>
           if in_set (dict_get r rk.2) ids then []
           else [mkerr f ln rk.2 ("Missing ref " +:+ py_str (dict_get r rk.2))]
       | None => []
       end) refs).
Proof.
  revert ok. induction refs as [|[ref k] refs IH]; intros ok Hkeys.
  { simpl. by rewrite andb_true_r. }
  assert (Hrest : forall ref' k', In (ref', k') refs -> is_Some (fields r !! k'))
    by (intros ref' k' Hin; apply (Hkeys ref'); by right).
  destruct (Hkeys ref k) as [v Hv]; [by left|].
  assert (Hget : dict_get r k = v) by (unfold dict_get; by rewrite Hv).
  cbn [refs_view flat_map fst snd]. rewrite Hget.
  destruct (c !! ref) as [ids|]; [rewrite Hv|by rewrite IH].
  destruct (in_set v ids); [by rewrite IH|].
  rewrite IH by done. cbn [fst snd app]. by rewrite andb_false_r.
Qed.

(** X8.  For a record that has the keys of its cross-references (as every
    record read under a valid header has), [_validate_cross_reference]
    returns, and appends one "Missing ref" error for each cross-reference
    whose file has published a set of identifiers that does not hold the
    cell, in the order of the source; a cell that is [None] is never in the
    set.  It returns true exactly when it appends no error. *)
Theorem missing_reference_errors f r ln w :
  (forall ref k, In (ref, k) (references f) -> is_Some (fields r !! k)) ->
  exists ok es,
    _validate_cross_reference f r ln w = (Ok ok, add_errors es w)
    /\ es = flat_map (fun rk : string * string =>
              match sourcedid_cache (self w) !! rk.1 with
              | Some ids =>
                  if in_set (dict_get r rk.2) ids then []
                  else [mkerr f ln rk.2 ("Missing ref " +:+ py_str (dict_get r rk.2))]
              | None => []
              end) (references f)
    /\ (ok = true <-> es = []).
Proof.
  intros Hkeys. rewrite _validate_cross_reference_view.
  rewrite (refs_view_closed _ f r ln (references f) true Hkeys).
  eexists _, _. split; [reflexivity|]. split; [reflexivity|].
  cbn [andb]. by rewrite bool_decide_eq_true.
Qed.

End RecordProperties.

(** ** The loop over the rows of a file *)

Section LoopProperties.
Context (lib : PyLib).

Lemma prefix_other_char x y a b :
  x <> y -> String.prefix (String x a) (String y b) = false.
Proof. intros H. simpl. by destruct (ascii_dec x y). Qed.

Lemma not_duplicate_message fl l fld a s :
  a <> "D"%char -> is_DuplicateSourcedId (mkerr fl l fld (String a s)) = false.
Proof.
  intros Ha. unfold is_DuplicateSourcedId. simpl message.
  rewrite prefix_other_char by done. apply andb_false_r.
Qed.

Lemma refs_view_not_duplicate c f r ln refs ok :
  Forall (fun e => is_DuplicateSourcedId e = false) (refs_view c f r ln refs ok).2.
Proof.
  revert ok. induction refs as [|[ref k] refs IH]; intros ok; simpl; [constructor|].
  destruct (c !! ref); [|apply IH].
  destruct (fields r !! k); [|constructor].
  destruct (in_set _ _); [apply IH|]. simpl.
  constructor; [by apply not_duplicate_message|apply IH].
Qed.

(** No error of the record checks is the error of a duplicate. *)
Lemma record_view_not_duplicate c f r ln :
  Forall (fun e => is_DuplicateSourcedId e = false) (record_view lib c f r ln).2.
Proof.
  unfold record_view. cbn [snd].
  apply Forall_app; split; [|apply Forall_app; split].
  - apply Forall_fmap, Forall_forall. intros fld _. by apply not_duplicate_message.
  - unfold data_types_errors, date_fields. cbn [flat_map].
    repeat (apply Forall_app; split);
      try (unfold format_errors; destruct (format_bad _ _ _);
           [constructor; [by apply not_duplicate_message|constructor]|constructor]).
    + constructor.
    + destruct (boolean_bad r);
        [constructor; [by apply not_duplicate_message|constructor]|constructor].
  - apply refs_view_not_duplicate.
Qed.

Lemma loop_view_alone c f rows idx cl seen rm cl' seen' rm' es :
  checks_duplicates f = false ->
  loop_view lib c f rows idx cl seen rm = (Ok (cl', seen', rm'), es) ->
  cl' = (cl ++ filter (fun row => is_Ok_true (record_view lib c f row 0).1 = true) rows)%list
  /\ rm' = (rm ++ filter (fun row => is_Ok_true (record_view lib c f row 0).1 = false) rows)%list
  /\ Forall (fun e => is_DuplicateSourcedId e = false) es.
Proof.
  intros Hdup. revert idx cl seen rm es.
  induction rows as [|row rows IH]; intros idx cl seen rm es; cbn [loop_view].
  - intros [= <- <- <- <-]. by rewrite !filter_nil, !app_nil_r.
  - rewrite Hdup. cbn [andb].
    pose proof (record_view_not_duplicate c f row idx) as Hnd.
    rewrite !filter_cons, (record_view_ln lib c f row 0 idx).
    destruct (record_view lib c f row idx) as [[[|]|e] es1]; cbn [fst snd] in *;
      [| |done].
    + destruct (loop_view lib c f rows (idx + 1) (cl ++ [row]) (seen ∪ {[row_sid row]}) rm)
        as [o es2] eqn:E. cbn [fst snd]. intros [= -> <-].
      destruct (IH _ _ _ _ _ E) as (-> & -> & HF). cbn [is_Ok_true].
      rewrite decide_True by done. rewrite decide_False by done.
      rewrite <- ?app_assoc. split; [done|split; [done|by apply Forall_app]].
    + destruct (loop_view lib c f rows (idx + 1) cl seen (rm ++ [row]))
        as [o es2] eqn:E. cbn [fst snd]. intros [= -> <-].
      destruct (IH _ _ _ _ _ E) as (-> & -> & HF). cbn [is_Ok_true].
      rewrite decide_False by done. rewrite decide_True by done.
      rewrite <- ?app_assoc. split; [done|split; [done|by apply Forall_app]].
Qed.

(** X9.  In roles.csv and enrollments.csv a row is judged alone: when the
    loop returns, the rows kept are exactly the rows that pass
    [_validate_record], in the order of the file and with their repetitions,
    the others are the rows removed, and no error of a duplicate identifier
    is appended. *)
Theorem rows_of_roles_and_enrollments_are_judged_alone
    f rows idx cleaned seen removed w w' :
  In f ["roles.csv"; "enrollments.csv"] ->
  rows_loop lib f rows idx [] ∅ [] w = (Ok (cleaned, seen, removed), w') ->
  cleaned = filter (fun row => is_Ok_true (_validate_record lib f row idx w).1 = true) rows
  /\ removed = filter (fun row => is_Ok_true (_validate_record lib f row idx w).1 = false) rows
  /\ exists es, w' = add_errors es w
               /\ Forall (fun e => is_DuplicateSourcedId e = false) es.
Proof.
  intros Hf. rewrite rows_loop_view. unfold lift.
  destruct (loop_view lib _ f rows idx [] ∅ []) as [o es] eqn:E. cbn [fst snd].
  intros [= -> <-].
  apply loop_view_alone in E as (-> & -> & HF).
  - repeat split; [| |by exists es];
      apply list_filter_iff; intros row;
      by rewrite record_view_of_method, (record_view_ln lib _ f row idx 0).
  - simpl in Hf. by destruct Hf as [<-|[<-|[]]].
Qed.

Lemma lines_ascend_app (es1 es2 : list ValidationError) a :
  Forall (fun e => line e = a) es1 ->
  Forall (fun e => a <= line e) es2 ->
  (forall i j e1 e2, es2 !! i = Some e1 -> es2 !! j = Some e2 -> (i <= j)%nat ->
     line e1 <= line e2) ->
  forall i j e1 e2, (es1 ++ es2)%list !! i = Some e1 -> (es1 ++ es2)%list !! j = Some e2 ->
    (i <= j)%nat -> line e1 <= line e2.
Proof.
  intros H1 H2 H3 i j e1 e2 Hi Hj Hij.
  rewrite Forall_forall in H1. rewrite Forall_forall in H2.
  apply lookup_app_Some in Hi as [Hi|[Hi1 Hi]];
    apply lookup_app_Some in Hj as [Hj|[Hj1 Hj]].
  - apply list_elem_of_lookup_2 in Hi, Hj. rewrite (H1 _ Hi), (H1 _ Hj). lia.
  - apply list_elem_of_lookup_2 in Hi, Hj. rewrite (H1 _ Hi). by apply H2.
  - apply lookup_lt_Some in Hj. lia.
  - apply (H3 _ _ _ _ Hi Hj). lia.
Qed.

Lemma loop_view_ordered c f rows idx cl seen rm :
  Forall (fun e => file e = f /\ idx <= line e < idx + Z.of_nat (length rows))
    (loop_view lib c f rows idx cl seen rm).2
  /\ forall i j e1 e2,
       (loop_view lib c f rows idx cl seen rm).2 !! i = Some e1 ->
       (loop_view lib c f rows idx cl seen rm).2 !! j = Some e2 ->
       (i <= j)%nat -> line e1 <= line e2.
Proof.
  revert idx cl seen rm.
  induction rows as [|row rows IH]; intros idx cl seen rm.
  { simpl. split; [constructor|]. intros i j e1 e2 Hi. by rewrite lookup_nil in Hi. }
  assert (Hstep : forall (es1 es2 : list ValidationError),
    Forall (fun e => file e = f /\ line e = idx) es1 ->
    (Forall (fun e => file e = f /\ idx + 1 <= line e < idx + 1 + Z.of_nat (length rows)) es2
     /\ forall i j e1 e2, es2 !! i = Some e1 -> es2 !! j = Some e2 -> (i <= j)%nat ->
          line e1 <= line e2) ->
    Forall (fun e => file e = f /\ idx <= line e < idx + Z.of_nat (length (row :: rows)))
      (es1 ++ es2)%list
    /\ forall i j e1 e2, (es1 ++ es2)%list !! i = Some e1 ->
         (es1 ++ es2)%list !! j = Some e2 -> (i <= j)%nat -> line e1 <= line e2).
  { intros es1 es2 H1 [H2 H3]. split.
    - apply Forall_app. split.
      + eapply Forall_impl; [exact H1|]. intros e [? ?]. simpl length. split; [done|lia].
      + eapply Forall_impl; [exact H2|]. intros e [? ?]. simpl length. split; [done|lia].
    - apply (lines_ascend_app es1 es2 idx); [| |done].
      + eapply Forall_impl; [exact H1|]. by intros e [? ?].
      + eapply Forall_impl; [exact H2|]. intros e [? ?]. lia. }
  cbn [loop_view].
  destruct (checks_duplicates f && bool_decide (row_sid row ∈ seen)).
  - cbn [snd].
    apply (Hstep [mkerr f idx "sourcedId" ("Duplicate sourcedId: " +:+ row_sid row)]);
      [by repeat constructor|apply IH].
  - pose proof (record_view_lines lib c f row idx) as Hl.
    destruct (record_view lib c f row idx) as [[[|]|e] es1]; cbn [fst snd] in *.
    + apply Hstep; [done|apply IH].
    + apply Hstep; [done|apply IH].
    + rewrite <- (app_nil_r es1). apply Hstep; [done|].
      split; [constructor|]. intros i j e1 e2 Hi. by rewrite lookup_nil in Hi.
Qed.

(** X10.  The errors that the loop over the rows appends are errors of the
    file, each carries the line of a data row, from 2 to the line of the
    last row, and they come in the order of the lines. *)
Theorem row_errors_are_in_line_order f rows w :
  exists o es,
    rows_loop lib f rows 2 [] ∅ [] w = (o, add_errors es w)
    /\ Forall (fun e => file e = f /\ 2 <= line e < 2 + Z.of_nat (length rows)) es
    /\ forall i j e1 e2, es !! i = Some e1 -> es !! j = Some e2 -> (i <= j)%nat ->
         line e1 <= line e2.
Proof.
  rewrite rows_loop_view. unfold lift.
  pose proof (loop_view_ordered (sourcedid_cache (self w)) f rows 2 [] ∅ []) as H.
  destruct (loop_view lib _ f rows 2 [] ∅ []) as [o es]. cbn [fst snd] in *.
  by exists o, es.
Qed.

Lemma loop_view_removed c f rows idx cl seen rm cl' seen' rm' es :
  loop_view lib c f rows idx cl seen rm = (Ok (cl', seen', rm'), es) ->
  exists mask : list bool,
    length mask = length rows
    /\ cl' = (cl ++ select mask rows)%list
    /\ rm' = (rm ++ select (negb <$> mask) rows)%list
    /\ forall i : nat,
         mask !! i = Some false <-> exists e, e ∈ es /\ line e = idx + Z.of_nat i.
Proof.
  revert idx cl seen rm es.
  induction rows as [|row rows IH]; intros idx cl seen rm es; cbn [loop_view].
  { intros [= <- <- <- <-]. exists []. rewrite !app_nil_r. repeat split; try done.
    intros (e & He & _). by apply elem_of_nil in He. }
  assert (Hstep : forall b (es1 es2 : list ValidationError) (mask : list bool),
    Forall (fun e => line e = idx) es1 ->
    (b = false <-> es1 <> []) ->
    Forall (fun e => idx + 1 <= line e) es2 ->
    (forall i : nat, mask !! i = Some false
       <-> exists e, e ∈ es2 /\ line e = idx + 1 + Z.of_nat i) ->
    forall i : nat, (b :: mask) !! i = Some false
       <-> exists e, e ∈ (es1 ++ es2)%list /\ line e = idx + Z.of_nat i).
  { intros b es1 es2 mask H1 Hb H2 Hm i.
    rewrite Forall_forall in H1. rewrite Forall_forall in H2.
    destruct i as [|i]; simpl.
    - rewrite Z.add_0_r. split.
      + intros [= ->]. destruct es1 as [|e es1]; [by destruct Hb as [Hb _]; destruct Hb|].
        exists e. split; [apply elem_of_app; left; apply list_elem_of_here|].
        apply H1, list_elem_of_here.
      + intros (e & [He|He]%elem_of_app & Hl).
        * f_equal. apply Hb. intros ->. by apply elem_of_nil in He.
        * specialize (H2 _ He). lia.
    - rewrite Hm. split; intros (e & He & Hl).
      + exists e. split; [apply elem_of_app; by right|lia].
      + apply elem_of_app in He as [He|He].
        * specialize (H1 _ He). lia.
        * exists e. split; [done|lia]. }
  destruct (checks_duplicates f && bool_decide (row_sid row ∈ seen)).
  - destruct (loop_view lib c f rows (idx + 1) cl seen (rm ++ [row])) as [o es2] eqn:E.
    cbn [fst snd]. intros [= -> <-].
    destruct (IH _ _ _ _ _ E) as (mask & Hlen & -> & -> & Hm).
    exists (false :: mask). cbn [length select fmap list_fmap negb]. rewrite Hlen.
    rewrite <- app_assoc. repeat split; try done.
    + apply (Hstep false [_] es2 mask); try done.
      * by repeat constructor.
      * pose proof (loop_view_lines lib c f rows (idx + 1) cl seen (rm ++ [row])) as Hl.
        rewrite E in Hl. eapply Forall_impl; [exact Hl|]. by intros e [? ?].
    + apply (Hstep false [_] es2 mask); try done.
      * by repeat constructor.
      * pose proof (loop_view_lines lib c f rows (idx + 1) cl seen (rm ++ [row])) as Hl.
        rewrite E in Hl. eapply Forall_impl; [exact Hl|]. by intros e [? ?].
  - pose proof (record_view_lines lib c f row idx) as Hl1.
    pose proof (record_view_ok lib c f row idx) as Hok.
    destruct (record_view lib c f row idx) as [[b|e] es1]; cbn [fst snd] in *; [|done].
    specialize (Hok b eq_refl).
    assert (Hl1' : Forall (fun e => line e = idx) es1)
      by (eapply Forall_impl; [exact Hl1|]; by intros e [? ?]).
    assert (Hb : b = false <-> es1 <> [])
      by (destruct b; [|split; [intros _ H; by apply Hok in H|done]];
          split; [done|]; intros H; by destruct H; apply Hok).
    destruct b.
    + destruct (loop_view lib c f rows (idx + 1) (cl ++ [row]) (seen ∪ {[row_sid row]}) rm)
        as [o es2] eqn:E. cbn [fst snd]. intros [= -> <-].
      destruct (IH _ _ _ _ _ E) as (mask & Hlen & -> & -> & Hm).
      exists (true :: mask). cbn [length select fmap list_fmap negb]. rewrite Hlen.
      rewrite <- app_assoc. repeat split; try done;
        apply (Hstep true es1 es2 mask); try done;
        pose proof (loop_view_lines lib c f rows (idx + 1) (cl ++ [row])
                      (seen ∪ {[row_sid row]}) rm) as Hl;
        rewrite E in Hl; (eapply Forall_impl; [exact Hl|]); by intros e [? ?].
    + destruct (loop_view lib c f rows (idx + 1) cl seen (rm ++ [row]))
        as [o es2] eqn:E. cbn [fst snd]. intros [= -> <-].
      destruct (IH _ _ _ _ _ E) as (mask & Hlen & -> & -> & Hm).
      exists (false :: mask). cbn [length select fmap list_fmap negb]. rewrite Hlen.
      rewrite <- app_assoc. repeat split; try done;
        apply (Hstep false es1 es2 mask); try done;
        pose proof (loop_view_lines lib c f rows (idx + 1) cl seen (rm ++ [row])) as Hl;
        rewrite E in Hl; (eapply Forall_impl; [exact Hl|]); by intros e [? ?].
Qed.

(** X11.  When the loop over the rows returns, a row is removed exactly when
    an error carries its line: every row that is removed has at least one
    error at its line, and no error carries the line of a row that is kept.
    The rows kept and the rows removed are those at the positions where
    [mask] is true and false. *)
Theorem row_removed_iff_error_on_its_line f rows w cleaned seen removed w' :
  rows_loop lib f rows 2 [] ∅ [] w = (Ok (cleaned, seen, removed), w') ->
  exists es (mask : list bool),
    w' = add_errors es w
    /\ length mask = length rows
    /\ cleaned = select mask rows
    /\ removed = select (negb <$> mask) rows
    /\ forall i : nat,
         mask !! i = Some false <-> exists e, e ∈ es /\ line e = 2 + Z.of_nat i.
Proof.
  rewrite rows_loop_view. unfold lift.
  destruct (loop_view lib _ f rows 2 [] ∅ []) as [o es] eqn:E. cbn [fst snd].
  intros [= -> <-].
  destruct (loop_view_removed _ _ _ _ _ _ _ _ _ _ _ E) as (mask & ? & ? & ? & ?).
  by exists es, mask.
Qed.

Lemma record_view_pass_required c f r ln fld :
  (record_view lib c f r ln).1 = Ok true ->
  fld ∈ req_fields f r -> truthy (dict_get r fld) = true.
Proof.
  unfold record_view. cbn [fst].
  destruct (refs_view c f r ln (references f) true).1 as [b|e]; [|done].
  intros [= H]. apply andb_true_iff in H as [H _].
  apply andb_true_iff in H as [H%bool_decide_eq_true _].
  unfold missing in H. rewrite filter_eq_nil in H.
  intros Hfld. specialize (H fld Hfld). by destruct (truthy (dict_get r fld)).
Qed.

(** X12.  In the five files whose [sourcedId] is a required field, the key
    under which a kept row is registered is its [sourcedId], which is not
    empty: the set of accepted identifiers is the set of the [sourcedId]
    cells of the rows kept, and the empty text is never in it. *)
Theorem accepted_identifiers_are_sourcedIds f rows w cleaned seen removed w' :
  In f ["orgs.csv"; "users.csv"; "classes.csv"; "academicSessions.csv"; "courses.csv"] ->
  rows_loop lib f rows 2 [] ∅ [] w = (Ok (cleaned, seen, removed), w') ->
  seen = list_to_set (row_sid <$> cleaned)
  /\ Forall (fun row => dict_get row "sourcedId" = Some (row_sid row)
                        /\ row_sid row <> "") cleaned
  /\ "" ∉ seen.
Proof.
  intros Hf. rewrite rows_loop_view. unfold lift.
  destruct (loop_view lib _ f rows 2 [] ∅ []) as [o es] eqn:E. cbn [fst snd].
  intros [= -> _].
  destruct (loop_view_mask _ _ _ _ _ _ _ _ _ _ _ _ E)
    as (mask & _ & -> & _ & -> & HF).
  rewrite app_nil_l, (left_id_L ∅ (∪)).
  assert (Hrows : Forall (fun row => dict_get row "sourcedId" = Some (row_sid row)
                                     /\ row_sid row <> "") (select mask rows)).
  { eapply Forall_impl; [exact HF|]. intros row Hrow.
    assert (Ht : truthy (dict_get row "sourcedId") = true).
    { apply (record_view_pass_required _ f row 0 _ (Hrow 0)).
      unfold req_fields. simpl in Hf.
      destruct Hf as [<-|[<-|[<-|[<-|[<-|[]]]]]]; simpl;
        rewrite !elem_of_cons; auto. }
    unfold row_sid, py_or. rewrite Ht.
    destruct (dict_get row "sourcedId") as [s|]; [|done].
    split; [done|]. simpl. by destruct s. }
  split; [done|]. split; [done|].
  rewrite elem_of_list_to_set, list_elem_of_fmap. intros (row & Heq & Hrow).
  rewrite Forall_forall in Hrows. by destruct (Hrows _ Hrow) as [_ []].
Qed.

End LoopProperties.

(** ** One file *)

Section FileProperties.
Context (lib : PyLib).

(** X13.  [_validate_and_fix_file] never raises: whatever goes wrong while
    the file is read, checked or written becomes an error of the file, and
    the call returns.  It keeps the errors recorded before and appends
    errors of this file only; it writes nowhere but at the clean copy of
    this file; it publishes no set of identifiers but this file's. *)
Theorem validate_and_fix_file_never_raises f w :
  exists w',
    _validate_and_fix_file lib f w = (Ok tt, w')
    /\ (exists es, errors (self w') = (errors (self w) ++ es)%list
                   /\ Forall (fun e => file e = f) es)
    /\ (forall k, k <> Os.path_join (output_directory (self w)) f ->
                  fs w' !! k = fs w !! k)
    /\ (forall g, g <> f ->
                  sourcedid_cache (self w') !! g = sourcedid_cache (self w) !! g)
    /\ directory_path (self w') = directory_path (self w)
    /\ output_directory (self w') = output_directory (self w)
    /\ report_file (self w') = report_file (self w).
Proof.
  exists (file_view lib f w). split; [apply _validate_and_fix_file_view|].
  destruct (file_view_effect lib f w) as (H1 & H2 & H3 & (es & He & HF) & Hfs & Hc).
  split; [|split; [|split]]; [| | |done].
  - exists es. split; [done|]. eapply Forall_impl; [exact HF|]. by intros e [_ ?].
  - intros k Hk. destruct Hfs as [->|[written ->]]; [done|].
    by rewrite lookup_insert_ne.
  - intros g Hg. destruct Hc as [->|[ids ->]]; [done|].
    by rewrite lookup_insert_ne.
Qed.

(** *** Writing the clean copy *)

Lemma output_headers_set f actual :
  header_valid f actual = true -> set_eq actual (output_headers f actual) = true.
Proof.
  unfold header_valid, output_headers.
  destruct (table_get sds_v21_headers f) as [alt|]; [|done].
  destruct (set_eq actual alt) eqn:E; [done|].
  by destruct (set_eq actual (default [] (table_get headers f))).
Qed.

(** The header that is written is a valid header of the file. *)
Lemma header_valid_output_headers f actual :
  header_valid f (output_headers f actual) = true.
Proof.
  assert (Hrefl : forall a, set_eq a a = true)
    by (intros a; by apply bool_decide_eq_true).
  unfold header_valid, output_headers.
  destruct (table_get sds_v21_headers f) as [alt|]; [|apply Hrefl].
  destruct (set_eq actual alt).
  - rewrite (Hrefl alt). by destruct (set_eq alt _).
  - by rewrite (Hrefl _).
Qed.

Lemma wrong_fields_valid f actual data :
  header_valid f actual = true ->
  wrong_fields (output_headers f actual) (DictReader_row actual data)
  = match rest (DictReader_row actual data) with Some _ => [None] | None => [] end.
Proof.
  intros Hhv. unfold wrong_fields.
  assert (Hnil : filter (fun k => k ∉ output_headers f actual)
                   (map_to_list (fields (DictReader_row actual data))).*1 = []).
  { apply filter_eq_nil. intros k Hk Hnot. apply Hnot.
    apply (set_eq_elem_r actual); [by apply output_headers_set|].
    apply (DictReader_row_keys actual data).
    apply list_elem_of_fmap in Hk as ([k' v] & -> & Hkv).
    apply elem_of_map_to_list in Hkv. simpl. by rewrite Hkv. }
  by rewrite Hnil.
Qed.

Lemma DictReader_row_rest actual data :
  rest (DictReader_row actual data)
  = if (length actual <? length data)%nat then Some (drop (length actual) data) else None.
Proof. unfold DictReader_row. by destruct (_ <? _)%nat. Qed.

(** The cells of a row in the order of the field names. *)
Lemma writerows_all fieldnames rows written :
  Forall (fun row => wrong_fields fieldnames row = []) rows ->
  writerows lib fieldnames rows written
  = ((written ++ ((fun row => (fun k => default "" (dict_get row k)) <$> fieldnames)
                    <$> rows))%list, None).
Proof.
  revert written. induction rows as [|row rows IH]; intros written HF; simpl.
  - by rewrite app_nil_r.
  - apply Forall_cons in HF as [Hrow HF]. unfold _dict_to_list. rewrite Hrow.
    rewrite IH by done. by rewrite <- app_assoc.
Qed.

Lemma writerows_surplus fieldnames rows written :
  Forall (fun row => wrong_fields fieldnames row = []
                     \/ wrong_fields fieldnames row = [None]) rows ->
  Exists (fun row => wrong_fields fieldnames row = [None]) rows ->
  exists written',
    writerows lib fieldnames rows written
    = ((written ++ written')%list,
       Some (ValueError "dict contains fields not in fieldnames: None"))
    /\ (length written' < length rows)%nat.
Proof.
  revert written. induction rows as [|row rows IH]; intros written HF HE.
  { by apply Exists_nil in HE. }
  apply Forall_cons in HF as [Hrow HF]. simpl. unfold _dict_to_list.
  destruct Hrow as [Hrow|Hrow]; rewrite Hrow.
  - apply Exists_cons in HE as [HE|HE]; [congruence|].
    destruct (IH (written ++ [(fun k => default "" (dict_get row k)) <$> fieldnames])%list
                HF HE) as (written' & -> & Hlen).
    exists (((fun k => default "" (dict_get row k)) <$> fieldnames) :: written').
    rewrite <- app_assoc. split; [done|]. simpl. lia.
  - exists []. rewrite app_nil_r. split; [done|]. simpl. lia.
Qed.

Lemma file_view_valid f w c actual rows :
  fs w !! Os.path_join (directory_path (self w)) f = Some (File c) ->
  csv_rows c = (actual :: rows, None) ->
  header_valid f actual = true ->
  file_view lib f w
  = match loop_view lib (sourcedid_cache (self w)) f (data_rows (actual :: rows))
            2 [] ∅ [] with
    | (Ok res, es) => publish_view lib f actual res (add_errors es w)
    | (Raise e, es) => add_errors (es ++ [file_error lib f e]) w
    end.
Proof. intros Hfs Hc Hhv. unfold file_view. rewrite Hfs, Hc. simpl. by rewrite Hhv. Qed.

Lemma data_rows_cons actual rows :
  data_rows (actual :: rows) = DictReader_row actual <$> filter (fun r => r ≠ []) rows.
Proof. reflexivity. Qed.

Lemma loop_view_data_rows_returns c f actual rows :
  header_valid f actual = true ->
  exists cleaned seen removed es,
    loop_view lib c f (data_rows (actual :: rows)) 2 [] ∅ []
    = (Ok (cleaned, seen, removed), es)
    /\ cleaned `sublist_of` data_rows (actual :: rows).
Proof.
  intros Hhv.
  destruct (loop_view_returns lib c f (data_rows (actual :: rows)) 2 [] ∅ [])
    as [[[cl sn] rm] Hres].
  { rewrite data_rows_cons. apply Forall_fmap, Forall_forall. intros row _ ln. simpl.
    by apply record_view_returns. }
  destruct (loop_view lib c f _ 2 [] ∅ []) as [o es] eqn:E. cbn [fst] in Hres.
  subst o. exists cl, sn, rm, es. split; [done|].
  destruct (loop_view_mask _ _ _ _ _ _ _ _ _ _ _ _ E) as (mask & _ & -> & _).
  apply select_sublist.
Qed.

Lemma data_rows_wrong_fields f actual rows row :
  header_valid f actual = true ->
  row ∈ data_rows (actual :: rows) ->
  wrong_fields (output_headers f actual) row
  = match rest row with Some _ => [None] | None => [] end.
Proof.
  intros Hhv Hrow. rewrite data_rows_cons in Hrow.
  apply list_elem_of_fmap in Hrow as (data & -> & _). by apply wrong_fields_valid.
Qed.

(** X14.  A file with a valid header, whose reading does not fail and none
    of whose rows is longer than the header, is written and published: the
    clean copy holds the canonical header, in the order of the table, then
    one row for each row kept, in the order of the file, with the cells in
    the order of that header and an empty cell for a [None]; the rows kept
    and their identifiers go to the two caches, and the errors appended are
    those of the rows. *)
Theorem clean_copy_holds_the_kept_rows f w c actual rows :
  fs w !! Os.path_join (directory_path (self w)) f = Some (File c) ->
  csv_rows c = (actual :: rows, None) ->
  header_valid f actual = true ->
  Forall (fun r => (length r <= length actual)%nat) rows ->
  fs w !! Os.path_join (output_directory (self w)) f <> Some Dir ->
  exists cleaned seen removed es,
    rows_loop lib f (data_rows (actual :: rows)) 2 [] ∅ [] w
    = (Ok (cleaned, seen, removed), add_errors es w)
    /\ cleaned `sublist_of` data_rows (actual :: rows)
    /\ errors (self (_validate_and_fix_file lib f w).2) = (errors (self w) ++ es)%list
    /\ fs (_validate_and_fix_file lib f w).2
       = <[Os.path_join (output_directory (self w)) f
           := File (Csv (output_headers f actual
                         :: ((fun row => (fun k => default "" (dict_get row k))
                                           <$> output_headers f actual) <$> cleaned))
                        None)]> (fs w)
    /\ data_cache (self (_validate_and_fix_file lib f w).2)
       = <[f := cleaned]> (data_cache (self w))
    /\ sourcedid_cache (self (_validate_and_fix_file lib f w).2)
       = <[f := seen]> (sourcedid_cache (self w)).
Proof.
  intros Hfs Hc Hhv Hlen Hout.
  destruct (loop_view_data_rows_returns (sourcedid_cache (self w)) f actual rows Hhv)
    as (cleaned & seen & removed & es & E & Hsub).
  exists cleaned, seen, removed, es.
  split; [by rewrite rows_loop_view, E|]. split; [done|].
  rewrite _validate_and_fix_file_view. cbn [snd].
  rewrite (file_view_valid f w c actual rows Hfs Hc Hhv), E.
  assert (Hw : writerows lib (output_headers f actual) cleaned [output_headers f actual]
               = (output_headers f actual
                  :: ((fun row => (fun k => default "" (dict_get row k))
                                    <$> output_headers f actual) <$> cleaned), None)).
  { rewrite writerows_all; [done|].
    apply Forall_forall. intros row Hrow.
    assert (Hin : row ∈ data_rows (actual :: rows))
      by (by apply (sublist_subseteq _ _ Hsub)).
    rewrite (data_rows_wrong_fields f actual rows row Hhv Hin).
    rewrite data_rows_cons in Hin.
    apply list_elem_of_fmap in Hin as (data & -> & Hdata).
    apply list_elem_of_filter in Hdata as [_ Hdata].
    rewrite Forall_forall in Hlen. specialize (Hlen _ Hdata).
    rewrite DictReader_row_rest.
    by destruct (Nat.ltb_spec (length actual) (length data)); [lia|]. }
  unfold publish_view.
  destruct (bool_decide (removed = [])); cbn [negb];
    cbn [add_errors set_errors set_removed_records self fs output_directory];
    (destruct (fs w !! Os.path_join (output_directory (self w)) f) as [[|c']|] eqn:Eo;
     [done| |]); rewrite Hw; done.
Qed.

(** X15.  A row that is longer than the header keeps its surplus cells under
    the key [None], which no check looks at; when such a row is kept,
    [DictWriter] refuses it.  Then the file is not published: both caches
    stay as they were, the error of the refusal is appended at line 0 after
    the errors of the rows, and the clean copy holds the header and the rows
    written before the refusal only. *)
Theorem surplus_cells_make_the_write_fail f w c actual rows cleaned seen removed w1 :
  fs w !! Os.path_join (directory_path (self w)) f = Some (File c) ->
  csv_rows c = (actual :: rows, None) ->
  header_valid f actual = true ->
  fs w !! Os.path_join (output_directory (self w)) f <> Some Dir ->
  rows_loop lib f (data_rows (actual :: rows)) 2 [] ∅ [] w
  = (Ok (cleaned, seen, removed), w1) ->
  (exists row, row ∈ cleaned /\ rest row <> None) ->
  sourcedid_cache (self (_validate_and_fix_file lib f w).2) = sourcedid_cache (self w)
  /\ data_cache (self (_validate_and_fix_file lib f w).2) = data_cache (self w)
  /\ errors (self (_validate_and_fix_file lib f w).2)
     = (errors (self w1)
        ++ [mkerr f 0 "" "dict contains fields not in fieldnames: None"])%list
  /\ exists written,
       fs (_validate_and_fix_file lib f w).2
       = <[Os.path_join (output_directory (self w)) f
           := File (Csv (output_headers f actual :: written) None)]> (fs w)
       /\ (length written < length cleaned)%nat.
Proof.
  intros Hfs Hc Hhv Hout Hloop (bad & Hbad & Hrest).
  rewrite rows_loop_view in Hloop. unfold lift in Hloop.
  destruct (loop_view lib _ f (data_rows (actual :: rows)) 2 [] ∅ []) as [o es] eqn:E.
  cbn [fst snd] in Hloop. injection Hloop as -> <-.
  destruct (loop_view_mask _ _ _ _ _ _ _ _ _ _ _ _ E) as (mask & _ & Hcl & _).
  rewrite app_nil_l in Hcl.
  assert (Hsub : forall row, row ∈ cleaned -> row ∈ data_rows (actual :: rows)).
  { intros row Hrow. subst cleaned.
    by apply (sublist_subseteq _ _ (select_sublist mask _)). }
  destruct (writerows_surplus (output_headers f actual) cleaned
              [output_headers f actual]) as (written & Hw & Hlen).
  { apply Forall_forall. intros row Hrow.
    rewrite (data_rows_wrong_fields f actual rows row Hhv (Hsub _ Hrow)).
    destruct (rest row); auto. }
  { apply Exists_exists. exists bad. split; [done|].
    rewrite (data_rows_wrong_fields f actual rows bad Hhv (Hsub _ Hbad)).
    by destruct (rest bad). }
  rewrite _validate_and_fix_file_view. cbn [snd].
  rewrite (file_view_valid f w c actual rows Hfs Hc Hhv), E.
  unfold publish_view.
  destruct (bool_decide (removed = [])); cbn [negb];
    cbn [add_errors set_errors set_removed_records self fs output_directory];
    (destruct (fs w !! Os.path_join (output_directory (self w)) f) as [[|c']|] eqn:Eo;
     [done| |]); rewrite Hw; simpl; (repeat split; [by exists written]).
Qed.

(** *** Blank rows *)

(** The validator that the last steps of a file leave depends on the
    files only through the one test whether the output path is a
    directory. *)
Lemma publish_view_self f actual res w w' :
  self w = self w' ->
  (fs w !! Os.path_join (output_directory (self w)) f = Some Dir
   <-> fs w' !! Os.path_join (output_directory (self w)) f = Some Dir) ->
  self (publish_view lib f actual res w) = self (publish_view lib f actual res w').
Proof.
  destruct res as [[cleaned seen] removed]. intros Hself Hdir. unfold publish_view.
  set (w1 := if negb (bool_decide (removed = [])) then _ else w).
  set (w1' := if negb (bool_decide (removed = [])) then _ else w').
  assert (H1 : self w1 = self w1')
    by (subst w1 w1'; destruct (negb _); [|done];
        unfold set_removed_records; cbn [self]; by rewrite Hself).
  assert (H2 : fs w1 = fs w) by (subst w1; by destruct (negb _)).
  assert (H2' : fs w1' = fs w') by (subst w1'; by destruct (negb _)).
  assert (H3 : output_directory (self w1) = output_directory (self w))
    by (subst w1; by destruct (negb _)).
  clearbody w1 w1'. cbv zeta. rewrite <- H1, H2, H2', H3.
  destruct (writerows lib _ cleaned _) as [written [e|]];
    destruct (fs w !! _) as [[|c1]|] eqn:E1;
    destruct (fs w' !! _) as [[|c2]|] eqn:E2;
    try (destruct Hdir as [Hd1 Hd2]; (by discriminate (Hd1 eq_refl))
                                      || (by discriminate (Hd2 eq_refl)));
    unfold add_errors, set_errors, set_sourcedid_cache, set_data_cache, set_fs;
    cbn [self fs]; by rewrite <- ?H1.
Qed.

(** X16.  Blank rows do not count: [DictReader] skips them before the rows
    are numbered.  For two input files that differ only by blank data rows,
    [_validate_and_fix_file] leaves the same validator: the same errors with
    the same lines, the same log of removed rows and the same caches.  So
    the line of an error is 2 plus the position of the row among the rows
    that are not blank. *)
Theorem blank_rows_do_not_count f w h rows :
  let with_rows rs :=
    set_fs (<[Os.path_join (directory_path (self w)) f := File (Csv (h :: rs) None)]>
              (fs w)) w in
  self (_validate_and_fix_file lib f (with_rows rows)).2
  = self (_validate_and_fix_file lib f (with_rows (filter (fun r => r ≠ []) rows))).2.
Proof.
  intros with_rows. rewrite !_validate_and_fix_file_view. cbn [snd].
  assert (Hrows : forall rs,
            data_rows (h :: filter (fun r => r ≠ []) rs) = data_rows (h :: rs)).
  { intros rs. rewrite !data_rows_cons. f_equal.
    rewrite list_filter_filter. apply list_filter_iff. tauto. }
  unfold file_view, with_rows. cbn [set_fs self fs]. rewrite !lookup_insert_eq.
  cbn [csv_rows head default]. change (id h) with h. rewrite Hrows.
  destruct (header_valid f h); cbn [negb]; [|done].
  destruct (loop_view lib _ f (data_rows (h :: rows)) 2 [] ∅ []) as [[res|e] es]; [|done].
  apply publish_view_self; [done|].
  cbn [add_errors set_errors set_fs self fs output_directory].
  destruct (decide (Os.path_join (output_directory (self w)) f
                    = Os.path_join (directory_path (self w)) f)) as [->|Hne].
  - rewrite !lookup_insert_eq. split; discriminate.
  - by rewrite !lookup_insert_ne.
Qed.

(** *** Reading the clean copy back *)

Lemma zip_fmap_self {A B} (h : A -> B) (l : list A) :
  zip l (h <$> l) = (fun x => (x, h x)) <$> l.
Proof. induction l as [|x l IH]; [done|]. csimpl. by rewrite IH. Qed.

Lemma foldl_insert_fmap (h : string -> option string) hs
    (d : gmap string (option string)) k :
  foldl (fun d kv => <[kv.1 := kv.2]> d) d ((fun x => (x, h x)) <$> hs) !! k
  = if decide (k ∈ hs) then Some (h k) else d !! k.
Proof.
  revert d. induction hs as [|a hs IH]; intros d; csimpl.
  - done.
  - rewrite IH. destruct (decide (k ∈ hs)) as [Hin|Hnin].
    + rewrite decide_True; [done|by apply list_elem_of_further].
    + destruct (decide (k = a)) as [->|Hne].
      * rewrite lookup_insert_eq. rewrite decide_True; [done|apply list_elem_of_here].
      * rewrite lookup_insert_ne by done. rewrite decide_False; [done|].
        rewrite elem_of_cons. tauto.
Qed.

(** The record that [DictReader] makes of a written row. *)
Lemma read_back_fields hs (g : string -> string) k :
  fields (DictReader_row hs (g <$> hs)) !! k
  = if decide (k ∈ hs) then Some (Some (g k)) else None.
Proof.
  unfold DictReader_row, dict_of_items. rewrite length_fmap, Nat.ltb_irrefl.
  cbn [fields]. rewrite drop_all. cbn [foldl].
  rewrite <- list_fmap_compose, zip_fmap_self.
  rewrite (foldl_insert_fmap (fun x => Some (g x))). by rewrite lookup_empty.
Qed.

(** What a record and the record read back from its written row have
    in common is enough for the checks. *)
Lemma record_view_transfer c f r r' ln :
  (forall k, dict_has r' k = dict_has r k) ->
  (forall k, truthy (dict_get r' k) = truthy (dict_get r k)) ->
  (forall k, truthy (dict_get r k) = true -> dict_get r' k = dict_get r k) ->
  (forall k x, fields r !! k = Some (Some x) -> fields r' !! k = Some (Some x)) ->
  (forall k, in_list (dict_get r' k) ["true"; "false"]
             = in_list (dict_get r k) ["true"; "false"]) ->
  (record_view lib c f r ln).1 = Ok true ->
  (record_view lib c f r' ln).1 = Ok true.
Proof.
  intros Hhas Htr Hget Hfld Hbool. unfold record_view. cbn [fst].
  destruct (refs_view c f r ln (references f) true) as [[b|e] es] eqn:E; [|done].
  cbn [fst]. intros [= H]. apply andb_true_iff in H as [H ->].
  apply andb_true_iff in H as [Hreq%bool_decide_eq_true Hdt].
  assert (Hrefs : forall refs ok es0,
            refs_view c f r ln refs ok = (Ok true, es0) ->
            refs_view c f r' ln refs ok = (Ok true, [])).
  { induction refs as [|[ref k] refs IH]; intros ok es0; simpl.
    - by intros [= -> _].
    - destruct (c !! ref) as [ids|]; [|apply IH].
      destruct (fields r !! k) as [v|] eqn:Ev; [|done].
      destruct (in_set v ids) eqn:Ein.
      + destruct v as [x|]; [|done]. rewrite (Hfld _ _ Ev). simpl in Ein |- *.
        rewrite Ein. apply IH.
      + destruct (refs_view c f r ln refs false) as [o es'] eqn:E'. simpl.
        intros [= -> _]. apply refs_view_ok in E'. destruct E' as [E' _].
        by destruct (E' eq_refl). }
  rewrite (Hrefs _ _ _ E). cbn [fst]. f_equal.
  assert (Hrq : req_fields f r' = req_fields f r)
    by (unfold req_fields; by rewrite Hhas).
  assert (Hm : missing r' (req_fields f r') = []).
  { rewrite Hrq. unfold missing in *. rewrite filter_eq_nil in Hreq |- *.
    intros k Hk. rewrite Htr. by apply Hreq. }
  rewrite Hm.
  assert (Hfb : forall k valid, format_bad r' k valid = format_bad r k valid).
  { intros k valid. unfold format_bad. rewrite Htr.
    destruct (truthy (dict_get r k)) eqn:Et; [|done]. by rewrite (Hget _ Et). }
  assert (Hbb : boolean_bad r' = boolean_bad r)
    by (unfold boolean_bad; by rewrite Hhas, Hbool).
  unfold data_types_ok in *. rewrite !Hfb, Hbb.
  assert (Hdates : forallb (fun dt => negb (format_bad r' dt _is_valid_date)) date_fields
                   = forallb (fun dt => negb (format_bad r dt _is_valid_date)) date_fields).
  { unfold date_fields. cbn [forallb]. by rewrite !Hfb. }
  rewrite Hdates, Hdt. by rewrite bool_decide_eq_true_2.
Qed.

(** X17.  A row that is kept is kept again when it is read back from the
    clean copy: for a row that is no longer than its valid header and passes
    [_validate_record], [DictWriter] makes a row of as many cells as the
    header that is written; that header is a valid header of the file, and
    the record that [DictReader] makes of the written row under it passes
    [_validate_record] in the same state. *)
Theorem kept_row_read_back_is_kept f actual data ln w :
  header_valid f actual = true ->
  (length data <= length actual)%nat ->
  (_validate_record lib f (DictReader_row actual data) ln w).1 = Ok true ->
  exists cells,
    _dict_to_list lib (output_headers f actual) (DictReader_row actual data) = inr cells
    /\ length cells = length (output_headers f actual)
    /\ header_valid f (output_headers f actual) = true
    /\ (_validate_record lib f (DictReader_row (output_headers f actual) cells) ln w).1
       = Ok true.
Proof.
  intros Hhv Hlen Hpass.
  set (row := DictReader_row actual data) in *.
  set (hs := output_headers f actual).
  set (g := fun k => default "" (dict_get row k)).
  exists (g <$> hs).
  assert (Hkeys : forall k, k ∈ hs <-> k ∈ actual).
  { intros k. pose proof (output_headers_set f actual Hhv) as Hset. split.
    - by apply set_eq_elem.
    - by apply set_eq_elem_r. }
  assert (Hrow : forall k, k ∉ hs -> fields row !! k = None).
  { intros k Hk. apply eq_None_not_Some. intros H.
    by apply Hk, Hkeys, (DictReader_row_keys actual data). }
  split; [|split; [by rewrite length_fmap|split; [apply header_valid_output_headers|]]].
  { unfold _dict_to_list. subst row hs. rewrite (wrong_fields_valid f actual data Hhv).
    rewrite DictReader_row_rest.
    by destruct (Nat.ltb_spec (length actual) (length data)); [lia|]. }
  rewrite record_view_of_method in Hpass |- *.
  assert (Hget : forall k, dict_get (DictReader_row hs (g <$> hs)) k
                           = if decide (k ∈ hs) then Some (g k) else None).
  { intros k. unfold dict_get. rewrite read_back_fields. by destruct (decide _). }
  revert Hpass. apply record_view_transfer.
  - intros k. unfold dict_has. rewrite read_back_fields.
    destruct (decide (k ∈ hs)) as [Hin|Hnin].
    + apply Hkeys, (DictReader_row_keys actual data) in Hin as [v Hv].
      fold row in Hv. by rewrite Hv.
    + by rewrite (Hrow _ Hnin).
  - intros k. rewrite Hget. destruct (decide (k ∈ hs)) as [Hin|Hnin].
    + unfold g. by destruct (dict_get row k).
    + unfold dict_get. by rewrite (Hrow _ Hnin).
  - intros k Ht. rewrite Hget. destruct (decide (k ∈ hs)) as [Hin|Hnin].
    + unfold g. by destruct (dict_get row k).
    + unfold dict_get in Ht. by rewrite (Hrow _ Hnin) in Ht.
  - intros k x Hx. rewrite read_back_fields.
    destruct (decide (k ∈ hs)) as [Hin|Hnin].
    + unfold g, dict_get. by rewrite Hx.
    + by rewrite (Hrow _ Hnin) in Hx.
  - intros k. rewrite Hget. destruct (decide (k ∈ hs)) as [Hin|Hnin].
    + unfold g. by destruct (dict_get row k).
    + unfold dict_get. by rewrite (Hrow _ Hnin).
Qed.

End FileProperties.

(** ** A whole run *)

Section RunProperties.
Context (lib : PyLib).

(** X18.  Whatever happens, also when it raises, [validate_all] changes the
    files nowhere but at the output directory, beneath it, and at the
    report, except that it makes the directories above the output directory
    that are missing: every other path that exists holds after the call what
    it held before, so the input files are never modified, and every other
    path that did not exist still does not exist or is such a directory, a
    prefix of the output path. *)
Theorem validate_all_touches_only_its_outputs w k :
  k <> output_directory (self w) ->
  Os.beneath (output_directory (self w)) k = false ->
  k <> report_file (self w) ->
  (fs w !! k <> None -> fs (validate_all lib w).2 !! k = fs w !! k)
  /\ (fs w !! k = None ->
      fs (validate_all lib w).2 !! k = None
      \/ (fs (validate_all lib w).2 !! k = Some Dir
          /\ String.prefix k (output_directory (self w)) = true)).
Proof.
  intros Hout Hb Hrep.
  assert (H : fs (validate_all lib w).2 !! k = fs w !! k
              \/ (fs w !! k = None /\ fs (validate_all lib w).2 !! k = Some Dir
                  /\ String.prefix k (output_directory (self w)) = true)).
  { destruct (validate_all_world lib w) as [->|[->| ->]].
    - rewrite fs_set_fs. by apply prepared_fs_frame.
    - by apply processed_fs_frame.
    - rewrite fs_set_fs. destruct (processed_paths lib w) as (_ & _ & ->).
      rewrite lookup_insert_ne by done. by apply processed_fs_frame. }
  split.
  - intros Hex. destruct H as [?|(? & _)]; congruence.
  - intros Hnone. destruct H as [->|(_ & ? & ?)]; [by left|by right].
Qed.

Lemma bind_same_start {A B} (m : M A) (k : A -> M B) w1 w2 :
  m w1 = m w2 -> bind m k w1 = bind m k w2.
Proof. unfold bind. by intros ->. Qed.

(** X19.  [validate_all] starts from an empty list of errors and an empty
    log of removed rows: what an earlier call left in them has no effect on
    what the call returns, raises or leaves. *)
Theorem validate_all_forgets_earlier_errors w es removed :
  validate_all lib (set_removed_records removed (set_errors es w))
  = validate_all lib w.
Proof. unfold validate_all. by apply bind_same_start. Qed.

(** *** The files the loop goes through *)

(** The step that prepares the output directory leaves the input files
    as they are. *)
Lemma prepared_fs_input w g :
  output_directory (self w)
  = Os.path_join (directory_path (self w)) "validated_output" ->
  g ∈ (required_files ++ optional_files)%list ->
  prepared_fs (fs w) (output_directory (self w))
    !! Os.path_join (directory_path (self w)) g
  = fs w !! Os.path_join (directory_path (self w)) g.
Proof.
  intros Hout Hg.
  destruct (infile_not_output (directory_path (self w)) g Hg) as [Hb Hne].
  destruct (file_names_relative g Hg) as (Hrel & _ & _ & Habove).
  rewrite Hout. apply prepared_fs_other; [assumption|assumption|].
  rewrite (path_join_relative _ g) by done. by apply not_above_out.
Qed.

Lemma processed_cache_absent w f :
  output_directory (self w)
  = Os.path_join (directory_path (self w)) "validated_output" ->
  fs w !! Os.path_join (directory_path (self w)) f = None ->
  sourcedid_cache (self (processed lib w)) !! f = sourcedid_cache (self w) !! f.
Proof.
  intros Hout Hfs.
  rewrite processed_eq. rewrite process_files_cache_same; [reflexivity|].
  destruct (decide (f ∈ (required_files ++ optional_files)%list)) as [Hf|Hf];
    [right|left; exact Hf].
  cbn [add_errors set_errors set_fs set_removed_records self fs directory_path
       output_directory].
  destruct (infile_not_output (directory_path (self w)) f Hf) as [Hb Hne].
  destruct (file_names_relative f Hf) as (Hrel & _ & _ & Habove).
  rewrite Hout. split.
  - rewrite prepared_fs_other; [assumption|assumption|assumption|].
    rewrite (path_join_relative _ f) by done. by apply not_above_out.
  - intros g Hg. apply in_out_ne; assumption.
Qed.

(** X20.  [validate_all] does not reset the cache of accepted identifiers:
    for a file that is not in the input directory, the cache holds after the
    call what it held before, also when the call raises.  So a set that an
    earlier call of the same validator published for a file which has gone
    since is still there, and the cross-references of the later call are
    checked against it. *)
Theorem validate_all_keeps_stale_identifier_sets w f :
  output_directory (self w)
  = Os.path_join (directory_path (self w)) "validated_output" ->
  fs w !! Os.path_join (directory_path (self w)) f = None ->
  sourcedid_cache (self (validate_all lib w).2) !! f = sourcedid_cache (self w) !! f.
Proof.
  intros Hout Hfs.
  pose proof (processed_cache_absent w f Hout Hfs) as Hp.
  destruct (validate_all_world lib w) as [H|[H|H]]; rewrite H; clear H.
  - rewrite self_set_fs. reflexivity.
  - exact Hp.
  - rewrite self_set_fs. exact Hp.
Qed.

Lemma process_files_errors_present fnames w :
  output_directory (self w) = Os.path_join (directory_path (self w)) "validated_output" ->
  (forall g, g ∈ fnames -> g ∈ (required_files ++ optional_files)%list) ->
  exists es,
    errors (self (process_files lib fnames w)) = (errors (self w) ++ es)%list
    /\ Forall (fun e => file e ∈ fnames
                        /\ fs w !! Os.path_join (directory_path (self w)) (file e) <> None)
         es.
Proof.
  revert w. induction fnames as [|g fnames IH]; intros w Hout Hnames.
  { exists []. by rewrite app_nil_r. }
  cbn [process_files].
  destruct (made_by_init_step lib g w Hout) as (Hout1 & Hd1 & Hfs1).
  assert (Hg : g ∈ (required_files ++ optional_files)%list)
    by apply Hnames, list_elem_of_here.
  destruct (IH _ Hout1) as (es2 & He2 & HF2).
  { intros g' Hg'. by apply Hnames, list_elem_of_further. }
  rewrite He2.
  assert (HF2' : Forall (fun e => file e ∈ g :: fnames
                   /\ fs w !! Os.path_join (directory_path (self w)) (file e) <> None) es2).
  { eapply Forall_impl; [exact HF2|]. intros e [Hin Hex].
    split; [by apply list_elem_of_further|].
    rewrite Hd1, Hfs1 in Hex; [done| |done].
    by apply Hnames, list_elem_of_further. }
  destruct (process_step_effect lib g w) as [H|[Hex He]].
  - rewrite H. by exists es2.
  - destruct He as (_ & _ & _ & (es1 & He1 & HF1) & _).
    exists (es1 ++ es2)%list. rewrite He1, app_assoc. split; [done|].
    apply Forall_app. split; [|done].
    eapply Forall_impl; [exact HF1|]. intros e [_ ->].
    split; [apply list_elem_of_here|done].
Qed.

Lemma processed_errors_present w :
  output_directory (self w) = Os.path_join (directory_path (self w)) "validated_output" ->
  exists rest,
    errors (self (processed lib w))
    = ((missing_file_error
          <$> filter (fun g => Os.path_exists (fs w)
                                 (Os.path_join (directory_path (self w)) g) = false)
                required_files) ++ rest)%list
    /\ Forall (fun e => file e ∈ (required_files ++ optional_files)%list
                        /\ fs w !! Os.path_join (directory_path (self w)) (file e) <> None)
         rest.
Proof.
  intros Hout.
  assert (Hin : forall g, g ∈ (required_files ++ optional_files)%list ->
            prepared_fs (fs w) (output_directory (self w))
              !! Os.path_join (directory_path (self w)) g
            = fs w !! Os.path_join (directory_path (self w)) g).
  { intros g Hg. by apply prepared_fs_input. }
  rewrite processed_eq.
  match goal with
  | |- context [process_files lib ?l ?w2] =>
      destruct (process_files_errors_present l w2) as (rest & -> & HF); [done|done|]
  end.
  exists rest. split.
  - cbn [add_errors set_errors set_fs set_removed_records self errors app].
    f_equal. f_equal. unfold missing_files, required_files.
    cbn [set_fs set_removed_records set_errors self fs directory_path].
    rewrite !filter_cons, !filter_nil. unfold Os.path_exists.
    rewrite !Hin by (unfold required_files, optional_files; set_solver).
    done.
  - eapply Forall_impl; [exact HF|]. intros e [He Hex]. split; [done|].
    cbn [add_errors set_errors set_fs set_removed_records self fs directory_path] in Hex.
    by rewrite Hin in Hex.
Qed.

(** X21.  The errors that a run returns begin with one error for each
    required file that is missing, in the order orgs.csv, users.csv,
    roles.csv; every error after them is an error of one of the seven files,
    and of a file that is in the input directory.  So a missing optional
    file is no error. *)
Theorem missing_required_files_come_first dir files errs out rep w' :
  run lib dir files = (Ok (errs, out, rep), w') ->
  exists rest,
    errs = ((missing_file_error
               <$> filter (fun g => Os.path_exists files (Os.path_join dir g) = false)
                     required_files) ++ rest)%list
    /\ Forall (fun e => In (file e) (required_files ++ optional_files)
                        /\ files !! Os.path_join dir (file e) <> None) rest.
Proof.
  unfold run. intros (-> & _)%validate_all_returns.
  destruct (processed_errors_present {| self := __init__ dir; fs := files |})
    as (rest & -> & HF); [done|].
  exists rest. split; [done|].
  eapply Forall_impl; [exact HF|]. intros e [He Hex].
  split; [|done]. by apply list_elem_of_In.
Qed.

(** *** The order of the errors *)

Lemma processed_from w :
  output_directory (self w) = Os.path_join (directory_path (self w)) "validated_output" ->
  exists w2,
    processed lib w = process_files lib (required_files ++ optional_files) w2
    /\ errors (self w2)
       = missing_file_error
           <$> filter (fun g => Os.path_exists (fs w)
                                  (Os.path_join (directory_path (self w)) g) = false)
                 required_files.
Proof.
  intros Hout. eexists. split; [apply processed_eq|].
  assert (Hin : forall g, g ∈ (required_files ++ optional_files)%list ->
            prepared_fs (fs w) (output_directory (self w))
              !! Os.path_join (directory_path (self w)) g
            = fs w !! Os.path_join (directory_path (self w)) g).
  { intros g Hg. by apply prepared_fs_input. }
  cbn [add_errors set_errors set_fs set_removed_records self errors app].
  f_equal. unfold missing_files, required_files.
  cbn [set_fs set_removed_records set_errors self fs directory_path].
  rewrite !filter_cons, !filter_nil. unfold Os.path_exists.
  rewrite !Hin by (unfold required_files, optional_files; set_solver).
  done.
Qed.

Lemma process_files_grouped fnames w :
  exists ess : list (list ValidationError),
    errors (self (process_files lib fnames w)) = (errors (self w) ++ concat ess)%list
    /\ Forall2 (fun g es => Forall (fun e => file e = g) es) fnames ess.
Proof.
  revert w. induction fnames as [|g fnames IH]; intros w.
  { exists []. split; [by rewrite app_nil_r|constructor]. }
  cbn [process_files].
  set (w1 := if Os.path_exists (fs w) (Os.path_join (directory_path (self w)) g)
             then file_view lib g w else w).
  destruct (IH w1) as (ess & He & HF).
  assert (H1 : exists es1, errors (self w1) = (errors (self w) ++ es1)%list
                           /\ Forall (fun e => file e = g) es1).
  { destruct (process_step_effect lib g w) as [H|[_ He']]; fold w1 in H || fold w1 in He'.
    - exists []. by rewrite H, app_nil_r.
    - destruct He' as (_ & _ & _ & (es1 & He1 & HF1) & _). exists es1.
      split; [done|]. eapply Forall_impl; [exact HF1|]. by intros e [_ ?]. }
  destruct H1 as (es1 & He1 & HF1).
  exists (es1 :: ess). rewrite He, He1, <- app_assoc. split; [done|].
  by constructor.
Qed.

(** X22.  The errors that a run returns are in the order of discovery: after
    the errors of the missing required files come the errors of orgs.csv,
    then those of users.csv, roles.csv, classes.csv, enrollments.csv,
    academicSessions.csv and courses.csv, each file's errors together. *)
Theorem errors_are_grouped_by_file dir files errs out rep w' :
  run lib dir files = (Ok (errs, out, rep), w') ->
  exists ess : list (list ValidationError),
    errs = ((missing_file_error
               <$> filter (fun g => Os.path_exists files (Os.path_join dir g) = false)
                     required_files) ++ concat ess)%list
    /\ Forall2 (fun g es => Forall (fun e => file e = g) es)
         ["orgs.csv"; "users.csv"; "roles.csv"; "classes.csv"; "enrollments.csv";
          "academicSessions.csv"; "courses.csv"] ess.
Proof.
  unfold run. intros (-> & _)%validate_all_returns.
  destruct (processed_from {| self := __init__ dir; fs := files |})
    as (w2 & -> & Herr); [done|].
  destruct (process_files_grouped (required_files ++ optional_files) w2)
    as (ess & -> & HF).
  exists ess. rewrite Herr. split; [reflexivity|exact HF].
Qed.

(** *** The report *)

Lemma removedRecords_report_of w : removedRecords (report_of w) = removed_records (self w).
Proof. reflexivity. Qed.

Lemma report_errors_report_of w : report_errors (report_of w) = errors (self w).
Proof. reflexivity. Qed.

Lemma hasErrors_report_of w :
  hasErrors (report_of w) = negb (bool_decide (errors (self w) = [])).
Proof. unfold report_of. simpl. by destruct (errors (self w)). Qed.

Lemma publish_view_removed f actual cleaned seen removed w :
  removed_records (self (publish_view lib f actual (cleaned, seen, removed) w))
  = if bool_decide (removed = []) then removed_records (self w)
    else <[f := removed]> (removed_records (self w)).
Proof.
  unfold publish_view.
  destruct (bool_decide (removed = [])); cbn [negb];
    (destruct (fs _ !! _) as [[|c']|]; [done| |]);
    by destruct (writerows lib _ cleaned _) as [written [e|]].
Qed.

(** Processing a file leaves the log of removed rows as it was, or
    enters rows of this file in it, and then at least one. *)
Lemma file_view_removed f w :
  removed_records (self (file_view lib f w)) = removed_records (self w)
  \/ exists l, l <> []
       /\ removed_records (self (file_view lib f w)) = <[f := l]> (removed_records (self w)).
Proof.
  unfold file_view.
  destruct (fs w !! _) as [[|c]|]; [by left| |by left].
  assert (Hmain : forall rows failure,
    let w' :=
      if negb (header_valid f (default [] (head rows)))
      then add_errors [header_error lib f (default [] (head rows))] w
      else match failure with
           | Some msg => add_errors [file_error lib f (ValueError msg)] w
           | None =>
               match loop_view lib (sourcedid_cache (self w)) f (data_rows rows) 2 [] ∅ [] with
               | (Ok res, es) =>
                   publish_view lib f (default [] (head rows)) res (add_errors es w)
               | (Raise e, es) => add_errors (es ++ [file_error lib f e]) w
               end
           end in
    removed_records (self w') = removed_records (self w)
    \/ exists l, l <> [] /\ removed_records (self w') = <[f := l]> (removed_records (self w))).
  { intros rows failure. cbv zeta.
    destruct (negb _); [by left|].
    destruct failure as [msg|]; [by left|].
    destruct (loop_view lib _ f (data_rows rows) 2 [] ∅ [])
      as [[[[cleaned seen] removed]|e] es]; [|by left].
    rewrite publish_view_removed. case_bool_decide as Hr; [by left|].
    right. by exists removed. }
  destruct (csv_rows c) as [rows failure].
  destruct rows as [|h rows']; [destruct failure as [msg|]|].
  - by left.
  - apply (Hmain [] None).
  - apply (Hmain (h :: rows') failure).
Qed.

Lemma process_files_removed fnames w g l :
  output_directory (self w) = Os.path_join (directory_path (self w)) "validated_output" ->
  (forall g, g ∈ fnames -> g ∈ (required_files ++ optional_files)%list) ->
  removed_records (self (process_files lib fnames w)) !! g = Some l ->
  removed_records (self w) !! g = Some l
  \/ (g ∈ fnames /\ l <> []
      /\ fs w !! Os.path_join (directory_path (self w)) g <> None).
Proof.
  revert w. induction fnames as [|g0 fnames IH]; intros w Hout Hnames; [by left|].
  cbn [process_files].
  destruct (made_by_init_step lib g0 w Hout) as (Hout1 & Hd1 & Hfs1).
  assert (Hg0 : g0 ∈ (required_files ++ optional_files)%list)
    by apply Hnames, list_elem_of_here.
  intros [H|(Hg & Hl & Hex)]%IH; [| |done|].
  - unfold Os.path_exists in H. case_bool_decide as Ex; [|by left].
    destruct (file_view_removed g0 w) as [Hsame|(l0 & Hl0 & Hins)].
    + left. by rewrite <- Hsame.
    + rewrite Hins in H. destruct (decide (g = g0)) as [->|Hne].
      * rewrite lookup_insert_eq in H. injection H as <-. right.
        split; [apply list_elem_of_here|]. split; [done|].
        destruct Ex as [x Hx]. by rewrite Hx.
      * rewrite lookup_insert_ne in H by done. by left.
  - right. split; [by apply list_elem_of_further|]. split; [done|].
    rewrite Hd1, Hfs1 in Hex; [done| |done].
    by apply Hnames, list_elem_of_further.
  - intros g' Hg'. by apply Hnames, list_elem_of_further.
Qed.

(** X23.  The report of a run that returns is at the report path; its
    [hasErrors] is true exactly when the run returns errors; and its
    [removedRecords] has an entry only for a file among the seven that is in
    the input directory and from which at least one row was removed: no
    entry is an empty list. *)
Theorem report_logs_only_rows_removed dir files errs out rep w' :
  run lib dir files = (Ok (errs, out, rep), w') ->
  exists r,
    fs w' !! rep = Some (File (Json r))
    /\ (hasErrors r = true <-> errs <> [])
    /\ forall g l, removedRecords r !! g = Some l ->
         l <> [] /\ In g (required_files ++ optional_files)
         /\ files !! Os.path_join dir g <> None.
Proof.
  unfold run. intros (-> & _ & -> & _ & Hfs & _)%validate_all_returns.
  exists (report_of (processed lib {| self := __init__ dir; fs := files |})).
  split; [by rewrite Hfs, lookup_insert_eq|]. split.
  - rewrite hasErrors_report_of, negb_true_iff, bool_decide_eq_false. done.
  - intros g l. rewrite removedRecords_report_of, processed_eq.
    intros [H|(Hg & Hl & Hex)]%process_files_removed; [done| |done|done].
    split; [done|]. split; [by apply list_elem_of_In|].
    cbn [add_errors set_errors set_fs set_removed_records self fs directory_path] in Hex.
    by rewrite (prepared_fs_input {| self := __init__ dir; fs := files |}) in Hex.
Qed.

(** *** A run without errors *)

Lemma loop_view_quiet c f rows idx cl seen rm cl' seen' rm' :
  loop_view lib c f rows idx cl seen rm = (Ok (cl', seen', rm'), []) -> rm' = rm.
Proof.
  revert idx cl seen rm.
  induction rows as [|row rows IH]; intros idx cl seen rm; cbn [loop_view].
  { by intros [= _ _ <-]. }
  destruct (checks_duplicates f && bool_decide (row_sid row ∈ seen)); [done|].
  pose proof (record_view_ok lib c f row idx) as Hok.
  destruct (record_view lib c f row idx) as [[b|e] es1]; cbn [fst snd] in *; [|done].
  specialize (Hok b eq_refl). destruct b.
  - destruct (loop_view lib c f rows (idx + 1) (cl ++ [row]) (seen ∪ {[row_sid row]}) rm)
      as [o es2] eqn:E. cbn [fst snd].
    intros [= -> [_ ->]%app_eq_nil]. by apply IH in E.
  - destruct (loop_view lib c f rows (idx + 1) cl seen (rm ++ [row]))
      as [o es2] eqn:E. cbn [fst snd].
    intros [= -> [Hnil _]%app_eq_nil]. apply Hok in Hnil. discriminate.
Qed.

Lemma app_eq_self {A} (l k : list A) : (l ++ k)%list = l -> k = [].
Proof. intros H. apply (app_inv_head l). by rewrite app_nil_r. Qed.

(** A file that adds no error has no row removed. *)
Lemma file_view_quiet f w :
  errors (self (file_view lib f w)) = errors (self w) ->
  removed_records (self (file_view lib f w)) = removed_records (self w).
Proof.
  unfold file_view.
  destruct (fs w !! _) as [[|c]|]; [done| |done].
  assert (Hmain : forall rows failure,
    let w' :=
      if negb (header_valid f (default [] (head rows)))
      then add_errors [header_error lib f (default [] (head rows))] w
      else match failure with
           | Some msg => add_errors [file_error lib f (ValueError msg)] w
           | None =>
               match loop_view lib (sourcedid_cache (self w)) f (data_rows rows) 2 [] ∅ [] with
               | (Ok res, es) =>
                   publish_view lib f (default [] (head rows)) res (add_errors es w)
               | (Raise e, es) => add_errors (es ++ [file_error lib f e]) w
               end
           end in
    errors (self w') = errors (self w) ->
    removed_records (self w') = removed_records (self w)).
  { intros rows failure. cbv zeta.
    destruct (negb _); [done|].
    destruct failure as [msg|]; [done|].
    destruct (loop_view lib _ f (data_rows rows) 2 [] ∅ [])
      as [[[[cleaned seen] removed]|e] es] eqn:E; [|done].
    destruct (publish_view_effect lib f (default [] (head rows)) (cleaned, seen, removed)
                (add_errors es w)) as (_ & _ & _ & (es' & -> & _) & _).
    rewrite publish_view_removed.
    cbn [add_errors set_errors self errors removed_records].
    rewrite <- app_assoc. intros [-> _]%app_eq_self%app_eq_nil.
    apply loop_view_quiet in E as ->. by rewrite bool_decide_eq_true_2. }
  destruct (csv_rows c) as [rows failure].
  destruct rows as [|h rows']; [destruct failure as [msg|]|].
  - done.
  - apply (Hmain [] None).
  - apply (Hmain (h :: rows') failure).
Qed.

Lemma process_files_quiet fnames w :
  errors (self (process_files lib fnames w)) = errors (self w) ->
  removed_records (self (process_files lib fnames w)) = removed_records (self w).
Proof.
  revert w. induction fnames as [|g fnames IH]; intros w; [done|].
  cbn [process_files].
  set (w1 := if Os.path_exists (fs w) (Os.path_join (directory_path (self w)) g)
             then file_view lib g w else w).
  destruct (process_files_errors lib fnames w1) as (es2 & He2 & _).
  assert (H1 : exists es1, errors (self w1) = (errors (self w) ++ es1)%list).
  { destruct (process_step_effect lib g w) as [H|[_ He]]; fold w1 in H || fold w1 in He.
    - exists []. by rewrite H, app_nil_r.
    - destruct He as (_ & _ & _ & (es1 & He1 & _) & _). by exists es1. }
  destruct H1 as (es1 & He1). rewrite He2, He1, <- app_assoc.
  intros [-> ->]%app_eq_self%app_eq_nil. rewrite app_nil_r in He1, He2.
  rewrite (IH w1 He2).
  subst w1. destruct (Os.path_exists _ _); [by apply file_view_quiet|done].
Qed.

(** X24.  When a run returns no error, no row was removed from any file: the
    log of removed rows is empty, in the validator and in the report, which
    says that there is no error. *)
Theorem no_error_means_nothing_removed dir files out rep w' :
  run lib dir files = (Ok ([], out, rep), w') ->
  removed_records (self w') = ∅
  /\ exists r, fs w' !! rep = Some (File (Json r))
               /\ hasErrors r = false /\ report_errors r = []
               /\ removedRecords r = ∅.
Proof.
  unfold run. intros (Herrs & _ & -> & Hself & Hfs & _)%validate_all_returns.
  assert (Hrm : removed_records
                  (self (processed lib {| self := __init__ dir; fs := files |})) = ∅).
  { revert Herrs. rewrite processed_eq.
    match goal with
    | |- context [process_files lib ?l ?w2] =>
        destruct (process_files_errors lib l w2) as (es & He & _);
        pose proof (process_files_quiet l w2) as Hq
    end.
    rewrite He in Hq |- *. intros [Hm ->]%eq_sym%app_eq_nil.
    rewrite app_nil_r in Hq. by rewrite Hq. }
  split; [by rewrite Hself|].
  eexists. split; [by rewrite Hfs, lookup_insert_eq|].
  by rewrite hasErrors_report_of, report_errors_report_of, removedRecords_report_of,
    <- Herrs, Hrm.
Qed.

(** *** When a run raises *)

(** X25.  In the file system of the model, where an operation fails only
    through what the paths hold, a run raises when the output path is a
    regular file, which [shutil.rmtree] refuses, and then before it writes
    anything: the files are left as they were; it raises when the path above
    the output directory, the input path, is a regular file, which
    [os.makedirs] refuses; and it raises when the report path is a
    directory.  On an input directory that is there, these are the only
    cases: the run raises if and only if the output path is a regular file
    or the report path is a directory. *)
Theorem run_raises_iff dir files :
  let out := Os.path_join dir "validated_output" in
  let rep := Os.path_join dir "validation_report.json" in
  ((exists c, files !! out = Some (File c)) ->
   exists e w', run lib dir files = (Raise e, w') /\ fs w' = files)
  /\ ((exists c, files !! Os.dirname out = Some (File c)) ->
      Os.always_there (Os.dirname out) = false ->
      exists e w', run lib dir files = (Raise e, w'))
  /\ (files !! rep = Some Dir -> exists e w', run lib dir files = (Raise e, w'))
  /\ (Os.always_there (Os.dirname out) = true \/ files !! Os.dirname out = Some Dir ->
      (exists e w', run lib dir files = (Raise e, w'))
      <-> (exists c, files !! out = Some (File c)) \/ files !! rep = Some Dir).
Proof.
  intros out rep. unfold run. set (w := {| self := __init__ dir; fs := files |}).
  assert (Htail : (Os.split out).2 <> "") by (unfold out; by rewrite split_out).
  assert (Hrep : fs (processed lib w) !! report_file (self w) = files !! rep).
  { apply (processed_fs_other lib w rep).
    - intros H. by apply (out_rep_ne dir).
    - apply beneath_out_rep.
    - unfold rep. rewrite rep_of_eq. by apply not_above_out. }
  assert (Hfile : (exists c, files !! out = Some (File c)) ->
            exists e w', validate_all lib w = (Raise e, w') /\ fs w' = files).
  { intros [c Hc]. rewrite (validate_all_output_is_file lib w c Hc). by eexists _, _. }
  assert (Hdir : files !! rep = Some Dir -> exists e w', validate_all lib w = (Raise e, w')).
  { intros Hr. destruct (prepare_view (fs w) (output_directory (self w))).2 as [e|] eqn:E.
    - rewrite (validate_all_prepare_raises lib w e E). by eexists _, _.
    - destruct (validate_all_report_is_dir lib w E) as [e He]; [by rewrite Hrep|].
      rewrite He. by eexists _, _. }
  split; [exact Hfile|]. split; [|split; [exact Hdir|]].
  - intros [c Hc] Hroot.
    rewrite (validate_all_prepare_raises lib w (OSError "Not a directory")).
    + by eexists _, _.
    + by apply (prepare_view_parent_file files out c).
  - intros Hparent. split.
    + intros (e & w' & Hraise).
      destruct (files !! out) as [[|c]|] eqn:Eo; [|left; by exists c|];
        (destruct (files !! rep) as [[|c']|] eqn:Er; [by right| |]); exfalso;
        (destruct (validate_all_report_written lib w) as [w'' Hw''];
         [change ((prepare_view files out).2 = None);
          rewrite prepare_view_parent_there; [done| |done|done];
          intros c0; by rewrite Eo
         |rewrite Hrep; done
         |rewrite Hw'' in Hraise; discriminate]).
    + intros [Hc|Hr]; [|by apply Hdir].
      destruct (Hfile Hc) as (e & w' & He & _). by exists e, w'.
Qed.

(** *** [main] *)

(** X26.  The exit status of the program.  It is 0 only when the program was
    given one argument, the run returned no error and the report it wrote
    says so; it is 1 when the number of arguments is wrong, in which case no
    file is touched, or when the run returned errors, which the report then
    lists. *)
Theorem main_exit_status argv files code :
  ended (main lib argv files) = SystemExit code ->
  (code = 0
   /\ exists prog dir r,
        argv = [prog; dir]
        /\ files_left (main lib argv files) !! Os.path_join dir "validation_report.json"
           = Some (File (Json r))
        /\ hasErrors r = false /\ report_errors r = []
        /\ stdout (main lib argv files)
           = ["No errors. Report at: " +:+ Os.path_join dir "validation_report.json";
              "Cleaned files in: " +:+ Os.path_join dir "validated_output"])
  \/ (code = 1
      /\ ((length argv <> 2%nat /\ files_left (main lib argv files) = files)
          \/ exists prog dir r,
               argv = [prog; dir]
               /\ files_left (main lib argv files)
                    !! Os.path_join dir "validation_report.json"
                  = Some (File (Json r))
               /\ hasErrors r = true /\ report_errors r <> [])).
Proof.
  unfold main.
  destruct (Nat.eqb_spec (length argv) 2) as [Hlen|Hlen]; cbn [negb].
  2:{ cbn [ended files_left]. intros [= <-]. right. split; [done|]. by left. }
  destruct argv as [|prog [|dir [|x argv]]]; try discriminate. cbn [nth].
  destruct (validate_all lib {| self := __init__ dir; fs := files |})
    as [[[[errs out] rep]|e] w'] eqn:E; [|discriminate].
  apply validate_all_returns in E as (Herrs & Hout & Hrep & _ & Hfs & _).
  cbn [ended files_left stdout]. rewrite Hfs. cbn [__init__ self report_file] in *.
  cbn [output_directory] in Hout. intros [= <-].
  set (p := processed lib _) in *.
  destruct errs as [|e errs].
  - left. split; [done|]. exists prog, dir, (report_of p).
    rewrite lookup_insert_eq.
    rewrite hasErrors_report_of, report_errors_report_of, <- Herrs, Hout, Hrep.
    by repeat split.
  - right. split; [done|]. right. exists prog, dir, (report_of p).
    rewrite lookup_insert_eq.
    rewrite hasErrors_report_of, report_errors_report_of, <- Herrs.
    by repeat split.
Qed.

End RunProperties.

(** ** Dates at the end of February *)

Section DateProperties.
Import Text Strptime.

(** X27.  The 29th of February is a date exactly in the leap years of the
    calendar, from the year 0001 on: for every four digits of a year,
    [_is_valid_date] takes the text of the 29th of February of that year if
    and only if the year is not 0000 and is a leap year. *)
Theorem february_29_only_in_leap_years a b c d :
  is_digit a = true -> is_digit b = true -> is_digit c = true -> is_digit d = true ->
  let y := 1000 * digit_value a + 100 * digit_value b + 10 * digit_value c + digit_value d in
  _is_valid_date (String a (String b (String c (String d "-02-29"))))
  = (1 <=? y) && _is_leap y.
Proof.
  intros Ha Hb Hc Hd y.
  assert (Hy : 0 <= y <= 9999).
  { apply (year_text_bounds (String a (String b (String c (String d ""))))).
    by constructor. }
  unfold _is_valid_date, strptime, regex_match, group_Y.
  rewrite Ha, Hb, Hc, Hd. cbn [andb]. fold y.
  clearbody y. simpl.
  change (10 * digit_value "0" + digit_value "2") with 2.
  change (10 * digit_value "2" + digit_value "9") with 29.
  unfold _check_date_fields, _days_in_month.
  replace (y <=? 9999) with true by (symmetry; apply Z.leb_le; lia).
  change (2 =? 2) with true. cbn [andb].
  by destruct (1 <=? y), (_is_leap y).
Qed.

End DateProperties.

(** * The claims on what a file and a run leave *)

Section Outputs.
Context (lib : PyLib).

(** ** The clean copy, the caches and the log of removed rows *)

(** The last steps of a file none of whose kept rows has surplus
    cells, when the clean copy can be written. *)
Lemma publish_view_ok f actual cleaned seen removed w :
  Forall (fun row => wrong_fields (output_headers f actual) row = []) cleaned ->
  fs w !! Os.path_join (output_directory (self w)) f <> Some Dir ->
  let w' := publish_view lib f actual (cleaned, seen, removed) w in
  errors (self w') = errors (self w)
  /\ fs w'
     = <[Os.path_join (output_directory (self w)) f
         := File (Csv (output_headers f actual
                       :: (row_cells (output_headers f actual) <$> cleaned)) None)]> (fs w)
  /\ data_cache (self w') = <[f := cleaned]> (data_cache (self w))
  /\ sourcedid_cache (self w') = <[f := seen]> (sourcedid_cache (self w))
  /\ removed_records (self w')
     = if bool_decide (removed = []) then removed_records (self w)
       else <[f := removed]> (removed_records (self w)).
Proof.
  intros Hfit Hout. cbv zeta. unfold publish_view.
  rewrite (writerows_all lib _ cleaned _ Hfit).
  destruct (bool_decide (removed = [])); cbn [negb];
    cbn [set_removed_records self fs output_directory];
    (destruct (fs w !! Os.path_join (output_directory (self w)) f) as [[|c']|];
     [done| |]); done.
Qed.

Lemma fitting_row_is_written f actual data :
  header_valid f actual = true ->
  (length data <= length actual)%nat ->
  wrong_fields (output_headers f actual) (DictReader_row actual data) = [].
Proof.
  intros Hhv Hlen. rewrite (wrong_fields_valid f actual data Hhv), DictReader_row_rest.
  by destruct (Nat.ltb_spec (length actual) (length data)); [lia|].
Qed.

Lemma loop_view_duplicate c row1 row2 sid :
  dict_get row1 "sourcedId" = Some sid ->
  dict_get row2 "sourcedId" = Some sid ->
  (record_view lib c "users.csv" row1 2).1 = Ok true ->
  loop_view lib c "users.csv" [row1; row2] 2 [] ∅ []
  = (Ok ([row1], {[sid]}, [row2]),
     [mkerr "users.csv" 3 "sourcedId" ("Duplicate sourcedId: " +:+ sid)]).
Proof.
  intros H1 H2 Hpass.
  pose proof (users_pass_sid _ _ _ _ Hpass) as Hsid.
  pose proof (record_view_pass _ _ _ _ _ Hpass) as Hnil.
  assert (Hs1 : row_sid row1 = sid).
  { unfold row_sid, py_or. by rewrite Hsid, H1. }
  assert (Hs2 : row_sid row2 = sid).
  { unfold row_sid, py_or. rewrite H2. rewrite H1 in Hsid. by rewrite Hsid. }
  cbn [loop_view]. rewrite Hs1, Hs2.
  change (checks_duplicates "users.csv") with true. cbn [andb].
  rewrite bool_decide_eq_false_2 by set_solver.
  destruct (record_view lib _ "users.csv" row1 2) as [o es]. cbn [fst snd] in *.
  subst o es.
  rewrite bool_decide_eq_true_2 by set_solver.
  cbn [fst snd app]. by rewrite (left_id_L ∅ (∪)).
Qed.

(** C3 (amended).  For every users.csv of exactly two data rows that
    share the same sourcedId, with a valid header and read to its end: if
    the first row passes the checks of a record and has no more cells
    than the header, and the clean copy can be written, then
    [_validate_and_fix_file] appends exactly one error, the
    "Duplicate sourcedId" error at line 3, the line of the second row,
    and the first row is the one kept: its identifier alone is the set
    published for users.csv, it alone is in the cache of rows and in the
    clean copy, after the header, and the second row is what the log of
    removed rows holds for users.csv. *)
Theorem C3_duplicate_of_accepted_row w c actual rows d1 d2 sid :
  fs w !! Os.path_join (directory_path (self w)) "users.csv" = Some (File c) ->
  csv_rows c = (actual :: rows, None) ->
  header_valid "users.csv" actual = true ->
  filter (fun r => r ≠ []) rows = [d1; d2] ->
  dict_get (DictReader_row actual d1) "sourcedId" = Some sid ->
  dict_get (DictReader_row actual d2) "sourcedId" = Some sid ->
  (_validate_record lib "users.csv" (DictReader_row actual d1) 2 w).1 = Ok true ->
  (length d1 <= length actual)%nat ->
  fs w !! Os.path_join (output_directory (self w)) "users.csv" <> Some Dir ->
  let e := mkerr "users.csv" 3 "sourcedId" ("Duplicate sourcedId: " +:+ sid) in
  let w' := (_validate_and_fix_file lib "users.csv" w).2 in
  (_validate_and_fix_file lib "users.csv" w).1 = Ok tt
  /\ errors (self w') = (errors (self w) ++ [e])%list
  /\ is_DuplicateSourcedId e = true
  /\ sourcedid_cache (self w') = <["users.csv" := {[sid]}]> (sourcedid_cache (self w))
  /\ data_cache (self w')
     = <["users.csv" := [DictReader_row actual d1]]> (data_cache (self w))
  /\ fs w'
     = <[Os.path_join (output_directory (self w)) "users.csv"
         := File (Csv [output_headers "users.csv" actual;
                       row_cells (output_headers "users.csv" actual)
                         (DictReader_row actual d1)] None)]> (fs w)
  /\ removed_records (self w')
     = <["users.csv" := [DictReader_row actual d2]]> (removed_records (self w)).
Proof.
  intros Hfs Hc Hhv Hrows H1 H2 Hpass Hlen Hout e w'. subst w'.
  rewrite _validate_and_fix_file_view. cbn [fst snd]. split; [done|].
  rewrite (file_view_valid lib "users.csv" w c actual rows Hfs Hc Hhv).
  rewrite data_rows_cons, Hrows. cbn [fmap list_fmap].
  rewrite record_view_of_method in Hpass.
  rewrite (loop_view_duplicate _ _ _ sid H1 H2 Hpass).
  destruct (publish_view_ok "users.csv" actual [DictReader_row actual d1] {[sid]}
              [DictReader_row actual d2] (add_errors [e] w))
    as (He & Hw & Hd & Hs & Hr).
  { constructor; [|constructor]. by apply fitting_row_is_written. }
  { exact Hout. }
  cbv zeta in He, Hw, Hd, Hs, Hr. fold e. rewrite He, Hw, Hd, Hs, Hr.
  repeat split. apply prefix_append_self.
Qed.

(** C10 (amended).  For every file with a valid header that is read to
    its end, none of whose rows has more cells than the header, and
    whose clean copy can be written: a mask over the positions of the
    data rows says for each row whether it is kept; the rows of the clean
    copy, after the header, are the cells of the rows kept, in the order
    of the input, and these rows are what the cache of rows holds for the
    file; the rows not kept, in the order of the input, are what the log
    of removed rows holds for the file, which gets no entry when no row
    is removed.  So every data row is in exactly one of the two, and the
    two counts add up to the number of data rows. *)
Theorem C10_rows_partition f w c actual rows :
  fs w !! Os.path_join (directory_path (self w)) f = Some (File c) ->
  csv_rows c = (actual :: rows, None) ->
  header_valid f actual = true ->
  Forall (fun r => (length r <= length actual)%nat) rows ->
  fs w !! Os.path_join (output_directory (self w)) f <> Some Dir ->
  let data := data_rows (actual :: rows) in
  let w' := (_validate_and_fix_file lib f w).2 in
  exists mask : list bool,
    length mask = length data
    /\ fs w' !! Os.path_join (output_directory (self w)) f
       = Some (File (Csv (output_headers f actual
                          :: (row_cells (output_headers f actual) <$> select mask data))
                      None))
    /\ data_cache (self w') !! f = Some (select mask data)
    /\ removed_records (self w') !! f
       = (if bool_decide (select (negb <$> mask) data = [])
          then removed_records (self w) !! f
          else Some (select (negb <$> mask) data))
    /\ (length (select mask data) + length (select (negb <$> mask) data)
        = length data)%nat
    /\ select mask data `sublist_of` data
    /\ select (negb <$> mask) data `sublist_of` data.
Proof.
  intros Hfs Hc Hhv Hlen Hout data w'. subst w'.
  rewrite _validate_and_fix_file_view. cbn [snd].
  rewrite (file_view_valid lib f w c actual rows Hfs Hc Hhv). fold data.
  destruct (loop_view_data_rows_returns lib (sourcedid_cache (self w)) f actual rows Hhv)
    as (cleaned & seen & removed & es & E & _).
  fold data in E. rewrite E.
  destruct (loop_view_mask _ _ _ _ _ _ _ _ _ _ _ _ E) as (mask & Hmask & -> & -> & _).
  rewrite !app_nil_l.
  destruct (publish_view_ok f actual (select mask data) seen
              (select (negb <$> mask) data) (add_errors es w))
    as (_ & Hw & Hd & _ & Hr).
  { apply Forall_forall. intros row Hrow.
    apply (sublist_subseteq _ _ (select_sublist mask data)) in Hrow.
    unfold data in Hrow. rewrite data_rows_cons in Hrow.
    apply list_elem_of_fmap in Hrow as (d & -> & Hd).
    apply list_elem_of_filter in Hd as [_ Hd].
    rewrite Forall_forall in Hlen. by apply fitting_row_is_written, Hlen. }
  { exact Hout. }
  cbv zeta in Hw, Hd, Hr. exists mask. rewrite Hw, Hd, Hr.
  cbn [add_errors set_errors self fs output_directory removed_records data_cache].
  rewrite !lookup_insert_eq.
  split; [done|]. split; [done|]. split; [done|]. split.
  { case_bool_decide; [done|]. by rewrite lookup_insert_eq. }
  split; [by apply select_length|]. split; apply select_sublist.
Qed.

(** ** Where the errors of a run come from *)

Lemma table_fields_named (t : list (string * list string)) f l :
  forallb (fun kv : string * list string =>
             forallb (fun fld => negb (String.eqb fld "") && negb (String.eqb fld "header"))
               kv.2) t = true ->
  table_get t f = Some l ->
  Forall (fun fld => fld <> "" /\ fld <> "header") l.
Proof.
  intros Ht Hget. apply table_get_elem, list_elem_of_In in Hget.
  rewrite forallb_forall in Ht. specialize (Ht _ Hget). cbn [snd] in Ht.
  rewrite forallb_forall in Ht. apply Forall_forall. intros fld Hfld.
  apply list_elem_of_In in Hfld. specialize (Ht _ Hfld).
  apply andb_true_iff in Ht as [H1%negb_true_iff%String.eqb_neq H2%negb_true_iff%String.eqb_neq].
  done.
Qed.

(** No required field is called [header] or has the empty name. *)
Lemma req_fields_named f r :
  Forall (fun fld => fld <> "" /\ fld <> "header") (req_fields f r).
Proof.
  assert (Hreq : Forall (fun fld => fld <> "" /\ fld <> "header")
                   (default [] (table_get required f))).
  { destruct (table_get required f) as [l|] eqn:E; [|constructor].
    by apply (table_fields_named required f l). }
  unfold req_fields.
  destruct (table_get sds_v21_required f) as [alt|] eqn:E; [|done].
  destruct (dict_has r "sourcedId"); [|done].
  by apply (table_fields_named sds_v21_required f alt).
Qed.

Lemma refs_view_fields c f r ln refs ok :
  Forall (fun e => exists ref, In (ref, field e) refs) (refs_view c f r ln refs ok).2.
Proof.
  revert ok. induction refs as [|[ref k] refs IH]; intros ok; simpl; [constructor|].
  assert (Hrest : forall ok,
    Forall (fun e => exists ref0, (ref, k) = (ref0, field e) \/ In (ref0, field e) refs)
      (refs_view c f r ln refs ok).2).
  { intros ok'. eapply Forall_impl; [apply IH|]. intros e [ref0 H]. exists ref0. by right. }
  destruct (c !! ref) as [ids|]; [|apply Hrest].
  destruct (fields r !! k) as [v|]; [|constructor].
  destruct (in_set v ids); [apply Hrest|]. simpl. constructor; [|apply Hrest].
  exists ref. by left.
Qed.

(** An error of a record names a field: a required field, a format
    field or the field of a reference. *)
Lemma record_view_fields c f r ln e :
  e ∈ (record_view lib c f r ln).2 -> field e <> "" /\ field e <> "header".
Proof.
  unfold record_view. cbn [snd]. rewrite !elem_of_app. intros [H|[H|H]].
  - apply list_elem_of_fmap in H as (fld & -> & Hfld).
    apply list_elem_of_filter in Hfld as [_ Hfld].
    pose proof (req_fields_named f r) as HF. rewrite Forall_forall in HF.
    by apply HF.
  - assert (HF : Forall (fun e => field e <> "" /\ field e <> "header")
                   (data_types_errors lib f r ln)).
    { unfold data_types_errors, date_fields. cbn [flat_map].
      repeat (apply Forall_app; split);
        try (eapply Forall_impl; [apply format_errors_kind|];
             by intros e' (_ & _ & -> & _)).
      - constructor.
      - destruct (boolean_bad r); by repeat constructor. }
    rewrite Forall_forall in HF. by apply HF.
  - pose proof (refs_view_fields c f r ln (references f) true) as HF.
    rewrite Forall_forall in HF. destruct (HF e H) as [ref Hin].
    unfold references in Hin. apply in_app_or in Hin.
    destruct Hin as [Hin|Hin];
      [destruct (String.eqb f "roles.csv")|destruct (String.eqb f "enrollments.csv")];
      simpl in Hin;
      repeat (destruct Hin as [Hin|Hin]; [injection Hin as _ <-; done|]); done.
Qed.

(** The errors of the loop over the rows are errors of the rows, each at
    the line of its row. *)
Lemma loop_view_row_errors c f rows idx cl seen rm :
  Forall (fun e =>
    exists (i : nat) row,
      rows !! i = Some row /\ line e = idx + Z.of_nat i
      /\ (e = mkerr f (line e) "sourcedId" ("Duplicate sourcedId: " +:+ row_sid row)
          \/ e ∈ (record_view lib c f row (line e)).2))
    (loop_view lib c f rows idx cl seen rm).2.
Proof.
  revert idx cl seen rm.
  induction rows as [|row rows IH]; intros idx cl seen rm; cbn [loop_view];
    [constructor|].
  assert (Hnext : forall cl seen rm,
    Forall (fun e =>
      exists (i : nat) row0,
        (row :: rows) !! i = Some row0 /\ line e = idx + Z.of_nat i
        /\ (e = mkerr f (line e) "sourcedId" ("Duplicate sourcedId: " +:+ row_sid row0)
            \/ e ∈ (record_view lib c f row0 (line e)).2))
      (loop_view lib c f rows (idx + 1) cl seen rm).2).
  { intros. eapply Forall_impl; [apply IH|]. simpl.
    intros e (i & row0 & Hi & Hl & He). exists (S i), row0.
    split; [done|]. split; [lia|done]. }
  assert (Hrow : Forall (fun e =>
      exists (i : nat) row0,
        (row :: rows) !! i = Some row0 /\ line e = idx + Z.of_nat i
        /\ (e = mkerr f (line e) "sourcedId" ("Duplicate sourcedId: " +:+ row_sid row0)
            \/ e ∈ (record_view lib c f row0 (line e)).2))
      (record_view lib c f row idx).2).
  { apply Forall_forall. intros e He.
    pose proof (record_view_lines lib c f row idx) as Hl.
    rewrite Forall_forall in Hl. destruct (Hl e He) as [_ Hline].
    exists 0%nat, row. split; [done|]. split; [simpl; lia|]. right. by rewrite Hline. }
  destruct (checks_duplicates f && bool_decide (row_sid row ∈ seen)).
  - cbn [snd]. constructor; [|apply Hnext].
    exists 0%nat, row. split; [done|]. split; [simpl; lia|]. by left.
  - destruct (record_view lib c f row idx) as [[[|]|e] esv]; cbn [fst snd] in *.
    + apply Forall_app. split; [done|apply Hnext].
    + apply Forall_app. split; [done|apply Hnext].
    + done.
Qed.

Lemma loop_view_row_error c f rows cl seen rm :
  Forall (row_error lib f rows) (loop_view lib c f rows 2 cl seen rm).2.
Proof.
  eapply Forall_impl; [apply loop_view_row_errors|].
  intros e (i & row & Hi & Hl & He). exists i, row.
  split; [done|]. split; [done|]. destruct He as [He|He]; [by left|right; by exists c].
Qed.

(** The last steps of a file append at most the error of an exception. *)
Lemma publish_view_errors f actual res w :
  exists es,
    errors (self (publish_view lib f actual res w)) = (errors (self w) ++ es)%list
    /\ Forall (fun e => exists exn, e = file_error lib f exn) es.
Proof.
  destruct res as [[cleaned seen] removed]. unfold publish_view.
  set (w1 := if negb (bool_decide (removed = [])) then _ else w).
  assert (H1 : errors (self w1) = errors (self w))
    by (subst w1; by destruct (negb _)).
  clearbody w1. cbv zeta.
  destruct (fs w1 !! _) as [[|c']|];
    try destruct (writerows lib _ cleaned _) as [written [e|]]; simpl; rewrite ?H1;
    try (eexists; split; [done|]; constructor; [by eexists|constructor]);
    exists []; by rewrite app_nil_r.
Qed.

(** The errors that processing a file appends. *)
Lemma file_view_origin g w :
  g ∈ (required_files ++ optional_files)%list ->
  fs w !! Os.path_join (directory_path (self w)) g <> None ->
  exists es,
    errors (self (file_view lib g w)) = (errors (self w) ++ es)%list
    /\ Forall (error_origin lib (directory_path (self w)) (fs w)) es.
Proof.
  intros Hg Hex. unfold file_view.
  assert (Hfile : forall exn,
    error_origin lib (directory_path (self w)) (fs w) (file_error lib g exn)).
  { intros exn. by apply of_file. }
  destruct (fs w !! Os.path_join (directory_path (self w)) g) as [[|c]|] eqn:Efs;
    [by eexists; split; [done|]; constructor| |done].
  assert (Hmain : forall rows failure,
    (csv_rows c).1 = rows ->
    exists es,
      errors (self
        (if negb (header_valid g (default [] (head rows)))
         then add_errors [header_error lib g (default [] (head rows))] w
         else match failure with
              | Some msg => add_errors [file_error lib g (ValueError msg)] w
              | None =>
                  match loop_view lib (sourcedid_cache (self w)) g (data_rows rows) 2 [] ∅ [] with
                  | (Ok res, es) =>
                      publish_view lib g (default [] (head rows)) res (add_errors es w)
                  | (Raise e, es) => add_errors (es ++ [file_error lib g e]) w
                  end
              end)) = (errors (self w) ++ es)%list
      /\ Forall (error_origin lib (directory_path (self w)) (fs w)) es).
  { intros rows failure Hrows.
    destruct (negb _).
    { eexists. split; [done|]. constructor; [|constructor].
      rewrite <- Hrows. by apply of_header. }
    destruct failure as [msg|].
    { eexists. split; [done|]. by constructor. }
    pose proof (loop_view_row_error (sourcedid_cache (self w)) g (data_rows rows) [] ∅ [])
      as Hrow.
    pose proof (loop_view_lines lib (sourcedid_cache (self w)) g (data_rows rows) 2 [] ∅ [])
      as Hl.
    assert (Horigin : Forall (error_origin lib (directory_path (self w)) (fs w))
              (loop_view lib (sourcedid_cache (self w)) g (data_rows rows) 2 [] ∅ []).2).
    { apply Forall_forall. intros e He.
      rewrite Forall_forall in Hrow. rewrite Forall_forall in Hl.
      destruct (Hl e He) as [Hf _].
      apply (of_row lib _ _ g c e); [done|done|done|]. rewrite Hrows. by apply Hrow. }
    destruct (loop_view lib _ g (data_rows rows) 2 [] ∅ []) as [[res|e] es];
      cbn [snd] in Horigin.
    - destruct (publish_view_errors g (default [] (head rows)) res (add_errors es w))
        as (es' & -> & HF').
      exists (es ++ es')%list. cbn [add_errors set_errors self errors].
      rewrite app_assoc. split; [done|]. apply Forall_app. split; [done|].
      eapply Forall_impl; [exact HF'|]. intros e [exn ->]. apply Hfile.
    - eexists. split; [done|]. apply Forall_app. split; [done|]. by constructor. }
  destruct (csv_rows c) as [rows failure] eqn:Ec.
  destruct rows as [|h rows']; [destruct failure as [msg|]|].
  - eexists. split; [done|]. by constructor.
  - by apply (Hmain [] None).
  - by apply (Hmain (h :: rows') failure).
Qed.

(** The origin of an error depends on the input files only. *)
Lemma error_origin_ext dir files files' e :
  (forall g, g ∈ (required_files ++ optional_files)%list ->
             files' !! Os.path_join dir g = files !! Os.path_join dir g) ->
  error_origin lib dir files' e -> error_origin lib dir files e.
Proof.
  intros Hsame [g Hg Hnone|g exn Hg Hex|g c Hg Hc|g c e' Hg Hc Hf Hrow].
  - apply of_missing_file; [done|]. rewrite <- Hsame; [done|].
    unfold required_files, optional_files in *. set_solver.
  - apply of_file; [done|]. by rewrite <- Hsame.
  - apply of_header; [done|]. by rewrite <- Hsame.
  - apply (of_row lib dir files g c e'); [done| |done|done]. by rewrite <- Hsame.
Qed.

Lemma process_files_origin fnames w :
  output_directory (self w) = Os.path_join (directory_path (self w)) "validated_output" ->
  (forall g, g ∈ fnames -> g ∈ (required_files ++ optional_files)%list) ->
  exists es,
    errors (self (process_files lib fnames w)) = (errors (self w) ++ es)%list
    /\ Forall (error_origin lib (directory_path (self w)) (fs w)) es.
Proof.
  revert w. induction fnames as [|g fnames IH]; intros w Hout Hnames.
  { exists []. by rewrite app_nil_r. }
  cbn [process_files].
  destruct (made_by_init_step lib g w Hout) as (Hout1 & Hd1 & Hfs1).
  assert (Hg : g ∈ (required_files ++ optional_files)%list)
    by apply Hnames, list_elem_of_here.
  destruct (IH _ Hout1) as (es2 & He2 & HF2).
  { intros g' Hg'. by apply Hnames, list_elem_of_further. }
  rewrite He2.
  assert (HF2' : Forall (error_origin lib (directory_path (self w)) (fs w)) es2).
  { eapply Forall_impl; [exact HF2|]. intros e He. rewrite Hd1 in He.
    eapply error_origin_ext; [|exact He]. intros g' Hg'. by apply Hfs1. }
  unfold Os.path_exists in *. case_bool_decide as Ex.
  - destruct (file_view_origin g w Hg) as (es1 & He1 & HF1).
    { destruct Ex as [x Hx]. by rewrite Hx. }
    exists (es1 ++ es2)%list. rewrite He1, app_assoc. split; [done|].
    by apply Forall_app.
  - by exists es2.
Qed.

Lemma processed_origin w :
  output_directory (self w) = Os.path_join (directory_path (self w)) "validated_output" ->
  Forall (error_origin lib (directory_path (self w)) (fs w))
    (errors (self (processed lib w))).
Proof.
  intros Hout.
  assert (Hin : forall g, g ∈ (required_files ++ optional_files)%list ->
            prepared_fs (fs w) (output_directory (self w))
              !! Os.path_join (directory_path (self w)) g
            = fs w !! Os.path_join (directory_path (self w)) g).
  { intros g Hg. by apply prepared_fs_input. }
  rewrite processed_eq.
  match goal with
  | |- context [process_files lib ?l ?w2] =>
      destruct (process_files_origin l w2) as (es & -> & HF); [done|done|]
  end.
  cbn [add_errors set_errors set_fs set_removed_records self fs directory_path errors app]
    in *.
  apply Forall_app. split.
  - apply Forall_fmap, Forall_forall. intros g Hg. simpl.
    unfold missing_files in Hg. apply list_elem_of_filter in Hg as [Hnone Hg].
    cbn [set_fs set_removed_records set_errors self fs directory_path] in Hnone.
    unfold Os.path_exists in Hnone. apply bool_decide_eq_false in Hnone.
    assert (Hg' : g ∈ (required_files ++ optional_files)%list)
      by (unfold required_files, optional_files; set_solver).
    rewrite Hin in Hnone by done.
    apply of_missing_file; [done|]. by apply eq_None_not_Some.
  - eapply Forall_impl; [exact HF|]. intros e He.
    eapply error_origin_ext; [|exact He]. intros g Hg. by apply Hin.
Qed.

(** C8 (amended).  Every error that a run leaves in [self.errors] has one
    of four origins, and its line says which: a required file that is
    missing, or an exception caught while a file of the directory is
    processed, and then it carries line 0 and an empty field; the header
    row of a file of the directory, and then it is the header error of
    that file and carries line 1 and the field "header"; or a data row of
    a file of the directory, and then it is an error of the [i]-th data
    row, counted from 0, for some [i], and carries the line [2 + i], and
    a field that is neither empty nor "header".  So the header row is
    line 1 and the data rows are numbered from 2.  The errors that a run
    returns are these. *)
Theorem C8_line_of_each_error dir files :
  Forall (error_origin lib dir files) (errors (self (run lib dir files).2))
  /\ (forall g, line (missing_file_error g) = 0 /\ field (missing_file_error g) = "")
  /\ (forall g exn, line (file_error lib g exn) = 0 /\ field (file_error lib g exn) = "")
  /\ (forall g actual,
        line (header_error lib g actual) = 1
        /\ field (header_error lib g actual) = "header")
  /\ (forall g data e,
        row_error lib g data e ->
        2 <= line e < 2 + Z.of_nat (length data)
        /\ field e <> "" /\ field e <> "header")
  /\ match (run lib dir files).1 with
     | Ok (errs, _, _) => errs = errors (self (run lib dir files).2)
     | Raise _ => True
     end.
Proof.
  split; [|split; [done|split; [done|split; [done|split]]]].
  - unfold run. set (w := {| self := __init__ dir; fs := files |}).
    pose proof (processed_origin w eq_refl) as Hp.
    destruct (validate_all_world lib w) as [H|[H|H]]; rewrite H; clear H.
    + rewrite self_set_fs. constructor.
    + exact Hp.
    + rewrite self_set_fs. exact Hp.
  - intros g data e (i & row & Hi & Hl & He).
    apply lookup_lt_Some in Hi as Hlt. split; [lia|].
    destruct He as [->|[c He]]; [done|]. by apply record_view_fields in He.
  - unfold run. destruct (validate_all lib _) as [[[[errs out] rep]|e] w'] eqn:E; [|done].
    apply validate_all_returns in E as (Herrs & _ & _ & Hself & _).
    cbn [fst snd]. by rewrite Hself.
Qed.

End Outputs.
(** * The further properties on concrete inputs *)

(** A user without a username is refused, and an error says why. *)
Lemma validate_record_true_iff_no_error_witness :
  exists es,
    (_validate_record example_lib "users.csv" ex_anon 2 (fresh ∅)).2
    = add_errors es (fresh ∅)
    /\ es <> [].
Proof.
  destruct (validate_record_true_iff_no_error example_lib "users.csv" ex_anon 2
              (fresh ∅) false
              (_validate_record example_lib "users.csv" ex_anon 2 (fresh ∅)).2)
    as (es & H1 & H2 & _).
  - vm_compute. reflexivity.
  - exists es. split; [exact H1|]. intros Hnil.
    destruct H2 as [_ H2]. discriminate (H2 Hnil).
Defined.

(** The same user: the one error is that of the required fields. *)
Lemma validate_record_runs_every_check_witness :
  _validate_record example_lib "users.csv" ex_anon 2 (fresh ∅)
  = (Ok false,
     add_errors [mkerr "users.csv" 2 "username" "Required field username missing"]
       (fresh ∅)).
Proof.
  apply (validate_record_runs_every_check example_lib "users.csv" ex_anon 2 (fresh ∅)
           false [mkerr "users.csv" 2 "username" "Required field username missing"]
           true [] true []).
  - vm_compute. reflexivity.
  - vm_compute. reflexivity.
  - vm_compute. reflexivity.
Defined.

(** The format errors of the session of the examples name columns of
    its header. *)
Lemma format_errors_name_header_columns_witness :
  exists ok es,
    _validate_data_types example_lib "academicSessions.csv" ex_session 2 (fresh ∅)
    = (Ok ok, add_errors es (fresh ∅))
    /\ Forall (fun e => field e ∈ sessions_header) es.
Proof.
  destruct (format_errors_name_header_columns example_lib "academicSessions.csv"
              sessions_header ["s1"; "Term 1"; "term"; "2023/04/01"; "2024-3-31"; ""]
              2 (fresh ∅)) as (ok & es & H1 & H2).
  - vm_compute. reflexivity.
  - exists ok, es. split; [exact H1|].
    eapply Forall_impl; [exact H2|]. intros e [He _]. exact He.
Defined.

(** An e-mail cell without [@]. *)
Lemma invalid_email_errors_witness :
  exists ok es,
    _validate_data_types example_lib "users.csv" ex_carol 2 (fresh ∅)
    = (Ok ok, add_errors es (fresh ∅))
    /\ filter (fun e => field e = "email") es
       = [mkerr "users.csv" 2 "email" "Invalid email invalid-email"].
Proof.
  destruct (invalid_email_errors example_lib "users.csv" ex_carol 2 (fresh ∅)
              "invalid-email") as (ok & es & H1 & H2 & _).
  - vm_compute. reflexivity.
  - discriminate.
  - exists ok, es. split; [exact H1|exact H2].
Defined.

(** A phone cell that is no number. *)
Lemma invalid_phone_errors_witness :
  exists ok es,
    _validate_data_types example_lib "users.csv" ex_carol 2 (fresh ∅)
    = (Ok ok, add_errors es (fresh ∅))
    /\ filter (fun e => field e = "phone") es
       = [mkerr "users.csv" 2 "phone" "Invalid phone invalid-phone"].
Proof.
  destruct (invalid_phone_errors example_lib "users.csv" ex_carol 2 (fresh ∅)
              "invalid-phone") as (ok & es & H1 & H2 & _).
  - vm_compute. reflexivity.
  - discriminate.
  - exists ok, es. split; [exact H1|exact H2].
Defined.

(** A role of the user [u1] when the set of users.csv holds [u0] only
    and orgs.csv has published no set. *)
Lemma missing_reference_errors_witness :
  _validate_cross_reference "roles.csv" ex_role 2 ex_second_call
  = (Ok false,
     add_errors [mkerr "roles.csv" 2 "userSourcedId" "Missing ref u1"] ex_second_call).
Proof.
  destruct (missing_reference_errors "roles.csv" ex_role 2 ex_second_call)
    as (ok & es & H1 & H2 & H3).
  - intros ref k Hin. simpl in Hin.
    destruct Hin as [[= <- <-]|[[= <- <-]|[]]]; vm_compute; eexists; reflexivity.
  - assert (Hes : es = [mkerr "roles.csv" 2 "userSourcedId" "Missing ref u1"])
      by (rewrite H2; vm_compute; reflexivity).
    rewrite H1, Hes. destruct ok; [|reflexivity].
    destruct H3 as [H3 _]. rewrite Hes in H3. discriminate (H3 eq_refl).
Defined.

(** The same role twice and a row without a role: the role is kept
    twice. *)
Lemma rows_of_roles_and_enrollments_are_judged_alone_witness :
  exists es,
    rows_loop example_lib "roles.csv" [ex_role; ex_no_role; ex_role] 2 [] ∅ [] (fresh ∅)
    = (Ok ([ex_role; ex_role], {[""]}, [ex_no_role]), add_errors es (fresh ∅))
    /\ Forall (fun e => is_DuplicateSourcedId e = false) es.
Proof.
  destruct (rows_of_roles_and_enrollments_are_judged_alone example_lib "roles.csv"
              [ex_role; ex_no_role; ex_role] 2 [ex_role; ex_role] {[""]} [ex_no_role]
              (fresh ∅)
              (rows_loop example_lib "roles.csv" [ex_role; ex_no_role; ex_role]
                 2 [] ∅ [] (fresh ∅)).2)
    as (_ & _ & es & H1 & H2).
  - simpl. auto.
  - vm_compute. reflexivity.
  - exists es. split; [|exact H2]. rewrite <- H1. vm_compute. reflexivity.
Defined.

(** Two users that share [u1]: the second, at line 3, is removed and
    has an error. *)
Lemma row_removed_iff_error_on_its_line_witness :
  exists (es : list ValidationError) (mask : list bool),
    [ex_bob] = select (negb <$> mask) [ex_alice; ex_bob]
    /\ (mask !! 1%nat = Some false <-> exists e, e ∈ es /\ line e = 3).
Proof.
  destruct (row_removed_iff_error_on_its_line example_lib "users.csv"
              [ex_alice; ex_bob] (fresh ∅) [ex_alice] {["u1"]} [ex_bob]
              (rows_loop example_lib "users.csv" [ex_alice; ex_bob] 2 [] ∅ [] (fresh ∅)).2)
    as (es & mask & _ & _ & _ & H1 & H2).
  - vm_compute. reflexivity.
  - exists es, mask. split; [exact H1|apply (H2 1%nat)].
Defined.

(** The same two users: the set of accepted identifiers holds [u1]. *)
Lemma accepted_identifiers_are_sourcedIds_witness :
  ({["u1"]} : gset string) = list_to_set (row_sid <$> [ex_alice])
  /\ "" ∉ ({["u1"]} : gset string).
Proof.
  destruct (accepted_identifiers_are_sourcedIds example_lib "users.csv"
              [ex_alice; ex_bob] (fresh ∅) [ex_alice] {["u1"]} [ex_bob]
              (rows_loop example_lib "users.csv" [ex_alice; ex_bob] 2 [] ∅ [] (fresh ∅)).2)
    as (H1 & _ & H2).
  - simpl. auto.
  - vm_compute. reflexivity.
  - split; [exact H1|exact H2].
Defined.

(** The orgs.csv of the examples: of its three rows the first is kept,
    the second repeats its identifier and the third has no name. *)
Lemma clean_copy_holds_the_kept_rows_witness :
  exists cleaned,
    fs (_validate_and_fix_file example_lib "orgs.csv" (fresh ex_files)).2
      !! "data/validated_output/orgs.csv"
    = Some (File (Csv (orgs_header
                       :: ((fun row => (fun k => default "" (dict_get row k)) <$> orgs_header)
                             <$> cleaned)) None))
    /\ cleaned `sublist_of`
         data_rows [orgs_header; ["o1"; "School"; "school"; ""];
                    ["o1"; "Again"; "school"; ""]; ["o2"; ""; "school"; ""]].
Proof.
  destruct (clean_copy_holds_the_kept_rows example_lib "orgs.csv" (fresh ex_files)
              (Csv [orgs_header; ["o1"; "School"; "school"; ""];
                    ["o1"; "Again"; "school"; ""]; ["o2"; ""; "school"; ""]] None)
              orgs_header
              [["o1"; "School"; "school"; ""]; ["o1"; "Again"; "school"; ""];
               ["o2"; ""; "school"; ""]])
    as (cleaned & seen & removed & es & _ & Hsub & _ & Hfs & _).
  - vm_compute. reflexivity.
  - reflexivity.
  - vm_compute. reflexivity.
  - repeat constructor.
  - vm_compute. discriminate.
  - exists cleaned. split; [|exact Hsub].
    rewrite Hfs. apply lookup_insert_eq.
Defined.

(** An orgs.csv whose only row has a cell too many: the row passes the
    checks, the writer refuses it, and no identifier is published. *)
Lemma surplus_cells_make_the_write_fail_witness :
  sourcedid_cache (self (_validate_and_fix_file example_lib "orgs.csv"
                           (fresh ex_long_files)).2) = ∅
  /\ errors (self (_validate_and_fix_file example_lib "orgs.csv" (fresh ex_long_files)).2)
     = [mkerr "orgs.csv" 0 "" "dict contains fields not in fieldnames: None"].
Proof.
  destruct (surplus_cells_make_the_write_fail example_lib "orgs.csv" (fresh ex_long_files)
              (Csv [orgs_header; ["o1"; "School"; "school"; ""; "surplus"]] None)
              orgs_header [["o1"; "School"; "school"; ""; "surplus"]]
              [DictReader_row orgs_header ["o1"; "School"; "school"; ""; "surplus"]]
              {["o1"]} [] (fresh ex_long_files))
    as (H1 & _ & H2 & _).
  - vm_compute. reflexivity.
  - reflexivity.
  - vm_compute. reflexivity.
  - vm_compute. discriminate.
  - vm_compute. reflexivity.
  - exists (DictReader_row orgs_header ["o1"; "School"; "school"; ""; "surplus"]).
    split; [apply list_elem_of_here|vm_compute; discriminate].
  - split; [exact H1|exact H2].
Defined.

(** The user [alice], written and read back. *)
Lemma kept_row_read_back_is_kept_witness :
  exists cells,
    _dict_to_list example_lib users_header ex_alice = inr cells
    /\ (_validate_record example_lib "users.csv" (DictReader_row users_header cells)
          2 (fresh ∅)).1 = Ok true.
Proof.
  destruct (kept_row_read_back_is_kept example_lib "users.csv" users_header
              ["u1"; "alice"; "A"; "B"; ""; ""; ""; ""; ""] 2 (fresh ∅))
    as (cells & H1 & _ & _ & H2).
  - vm_compute. reflexivity.
  - simpl. lia.
  - vm_compute. reflexivity.
  - exists cells. split; [exact H1|exact H2].
Defined.

(** The orgs.csv of the input directory is as it was after a run, and
    the input directory, which the files did not hold as a path of its
    own, is the one directory made above the output directory. *)
Lemma validate_all_touches_only_its_outputs_witness :
  fs (validate_all example_lib (fresh ex_files)).2 !! "data/orgs.csv"
  = ex_files !! "data/orgs.csv"
  /\ (fs (validate_all example_lib (fresh ex_files)).2 !! "data" = None
      \/ (fs (validate_all example_lib (fresh ex_files)).2 !! "data" = Some Dir
          /\ String.prefix "data" "data/validated_output" = true)).
Proof.
  split.
  - apply (validate_all_touches_only_its_outputs example_lib (fresh ex_files)
             "data/orgs.csv").
    + discriminate.
    + vm_compute. reflexivity.
    + discriminate.
    + vm_compute. discriminate.
  - apply (validate_all_touches_only_its_outputs example_lib (fresh ex_files) "data").
    + discriminate.
    + vm_compute. reflexivity.
    + discriminate.
    + vm_compute. reflexivity.
Defined.

(** A second call in a directory where users.csv is no more: the set of
    the earlier call is still in the cache. *)
Lemma validate_all_keeps_stale_identifier_sets_witness :
  sourcedid_cache (self (validate_all example_lib ex_second_call).2) !! "users.csv"
  = Some {["u0"]}.
Proof.
  rewrite (validate_all_keeps_stale_identifier_sets example_lib ex_second_call "users.csv").
  - vm_compute. reflexivity.
  - reflexivity.
  - vm_compute. reflexivity.
Defined.

(** A directory that holds users.csv only: orgs.csv and roles.csv are
    reported first, then the user without a username. *)
Lemma missing_required_files_come_first_witness :
  exists rest,
    [missing_file_error "orgs.csv"; missing_file_error "roles.csv";
     mkerr "users.csv" 2 "username" "Required field username missing"]
    = ([missing_file_error "orgs.csv"; missing_file_error "roles.csv"] ++ rest)%list
    /\ Forall (fun e => c3_files !! Os.path_join ex_dir (file e) <> None) rest.
Proof.
  destruct (missing_required_files_come_first example_lib ex_dir c3_files
              [missing_file_error "orgs.csv"; missing_file_error "roles.csv";
               mkerr "users.csv" 2 "username" "Required field username missing"]
              "data/validated_output" "data/validation_report.json"
              (run example_lib ex_dir c3_files).2) as (rest & H1 & H2).
  - vm_compute. reflexivity.
  - exists rest. split; [exact H1|].
    eapply Forall_impl; [exact H2|]. intros e [_ He]. exact He.
Defined.

(** The same run: the error of users.csv comes with the second of the
    seven files. *)
Lemma errors_are_grouped_by_file_witness :
  exists ess : list (list ValidationError),
    [missing_file_error "orgs.csv"; missing_file_error "roles.csv";
     mkerr "users.csv" 2 "username" "Required field username missing"]
    = ([missing_file_error "orgs.csv"; missing_file_error "roles.csv"] ++ concat ess)%list
    /\ length ess = 7%nat.
Proof.
  destruct (errors_are_grouped_by_file example_lib ex_dir c3_files
              [missing_file_error "orgs.csv"; missing_file_error "roles.csv";
               mkerr "users.csv" 2 "username" "Required field username missing"]
              "data/validated_output" "data/validation_report.json"
              (run example_lib ex_dir c3_files).2) as (ess & H1 & H2).
  - vm_compute. reflexivity.
  - exists ess. split; [exact H1|].
    apply Forall2_length in H2. symmetry. exact H2.
Defined.

(** The report of the same run: it has errors, and it logs the user
    that was removed. *)
Lemma report_logs_only_rows_removed_witness :
  exists r,
    fs (run example_lib ex_dir c3_files).2 !! "data/validation_report.json"
    = Some (File (Json r))
    /\ hasErrors r = true.
Proof.
  destruct (report_logs_only_rows_removed example_lib ex_dir c3_files
              [missing_file_error "orgs.csv"; missing_file_error "roles.csv";
               mkerr "users.csv" 2 "username" "Required field username missing"]
              "data/validated_output" "data/validation_report.json"
              (run example_lib ex_dir c3_files).2) as (r & H1 & H2 & _).
  - vm_compute. reflexivity.
  - exists r. split; [exact H1|]. apply H2. discriminate.
Defined.

(** A directory of three valid files: nothing is removed. *)
Lemma no_error_means_nothing_removed_witness :
  removed_records (self (run example_lib ex_dir ex_clean_files).2) = ∅.
Proof.
  destruct (no_error_means_nothing_removed example_lib ex_dir ex_clean_files
              "data/validated_output" "data/validation_report.json"
              (run example_lib ex_dir ex_clean_files).2) as [H _].
  - vm_compute. reflexivity.
  - exact H.
Defined.

(** The program on the directory that holds users.csv only ends with
    status 1. *)
Lemma main_exit_status_witness :
  exists r,
    files_left (main example_lib ["sds_validator.py"; "data"] c3_files)
      !! "data/validation_report.json" = Some (File (Json r))
    /\ hasErrors r = true.
Proof.
  destruct (main_exit_status example_lib ["sds_validator.py"; "data"] c3_files 1)
    as [[H _]|[_ [[H _]|(prog & dir & r & Hargv & Hfs & Hhas & _)]]].
  - vm_compute. reflexivity.
  - discriminate H.
  - exfalso. apply H. reflexivity.
  - injection Hargv as <- <-. exists r. split; [exact Hfs|exact Hhas].
Defined.

(** 2024 is a leap year. *)
Lemma february_29_only_in_leap_years_witness : _is_valid_date "2024-02-29" = true.
Proof.
  rewrite (february_29_only_in_leap_years "2" "0" "2" "4");
    vm_compute; reflexivity.
Defined.

(** A run on an input path that is a regular file raises, and so does a
    run whose output path is a regular file, which leaves the files as
    they were. *)
Lemma run_raises_iff_witness :
  (exists e w', run example_lib ex_dir (<["data" := File (Csv [] None)]> ∅) = (Raise e, w'))
  /\ (exists e w',
        run example_lib ex_dir (<["data/validated_output" := File (Csv [] None)]> ∅)
        = (Raise e, w')
        /\ fs w' = <["data/validated_output" := File (Csv [] None)]> ∅).
Proof.
  split.
  - destruct (run_raises_iff example_lib ex_dir (<["data" := File (Csv [] None)]> ∅))
      as (_ & H & _).
    apply H.
    + exists (Csv [] None). vm_compute. reflexivity.
    + vm_compute. reflexivity.
  - destruct (run_raises_iff example_lib ex_dir
                (<["data/validated_output" := File (Csv [] None)]> ∅)) as (H & _).
    apply H. exists (Csv [] None). vm_compute. reflexivity.
Defined.

(** * The claims on what a file leaves, on concrete inputs *)

(** C3 at two users that share [u1], the first of which is valid. *)
Lemma C3_witness :
  let w' := (_validate_and_fix_file example_lib "users.csv" (fresh ex_dup_files)).2 in
  errors (self w') = [mkerr "users.csv" 3 "sourcedId" "Duplicate sourcedId: u1"]
  /\ sourcedid_cache (self w') = <["users.csv" := {["u1"]}]> ∅
  /\ data_cache (self w') = <["users.csv" := [ex_alice]]> ∅
  /\ fs w' !! "data/validated_output/users.csv"
     = Some (File (Csv [users_header; ["u1"; "alice"; "A"; "B"; ""; ""; ""; ""; ""]] None))
  /\ removed_records (self w') = <["users.csv" := [ex_bob]]> ∅.
Proof.
  destruct (C3_duplicate_of_accepted_row example_lib (fresh ex_dup_files)
              (Csv [users_header;
                    ["u1"; "alice"; "A"; "B"; ""; ""; ""; ""; ""];
                    ["u1"; "bob"; "C"; "D"; ""; ""; ""; ""; ""]] None)
              users_header
              [["u1"; "alice"; "A"; "B"; ""; ""; ""; ""; ""];
               ["u1"; "bob"; "C"; "D"; ""; ""; ""; ""; ""]]
              ["u1"; "alice"; "A"; "B"; ""; ""; ""; ""; ""]
              ["u1"; "bob"; "C"; "D"; ""; ""; ""; ""; ""] "u1")
    as (_ & He & _ & Hs & Hd & Hw & Hr).
  - vm_compute. reflexivity.
  - reflexivity.
  - vm_compute. reflexivity.
  - vm_compute. reflexivity.
  - vm_compute. reflexivity.
  - vm_compute. reflexivity.
  - vm_compute. reflexivity.
  - simpl. lia.
  - vm_compute. discriminate.
  - cbv zeta. split; [exact He|]. split; [exact Hs|]. split; [exact Hd|].
    split; [|exact Hr]. rewrite Hw. vm_compute. reflexivity.
Defined.

(** C10 at the orgs.csv of [ex_files], with three data rows: the first
    is kept, the second repeats its identifier, the third has no name. *)
Lemma C10_witness :
  let data := data_rows [orgs_header;
                         ["o1"; "School"; "school"; ""];
                         ["o1"; "Again"; "school"; ""];
                         ["o2"; ""; "school"; ""]] in
  let w' := (_validate_and_fix_file example_lib "orgs.csv" (fresh ex_files)).2 in
  exists mask : list bool,
    length mask = 3%nat
    /\ fs w' !! "data/validated_output/orgs.csv"
       = Some (File (Csv (orgs_header :: (row_cells orgs_header <$> select mask data)) None))
    /\ data_cache (self w') !! "orgs.csv" = Some (select mask data)
    /\ removed_records (self w') !! "orgs.csv" = Some (select (negb <$> mask) data)
    /\ (length (select mask data) + length (select (negb <$> mask) data) = 3)%nat.
Proof.
  destruct (C10_rows_partition example_lib "orgs.csv" (fresh ex_files)
              (Csv [orgs_header;
                    ["o1"; "School"; "school"; ""];
                    ["o1"; "Again"; "school"; ""];
                    ["o2"; ""; "school"; ""]] None)
              orgs_header
              [["o1"; "School"; "school"; ""];
               ["o1"; "Again"; "school"; ""];
               ["o2"; ""; "school"; ""]])
    as (mask & Hlen & Hw & Hd & Hr & Hsum & _).
  - vm_compute. reflexivity.
  - reflexivity.
  - vm_compute. reflexivity.
  - repeat constructor.
  - vm_compute. discriminate.
  - cbv zeta. exists mask. split; [exact Hlen|]. split; [exact Hw|].
    split; [exact Hd|]. split; [|exact Hsum].
    rewrite Hr. case_bool_decide as Hnil; [|reflexivity].
    exfalso. rewrite Hnil in Hsum.
    assert (Hcl : (length (select mask
                    (data_rows [orgs_header;
                                ["o1"; "School"; "school"; ""];
                                ["o1"; "Again"; "school"; ""];
                                ["o2"; ""; "school"; ""]])) = 1)%nat).
    { assert (Hsome : Some (select mask
                    (data_rows [orgs_header;
                                ["o1"; "School"; "school"; ""];
                                ["o1"; "Again"; "school"; ""];
                                ["o2"; ""; "school"; ""]]))
                      = Some [DictReader_row orgs_header ["o1"; "School"; "school"; ""]]).
      { rewrite <- Hd. vm_compute. reflexivity. }
      injection Hsome as ->. reflexivity. }
    rewrite Hcl in Hsum. simpl in Hsum. discriminate.
Defined.

(** ** An input on which C10 fails as it is stated *)

(** The roles.csv of [test_output_directory], whose row has one cell more
    than the header: the row passes the checks and is kept, writing it
    fails, and the row is neither in the clean copy, which holds the
    header only, nor in the log of removed rows, in the validator and in
    the report. *)
Lemma C10_counterexample :
  let w' := (run example_lib ex_dir ex_test_roles_files).2 in
  header_valid "roles.csv" roles_header = true
  /\ length (data_rows [roles_header;
                        ["user1"; "org1"; "teacher"; ""; ""; ""; ""; ""; ""]]) = 1%nat
  /\ fs w' !! "data/validated_output/roles.csv" = Some (File (Csv [roles_header] None))
  /\ removed_records (self w') !! "roles.csv" = None
  /\ (exists r, fs w' !! "data/validation_report.json" = Some (File (Json r))
                /\ removedRecords r !! "roles.csv" = None)
  /\ errors (self w')
     = [mkerr "orgs.csv" 0 "" "Required file orgs.csv not found";
        mkerr "users.csv" 0 "" "Required file users.csv not found";
        mkerr "roles.csv" 0 "" "dict contains fields not in fieldnames: None"].
Proof.
  split; [vm_compute; reflexivity|]. split; [vm_compute; reflexivity|].
  split; [vm_compute; reflexivity|]. split; [vm_compute; reflexivity|].
  split; [|vm_compute; reflexivity].
  eexists. split; vm_compute; reflexivity.
Defined.
